(** * lighthouse-worker: a shallow embedding of [index.js]

    The repository holds two revisions of [index.js]:

    - the in-process revision (module [InProcess] below), which drives the
      audit engine as a library behind a headless Chrome, writes the HTML
      report itself and uploads it to S3;
    - the subprocess revision (module [Subprocess] below), which shells out
      to the [lighthouse] command, reads the JSON report back from disk and
      appends an eleventh column with the link of the artifact.

    Everything the two revisions share ([hashStringTo12Digits], the logger,
    the clients) is embedded once.  External collaborators (clock, file
    system, Chrome, the engine, Google Sheets, S3) are answered by an
    environment of oracles; every call to one of them is recorded, with its
    answer, in a chronological trace. *)

From Stdlib Require Import ZArith NArith Ascii String List Lia Bool.
From Stdlib Require Import Floats.PrimFloat.
From stdpp Require Import base gmap strings list.

#[local] Set Warnings "-register-all,-clear-no-such-hyp".
#[local] Open Scope Z_scope.

(* ================================================================== *)
(** * Strings, the way the JavaScript code uses them *)
(* ================================================================== *)

Module Str.

(** Digits of [Number.prototype.toString(radix)] and
    [BigInt.prototype.toString(radix)]: [0-9] then [a-z]. *)
Definition digitChar (d : N) : ascii :=
  if (d <? 10)%N then ascii_of_N (48 + d) else ascii_of_N (87 + d).

(** Most significant digit first; [fuel] bounds the number of digits. *)
Fixpoint digitsRadix (radix : N) (fuel : nat) (n : N) (acc : string) : string :=
  match fuel with
  | O => acc
  | S fuel' =>
      let acc' := String (digitChar (n mod radix)) acc in
      if (n / radix =? 0)%N then acc' else digitsRadix radix fuel' (n / radix) acc'
  end.

(** [n.toString(radix)] for a non-negative integer [n], 2 <= radix <= 36.
    A number has at most as many digits as it has bits. *)
Definition toStringRadix (radix : N) (n : N) : string :=
  digitsRadix radix (S (N.to_nat (N.log2 n))) n EmptyString.

(** Template-literal rendering of an integer-valued number, for the
    magnitudes below 10^21 where JavaScript prints every digit (the
    program renders milliseconds since the epoch only). *)
Definition ofZ (z : Z) : string :=
  if z <? 0 then String "-" (toStringRadix 10 (Z.abs_N z))
  else toStringRadix 10 (Z.abs_N z).

Fixpoint repeatChar (c : ascii) (n : nat) : string :=
  match n with
  | O => EmptyString
  | S n' => String c (repeatChar c n')
  end.

(** [s.slice(0, n)] for [n >= 0]. *)
Definition slice0 (n : nat) (s : string) : string := String.substring 0 n s.

(** [s.padStart(n, c)] with a one-character filler. *)
Definition padStart (n : nat) (c : ascii) (s : string) : string :=
  repeatChar c (n - String.length s) +:+ s.

(** [s.split(sep)] with a one-character separator: always at least one
    piece, the empty string splits into one empty piece. *)
Fixpoint splitOn (sep : ascii) (s : string) : list string :=
  match s with
  | EmptyString => [EmptyString]
  | String c rest =>
      if Ascii.eqb c sep then EmptyString :: splitOn sep rest
      else match splitOn sep rest with
           | piece :: pieces => String c piece :: pieces
           | [] => [String c EmptyString]
           end
  end.

Fixpoint joinWith (sep : string) (pieces : list string) : string :=
  match pieces with
  | [] => EmptyString
  | [p] => p
  | p :: rest => p +:+ sep +:+ joinWith sep rest
  end.

Definition chars (s : string) : list ascii := list_ascii_of_string s.

Definition allChars (p : ascii -> bool) (s : string) : bool := forallb p (chars s).

Definition dquote : string := String (ascii_of_nat 34) EmptyString.

End Str.

(* ================================================================== *)
(** * SHA-256 and hexadecimal digests ([crypto.createHash("sha256")]) *)
(* ================================================================== *)

Module Sha256.

Definition mask32 : Z := 4294967295.
Definition w32 (x : Z) : Z := Z.land x mask32.
Definition add32 (x y : Z) : Z := w32 (x + y).
Definition rotr (n x : Z) : Z := Z.lor (Z.shiftr x n) (w32 (Z.shiftl x (32 - n))).
Definition shr (n x : Z) : Z := Z.shiftr x n.
Definition not32 (x : Z) : Z := Z.lxor x mask32.

Definition Ch (x y z : Z) : Z := Z.lxor (Z.land x y) (Z.land (not32 x) z).
Definition Maj (x y z : Z) : Z :=
  Z.lxor (Z.lxor (Z.land x y) (Z.land x z)) (Z.land y z).
Definition bigSigma0 (x : Z) : Z := Z.lxor (Z.lxor (rotr 2 x) (rotr 13 x)) (rotr 22 x).
Definition bigSigma1 (x : Z) : Z := Z.lxor (Z.lxor (rotr 6 x) (rotr 11 x)) (rotr 25 x).
Definition smallSigma0 (x : Z) : Z := Z.lxor (Z.lxor (rotr 7 x) (rotr 18 x)) (shr 3 x).
Definition smallSigma1 (x : Z) : Z := Z.lxor (Z.lxor (rotr 17 x) (rotr 19 x)) (shr 10 x).

(** The first 64 primes. *)
Definition primes : list Z :=
  [ 2; 3; 5; 7; 11; 13; 17; 19; 23; 29; 31; 37; 41; 43; 47; 53;
    59; 61; 67; 71; 73; 79; 83; 89; 97; 101; 103; 107; 109; 113; 127; 131;
    137; 139; 149; 151; 157; 163; 167; 173; 179; 181; 191; 193; 197; 199; 211; 223;
    227; 229; 233; 239; 241; 251; 257; 263; 269; 271; 277; 281; 283; 293; 307; 311 ].

(** The integer cube root of [n], below [2 ^ bits], built bit by bit on
    top of [acc]. *)
Fixpoint cbrtBits (bits : nat) (n acc : Z) : Z :=
  match bits with
  | O => acc
  | S bits' =>
      let c := acc + 2 ^ Z.of_nat bits' in
      if c * c * c <=? n then cbrtBits bits' n c else cbrtBits bits' n acc
  end.

(** The first 32 bits of the fractional part of a cube root, of a square
    root. *)
Definition fracCbrt (p : Z) : Z := cbrtBits 40 (p * 2 ^ 96) 0 mod 2 ^ 32.
Definition fracSqrt (p : Z) : Z := Z.sqrt (p * 2 ^ 64) mod 2 ^ 32.

(** The round constants: from the cube roots of the first 64 primes. *)
Definition K : list Z := Eval vm_compute in map fracCbrt primes.

Record State := mkState { sa : Z; sb : Z; sc : Z; sd : Z; se : Z; sf : Z; sg : Z; sh : Z }.

(** The initial hash value: from the square roots of the first 8 primes. *)
Definition H0 : State :=
  Eval vm_compute in
    mkState (fracSqrt 2) (fracSqrt 3) (fracSqrt 5) (fracSqrt 7)
            (fracSqrt 11) (fracSqrt 13) (fracSqrt 17) (fracSqrt 19).

(** One round of the compression function. *)
Definition round (s : State) (kw : Z * Z) : State :=
  let t1 := add32 (add32 (add32 (add32 (sh s) (bigSigma1 (se s)))
                                (Ch (se s) (sf s) (sg s))) (fst kw)) (snd kw) in
  let t2 := add32 (bigSigma0 (sa s)) (Maj (sa s) (sb s) (sc s)) in
  mkState (add32 t1 t2) (sa s) (sb s) (sc s) (add32 (sd s) t1) (se s) (sf s) (sg s).

(** Message schedule: [win] holds the sixteen most recent words, oldest
    first; [n] further words are produced. *)
Fixpoint schedule (n : nat) (win : list Z) : list Z :=
  match n with
  | O => []
  | S n' =>
      let w := add32 (add32 (add32 (smallSigma1 (nth 14 win 0)) (nth 9 win 0))
                            (smallSigma0 (nth 1 win 0))) (nth 0 win 0) in
      w :: schedule n' (tl win ++ [w])
  end.

Fixpoint wordsOfBytes (n : nat) (bs : list Z) : list Z :=
  match n with
  | O => []
  | S n' =>
      (nth 0 bs 0 * 16777216 + nth 1 bs 0 * 65536 + nth 2 bs 0 * 256 + nth 3 bs 0)
        :: wordsOfBytes n' (skipn 4 bs)
  end.

Definition compress (s : State) (block : list Z) : State :=
  let w16 := wordsOfBytes 16 block in
  let w := w16 ++ schedule 48 w16 in
  let r := fold_left round (combine K w) s in
  mkState (add32 (sa s) (sa r)) (add32 (sb s) (sb r)) (add32 (sc s) (sc r))
          (add32 (sd s) (sd r)) (add32 (se s) (se r)) (add32 (sf s) (sf r))
          (add32 (sg s) (sg r)) (add32 (sh s) (sh r)).

Fixpoint bytesBE (n : nat) (x : Z) : list Z :=
  match n with
  | O => []
  | S n' => (Z.shiftr x (8 * Z.of_nat n')) mod 256 :: bytesBE n' x
  end.

(** Padding: a 1 bit, zeros, and the bit length on 64 bits, up to a
    multiple of 64 bytes. *)
Definition pad (msg : list Z) : list Z :=
  let len := Z.of_nat (length msg) in
  let zeros := Z.to_nat ((55 - len) mod 64) in
  msg ++ [128] ++ repeat 0 zeros ++ bytesBE 8 (8 * len).

Fixpoint blocks (n : nat) (s : State) (bs : list Z) : State :=
  match n with
  | O => s
  | S n' => blocks n' (compress s (firstn 64 bs)) (skipn 64 bs)
  end.

Definition digestBytes (msg : list Z) : list Z :=
  let padded := pad msg in
  let s := blocks (length padded / 64) H0 padded in
  flat_map (bytesBE 4) [sa s; sb s; sc s; sd s; se s; sf s; sg s; sh s].

(** The bytes [update(input)] feeds to the hash; the embedding takes the
    string as its UTF-8 bytes. *)
Definition bytesOfString (s : string) : list Z :=
  map (fun c => Z.of_N (N_of_ascii c)) (Str.chars s).

Definition hexOfByte (b : Z) : string :=
  String (Str.digitChar (Z.to_N (b / 16)))
    (String (Str.digitChar (Z.to_N (b mod 16))) EmptyString).

Fixpoint hexOfBytes (bs : list Z) : string :=
  match bs with
  | [] => EmptyString
  | b :: rest => hexOfByte b +:+ hexOfBytes rest
  end.

(** [crypto.createHash("sha256").update(input).digest("hex")]. *)
Definition hexDigest (input : string) : string :=
  hexOfBytes (digestBytes (bytesOfString input)).

End Sha256.

(* ================================================================== *)
(** * [BigInt("0x" + hex)] *)
(* ================================================================== *)

Module BigInt.

Definition hexValue (c : ascii) : option N :=
  let n := N_of_ascii c in
  if ((48 <=? n) && (n <=? 57))%N then Some (n - 48)%N
  else if ((97 <=? n) && (n <=? 102))%N then Some (n - 87)%N
  else if ((65 <=? n) && (n <=? 70))%N then Some (n - 55)%N
  else None.

Fixpoint hexDigits (acc : N) (s : string) : option N :=
  match s with
  | EmptyString => Some acc
  | String c rest =>
      match hexValue c with
      | Some d => hexDigits (16 * acc + d)%N rest
      | None => None
      end
  end.

(** [BigInt("0x" + hex)]: the digits after the prefix must be one or more
    hexadecimal digits; [None] is the [SyntaxError] otherwise. *)
Definition ofHex (hex : string) : option N :=
  match hex with
  | EmptyString => None
  | _ => hexDigits 0%N hex
  end.

End BigInt.

(* ================================================================== *)
(** * [hashStringTo12Digits] (both revisions, same text) *)
(* ================================================================== *)

(** [None] stands for the exception [BigInt] would raise on a malformed
    literal. *)
Definition hashStringTo12Digits (input : string) : option string :=
  let hash := Sha256.hexDigest input in
  match BigInt.ofHex hash with
  | None => None
  | Some n =>
      let base36Hash := Str.toStringRadix 36 n in
      Some (Str.padStart 12 "0" (Str.slice0 12 base36Hash))
  end.

(* ================================================================== *)
(** * [path.join] and [path.normalize] (POSIX flavour) *)
(* ================================================================== *)

Module Path.

(** [normalizeString]: empty and [.] segments vanish, [..] removes the
    segment before it, or stays when nothing is left to remove and the
    path is relative.  [res] is the result so far, last segment first. *)
Fixpoint normalizeSegments (allowAboveRoot : bool) (segs res : list string)
  : list string :=
  match segs with
  | [] => rev res
  | seg :: rest =>
      if String.eqb seg "" || String.eqb seg "." then
        normalizeSegments allowAboveRoot rest res
      else if String.eqb seg ".." then
        match res with
        | top :: res' =>
            if String.eqb top ".." then
              normalizeSegments allowAboveRoot rest
                (if allowAboveRoot then ".." :: res else res)
            else normalizeSegments allowAboveRoot rest res'
        | [] =>
            normalizeSegments allowAboveRoot rest
              (if allowAboveRoot then [".."] else [])
        end
      else normalizeSegments allowAboveRoot rest (seg :: res)
  end.

Definition startsWithSlash (p : string) : bool :=
  match p with
  | String c _ => Ascii.eqb c "/"
  | EmptyString => false
  end.

Fixpoint endsWithSlash (p : string) : bool :=
  match p with
  | EmptyString => false
  | String c EmptyString => Ascii.eqb c "/"
  | String _ rest => endsWithSlash rest
  end.

Definition normalize (p : string) : string :=
  match p with
  | EmptyString => "."
  | _ =>
      let isAbsolute := startsWithSlash p in
      let trailingSeparator := endsWithSlash p in
      let body :=
        Str.joinWith "/" (normalizeSegments (negb isAbsolute) (Str.splitOn "/" p) []) in
      match body with
      | EmptyString =>
          if isAbsolute then "/" else if trailingSeparator then "./" else "."
      | _ =>
          (if isAbsolute then "/" else "") +:+ body
            +:+ (if trailingSeparator then "/" else "")
      end
  end.

Definition nonEmpty (s : string) : bool := negb (String.eqb s "").

(** [path.join(...args)]. *)
Definition join (args : list string) : string :=
  match List.filter nonEmpty args with
  | [] => "."
  | kept => normalize (Str.joinWith "/" kept)
  end.

End Path.

(* ================================================================== *)
(** * [Date]: [toISOString], [getTime], and date-fns [format] *)
(* ================================================================== *)

Module JsDate.

Definition msPerDay : Z := 86400000.

(** Proleptic Gregorian (year, month 1..12, day 1..31) of a day number
    counted from 1970-01-01. *)
Definition civilFromDays (days : Z) : Z * Z * Z :=
  let z := days + 719468 in
  let era := z / 146097 in
  let doe := z - era * 146097 in
  let yoe := (doe - doe / 1460 + doe / 36524 - doe / 146096) / 365 in
  let doy := doe - (365 * yoe + yoe / 4 - yoe / 100) in
  let mp := (5 * doy + 2) / 153 in
  let d := doy - (153 * mp + 2) / 5 + 1 in
  let m := if mp <? 10 then mp + 3 else mp - 9 in
  let y := yoe + era * 400 + (if m <=? 2 then 1 else 0) in
  (y, m, d).

Definition padZ (width : nat) (n : Z) : string :=
  Str.padStart width "0" (Str.ofZ n).

(** The year of an ISO string: four digits from 0 to 9999, otherwise a
    sign and six digits. *)
Definition isoYear (y : Z) : string :=
  if (0 <=? y) && (y <=? 9999) then padZ 4 y
  else (if y <? 0 then "-" else "+") +:+ padZ 6 (Z.abs y).

(** [date.toISOString()] of a valid date, given as milliseconds since the
    epoch. *)
Definition toISOString (t : Z) : string :=
  let '(y, m, d) := civilFromDays (t / msPerDay) in
  let ms := t mod msPerDay in
  isoYear y +:+ "-" +:+ padZ 2 m +:+ "-" +:+ padZ 2 d +:+ "T"
    +:+ padZ 2 (ms / 3600000) +:+ ":" +:+ padZ 2 (ms / 60000 mod 60) +:+ ":"
    +:+ padZ 2 (ms / 1000 mod 60) +:+ "." +:+ padZ 3 (ms mod 1000) +:+ "Z".

(** [date.getTime()]. *)
Definition getTime (t : Z) : Z := t.

(** date-fns [format(date, "yyyy-MM-dd")]: the calendar day in local
    time, [utcOffsetMinutes] east of UTC; years before 1 are printed as
    years of the era before. *)
Definition format_yyyy_MM_dd (utcOffsetMinutes : Z) (t : Z) : string :=
  let '(y, m, d) := civilFromDays ((t + utcOffsetMinutes * 60000) / msPerDay) in
  let year := if 0 <? y then y else 1 - y in
  padZ 4 year +:+ "-" +:+ padZ 2 m +:+ "-" +:+ padZ 2 d.

End JsDate.

(* ================================================================== *)
(** * JavaScript values *)
(* ================================================================== *)

Inductive JsValue : Type :=
| JUndefined
| JNull
| JBool (b : bool)
| JNum (x : float)
| JStr (s : string)
| JArr (items : list JsValue)
| JObj (fields : gmap string JsValue).

(** What a computation ends with: a value, an exception carrying its
    message, or no continuation at all (a promise that never settles). *)
Inductive Outcome (A : Type) : Type :=
| Ok (a : A)
| Throw (message : string)
| Halt.
Arguments Ok {A} a.
Arguments Throw {A} message.
Arguments Halt {A}.

Module Js.

Definition isNullish (v : JsValue) : bool :=
  match v with
  | JUndefined | JNull => true
  | _ => false
  end.

(** [ToBoolean]: [undefined], [null], [false], [0], [-0], [NaN] and the
    empty string are falsy. *)
Definition truthy (v : JsValue) : bool :=
  match v with
  | JUndefined | JNull => false
  | JBool b => b
  | JNum x => negb (PrimFloat.eqb x 0%float || PrimFloat.is_nan x)
  | JStr s => negb (String.eqb s "")
  | JArr _ | JObj _ => true
  end.

(** [v[key]] on a value that is not nullish, for the property names the
    program reads ([report], [lhr], [categories], [finalUrl], [userAgent],
    [score] and the five category names): none of them is defined on a
    built-in prototype, so only objects can hold them. *)
Definition field (v : JsValue) (key : string) : JsValue :=
  match v with
  | JObj fields => default JUndefined (fields !! key)
  | _ => JUndefined
  end.

Definition typeName (v : JsValue) : string :=
  match v with
  | JNull => "null"
  | _ => "undefined"
  end.

(** [v.key]: a [TypeError] ([inl], with its message) on [undefined] and
    [null]. *)
Definition get (v : JsValue) (key : string) : string + JsValue :=
  if isNullish v then
    inl ("Cannot read properties of " +:+ typeName v
           +:+ " (reading '" +:+ key +:+ "')")
  else inr (field v key).

(** [v.k1.k2...], left to right. *)
Fixpoint getPath (v : JsValue) (keys : list string) : string + JsValue :=
  match keys with
  | [] => inr v
  | key :: rest =>
      match get v key with
      | inr v' => getPath v' rest
      | inl e => inl e
      end
  end.

(** [v?.key]. *)
Definition optGet (v : JsValue) (key : string) : JsValue :=
  if isNullish v then JUndefined else field v key.

(** [v ?? d]. *)
Definition coalesce (v d : JsValue) : JsValue :=
  if isNullish v then d else v.

(** An object literal. *)
Definition obj (fields : list (string * JsValue)) : JsValue :=
  JObj (list_to_map fields).

Definition isScalar (v : JsValue) : bool :=
  match v with
  | JArr _ | JObj _ => false
  | _ => true
  end.

(** Template-literal rendering of an environment variable. *)
Definition template (v : option string) : string :=
  match v with
  | Some s => s
  | None => "undefined"
  end.

End Js.

(* ================================================================== *)
(** * The world outside the program *)
(* ================================================================== *)

Inductive LogLevel : Type := LInfo | LError.

(** What the [lighthouse] subprocess leaves behind: the error of [exec]
    (a non-zero exit), its standard error, and the files it wrote. *)
Record ExecResult : Type := mkExecResult {
  execError : option string;
  execStderr : string;
  execWritten : list string
}.

(** One entry per call to a collaborator, with the answer it gave
    ([inl message] is a rejection). *)
Inductive Event : Type :=
| EvLog (level : LogLevel) (message : string)
| EvMkdir (path : string) (r : string + unit)
| EvChromeLaunch (r : string + Z)
| EvLighthouse (url formFactor : string) (port : Z) (r : string + JsValue)
| EvChromeKill (r : string + unit)
| EvExec (command : string) (r : ExecResult)
| EvReadJson (path : string) (r : string + JsValue)
| EvWriteFile (path : string) (data : JsValue) (r : string + unit)
| EvReadFile (path : string) (r : string + unit)
| EvUnlink (path : string) (r : string + unit)
| EvGetClient (r : string + unit)
| EvSheetsAppend (spreadsheetId : option string) (range : string)
    (values : list (list JsValue)) (r : string + unit)
| EvS3Put (bucket : option string) (key : string) (r : string + unit).

(** The files of the working directory (normalized paths) and the trace of
    calls so far, oldest first. *)
Record World : Type := mkWorld {
  files : gset string;
  trace : list Event
}.

(** The collaborators.  Every oracle sees the world at the time of the
    call, so its answers may depend on everything that happened before. *)
Record Env : Type := mkEnv {
  clock : World -> Z;
  utcOffsetMinutes : Z -> Z;
  HOST : option string;
  TARGET_URL : option string;
  S3_BUCKET_NAME : option string;
  SPREADSHEET_ID : option string;
  mkdirOracle : World -> string -> string + unit;
  launchOracle : World -> string + Z;
  lighthouseOracle : World -> string -> string -> Z -> string + JsValue;
  killOracle : World -> string + unit;
  execOracle : World -> string -> ExecResult;
  readJsonOracle : World -> string -> string + JsValue;
  writeFileOracle : World -> string -> JsValue -> string + unit;
  readFileOracle : World -> string -> string + unit;
  unlinkOracle : World -> string -> string + unit;
  getClientOracle : World -> string + unit;
  appendOracle : World -> option string -> string -> list (list JsValue) -> string + unit;
  s3SendOracle : World -> option string -> string -> string + unit
}.

(* ================================================================== *)
(** * Asynchronous computations: state, exceptions, unsettled promises *)
(* ================================================================== *)

Definition M (A : Type) : Type := World -> Outcome A * World.

Definition ret {A} (a : A) : M A := fun w => (Ok a, w).

Definition bind {A B} (m : M A) (k : A -> M B) : M B :=
  fun w =>
    match m w with
    | (Ok a, w') => k a w'
    | (Throw e, w') => (Throw e, w')
    | (Halt, w') => (Halt, w')
    end.

Definition throw {A} (message : string) : M A := fun w => (Throw message, w).

(** A synchronous expression that may throw. *)
Definition lift {A} (r : string + A) : M A :=
  fun w =>
    match r with
    | inl e => (Throw e, w)
    | inr a => (Ok a, w)
    end.

Declare Scope async_scope.
Delimit Scope async_scope with async.
Notation "x <- m ;; k" := (bind m (fun x => k))
  (at level 100, m at next level, right associativity) : async_scope.
Notation "m ;; k" := (bind m (fun _ => k))
  (at level 100, right associativity) : async_scope.
#[local] Open Scope async_scope.

(** [try { body } catch (error) { handler }]. *)
Definition tryCatch {A} (body : M A) (handler : string -> M A) : M A :=
  fun w =>
    match body w with
    | (Throw e, w') => handler e w'
    | r => r
    end.

(** [try { body } catch (error) { handler } finally { finalizer }]: the
    finalizer runs after either block unless the promise awaited there
    never settles; an exception of the finalizer replaces the outcome. *)
Definition tryCatchFinally {A} (body : M A) (handler : string -> M A)
  (finalizer : M unit) : M A :=
  fun w =>
    match tryCatch body handler w with
    | (Halt, w') => (Halt, w')
    | (o, w') =>
        match finalizer w' with
        | (Ok _, w'') => (o, w'')
        | (Throw e, w'') => (Throw e, w'')
        | (Halt, w'') => (Halt, w'')
        end
    end.

Definition record (e : Event) : M unit :=
  fun w => (Ok tt, mkWorld (files w) (trace w ++ [e])).

(** Await a collaborator: record the call with its answer, then resume or
    throw. *)
Definition await {A} (answer : World -> string + A) (ev : string + A -> Event) : M A :=
  fun w =>
    let r := answer w in
    let w' := mkWorld (files w) (trace w ++ [ev r]) in
    match r with
    | inl e => (Throw e, w')
    | inr a => (Ok a, w')
    end.

(** Synchronous expressions either have a value ([inr]) or throw ([inl],
    with the message); they compose the same way. *)
Definition obind {A B} (r : string + A) (k : A -> string + B) : string + B :=
  match r with
  | inr a => k a
  | inl e => inl e
  end.

Declare Scope sync_scope.
Delimit Scope sync_scope with sync.
Notation "x <- o ;; k" := (obind o (fun x => k))
  (at level 100, o at next level, right associativity) : sync_scope.

(* ================================================================== *)
(** * What both revisions share *)
(* ================================================================== *)

Definition range : string := "2024!A1".

Definition NA : JsValue := JStr "N/A".

Definition invalidStructure : string := "Invalid Lighthouse result structure".

Section Shared.

Context (env : Env).

Definition logger_info (message : string) : M unit := record (EvLog LInfo message).
Definition logger_error (message : string) : M unit := record (EvLog LError message).

(** [new Date()]. *)
Definition newDate : M Z := fun w => (Ok (clock env w), w).

Definition enoent (syscall path : string) : string :=
  "ENOENT: no such file or directory, " +:+ syscall +:+ " '" +:+ path +:+ "'".

Definition fs_mkdir (dirPath : string) : M unit :=
  await (fun w => mkdirOracle env w dirPath) (EvMkdir dirPath).

(** [fs.writeFile]: on success the file exists. *)
Definition fs_writeFile (filePath : string) (data : JsValue) : M unit :=
  fun w =>
    let r := writeFileOracle env w filePath data in
    let t := trace w ++ [EvWriteFile filePath data r] in
    match r with
    | inl e => (Throw e, mkWorld (files w) t)
    | inr _ => (Ok tt, mkWorld (files w ∪ {[Path.normalize filePath]}) t)
    end.

(** [fs.readFile]: a missing file is an error whatever the oracle says. *)
Definition fs_readFile (filePath : string) : M unit :=
  await (fun w => if decide (Path.normalize filePath ∈ files w)
                  then readFileOracle env w filePath
                  else inl (enoent "open" filePath))
        (EvReadFile filePath).

(** [fs.unlink]: on success the file is gone.  The model knows the files
    it has seen written: a path outside them is answered with ENOENT, and
    a write that failed left no file. *)
Definition fs_unlink (filePath : string) : M unit :=
  fun w =>
    let r := if decide (Path.normalize filePath ∈ files w)
             then unlinkOracle env w filePath
             else inl (enoent "unlink" filePath) in
    let t := trace w ++ [EvUnlink filePath r] in
    match r with
    | inl e => (Throw e, mkWorld (files w) t)
    | inr _ => (Ok tt, mkWorld (files w ∖ {[Path.normalize filePath]}) t)
    end.

(** [ensureDirectoryExists]. *)
Definition ensureDirectoryExists (dirPath : string) : M unit :=
  tryCatch
    (fs_mkdir dirPath ;;
     logger_info ("Directory created: " +:+ dirPath))
    (fun error =>
       logger_error ("Error creating directory " +:+ dirPath +:+ ": " +:+ error)).

(** [x?.score ?? "N/A"]. *)
Definition scoreOrNA (category : JsValue) : JsValue :=
  Js.coalesce (Js.optGet category "score") NA.

(** The guard [if (!result.lhr || !result.lhr.categories) throw ...]. *)
Definition checkStructure (result : JsValue) : string + unit :=
  (lhr <- Js.get result "lhr" ;;
   if negb (Js.truthy lhr) then inl invalidStructure
   else
     categories <- Js.getPath result ["lhr"; "categories"] ;;
     if negb (Js.truthy categories) then inl invalidStructure else inr tt)%sync.

(** [{ score: result.lhr.categories[name]?.score ?? "N/A" }]. *)
Definition scoreLiteral (result : JsValue) (name : string) : string + JsValue :=
  (category <- Js.getPath result ["lhr"; "categories"; name] ;;
   inr (Js.obj [("score", scoreOrNA category)]))%sync.

(** The [lhr] field of the object literal handed to [saveToGoogleSheets]
    (the same text in both revisions). *)
Definition lhrLiteral (result : JsValue) : string + JsValue :=
  (finalUrl <- Js.getPath result ["lhr"; "finalUrl"] ;;
   performance <- scoreLiteral result "performance" ;;
   accessibility <- scoreLiteral result "accessibility" ;;
   bestPractices <- scoreLiteral result "best-practices" ;;
   seo <- scoreLiteral result "seo" ;;
   pwa <- scoreLiteral result "pwa" ;;
   userAgent <- Js.getPath result ["lhr"; "userAgent"] ;;
   inr (Js.obj
         [ ("finalUrl", finalUrl);
           ("categories",
             Js.obj [ ("performance", performance);
                      ("accessibility", accessibility);
                      ("best-practices", bestPractices);
                      ("seo", seo);
                      ("pwa", pwa) ]);
           ("userAgent", userAgent) ]))%sync.

(** [data.lhr.categories[name]?.score ?? "N/A"]. *)
Definition scoreColumn (data : JsValue) (name : string) : string + JsValue :=
  (category <- Js.getPath data ["lhr"; "categories"; name] ;;
   inr (scoreOrNA category))%sync.

(** The ten columns both revisions build from [data], in source order. *)
Definition commonColumns (data : JsValue) : string + list JsValue :=
  (date <- Js.get data "date" ;;
   device <- Js.get data "device" ;;
   urlKey <- Js.get data "urlKey" ;;
   finalUrl <- Js.getPath data ["lhr"; "finalUrl"] ;;
   performance <- scoreColumn data "performance" ;;
   accessibility <- scoreColumn data "accessibility" ;;
   bestPractices <- scoreColumn data "best-practices" ;;
   seo <- scoreColumn data "seo" ;;
   pwa <- scoreColumn data "pwa" ;;
   userAgent <- Js.getPath data ["lhr"; "userAgent"] ;;
   inr [ date; device; urlKey; finalUrl; performance; accessibility;
        bestPractices; seo; pwa; userAgent ])%sync.

(** [sheets.spreadsheets.values.append] followed by its log line, inside
    the [try] of [saveToGoogleSheets]. *)
Definition appendValues (values : list (list JsValue)) : M unit :=
  tryCatch
    (await (fun w => appendOracle env w (SPREADSHEET_ID env) range values)
           (EvSheetsAppend (SPREADSHEET_ID env) range values) ;;
     logger_info "Data saved to Google Sheets")
    (fun error =>
       logger_error ("Error saving data to Google Sheets: " +:+ error) ;;
       throw error).

(** The [PutObjectCommand] and its log line, inside the [try] of
    [uploadToS3]. *)
Definition putObject (bucketName : option string) (key : string) : M unit :=
  tryCatch
    (await (fun w => s3SendOracle env w bucketName key) (EvS3Put bucketName key) ;;
     logger_info ("File uploaded to S3: " +:+ key))
    (fun error =>
       logger_error ("Error uploading file to S3: " +:+ error) ;;
       throw error).

(** [hashStringTo12Digits] called from asynchronous code. *)
Definition keyOf (url : string) : M string :=
  match hashStringTo12Digits url with
  | Some key => ret key
  | None => throw "Cannot convert the digest to a BigInt"
  end.

(** The display name of the report. *)
Definition reportFileName (startTime : Z) (urlKey device : string) : string :=
  JsDate.toISOString startTime +:+ "-" +:+ urlKey +:+ "-lighthouse-report-"
    +:+ device +:+ ".html".

(** The body of [for (let i = 0; i < urls.length; i++)] run [remaining]
    more times from index [i]. *)
Fixpoint forEachUrl {O : Type} (task : string -> O -> option string -> M unit)
  (desktopOpts mobileOpts : O) (urls : list string) (bucketName : option string)
  (remaining : nat) (i : nat) : M unit :=
  match remaining with
  | O => ret tt
  | S remaining' =>
      match urls !! i with
      | Some url =>
          task url desktopOpts bucketName ;;
          task url mobileOpts bucketName ;;
          forEachUrl task desktopOpts mobileOpts urls bucketName remaining' (S i)
      | None => throw "The data argument must be of type string"
      end
  end.

(** [processLighthouse] over a task runner: the split of [TARGET_URL] is
    outside the [try], the loop inside. *)
Definition processWith {O : Type} (task : string -> O -> option string -> M unit)
  (desktopOpts mobileOpts : O) : M unit :=
  match TARGET_URL env with
  | None => throw "Cannot read properties of undefined (reading 'split')"
  | Some targets =>
      let urls := Str.splitOn "," targets in
      let bucketName := S3_BUCKET_NAME env in
      tryCatch
        (forEachUrl task desktopOpts mobileOpts urls bucketName (length urls) 0)
        (fun error => logger_error ("Error during scheduled task: " +:+ error))
  end.

End Shared.

(* ================================================================== *)
(** * The in-process revision *)
(* ================================================================== *)

Module InProcess.

Record Opts : Type := mkOpts {
  formFactor : string;
  screenEmulationDisabled : option bool;
  output : string
}.

Definition desktopOpts : Opts := mkOpts "desktop" (Some true) "html".
Definition mobileOpts : Opts := mkOpts "mobile" None "html".

Section Code.

Context (env : Env).

(** [runLighthouse]: Chrome is launched outside the [try]; the engine
    gets the port through [opts.port]. *)
Definition runLighthouse (url : string) (opts : Opts) : M JsValue :=
  port <- await (launchOracle env) EvChromeLaunch ;;
  tryCatchFinally
    (result <- await (fun w => lighthouseOracle env w url (formFactor opts) port)
                     (EvLighthouse url (formFactor opts) port) ;;
     logger_info ("Lighthouse run successful for " +:+ url) ;;
     ret result)
    (fun error =>
       logger_error ("Error running Lighthouse for " +:+ url +:+ ": " +:+ error) ;;
       throw error)
    (await (killOracle env) EvChromeKill ;;
     logger_info ("Chrome instance killed for " +:+ url)).

(** [saveToGoogleSheets]: ten columns. *)
Definition saveToGoogleSheets (data : JsValue) : M unit :=
  await (getClientOracle env) EvGetClient ;;
  row <- lift (commonColumns data) ;;
  appendValues env [row].

(** [uploadToS3]: the key is prefixed with the local day of the upload. *)
Definition uploadToS3 (filePath : string) (bucketName : option string)
  (key : string) : M unit :=
  now <- newDate env ;;
  let datePrefix := JsDate.format_yyyy_MM_dd (utcOffsetMinutes env now) now in
  let s3Key := Path.join [datePrefix; key] in
  fs_readFile env filePath ;;
  putObject env bucketName s3Key.

(** The argument of [saveToGoogleSheets] in [runAndSave]. *)
Definition sheetData (result : JsValue) (opts : Opts) (startTime : Z)
  (urlKey : string) : string + JsValue :=
  (lhr <- lhrLiteral result ;;
   inr (Js.obj [ ("lhr", lhr);
                ("device", JStr (formFactor opts));
                ("date", JStr (JsDate.toISOString startTime));
                ("urlKey", JStr urlKey) ]))%sync.

Definition runAndSave (url : string) (opts : Opts) (bucketName : option string)
  : M unit :=
  startTime <- newDate env ;;
  urlKey <- keyOf url ;;
  logger_info ("Processing started at " +:+ JsDate.toISOString startTime
                 +:+ " for URL: " +:+ url) ;;
  ensureDirectoryExists env "outputs" ;;
  attempt <- tryCatch
               (result <- runLighthouse url opts ;;
                logger_info ("Lighthouse run successful for " +:+ url) ;;
                ret (Some result))
               (fun error =>
                  logger_error ("Error running Lighthouse for " +:+ url +:+ ": "
                                  +:+ error) ;;
                  ret None) ;;
  match attempt with
  | None => ret tt
  | Some result =>
      let fileName := reportFileName startTime urlKey (formFactor opts) in
      let filePath := Path.join ["outputs"; fileName] in
      tryCatchFinally
        (report <- lift (Js.get result "report") ;;
         fs_writeFile env filePath report ;;
         logger_info ("HTML report written to file: " +:+ filePath) ;;
         lift (checkStructure result) ;;
         data <- lift (sheetData result opts startTime urlKey) ;;
         saveToGoogleSheets data ;;
         uploadToS3 filePath bucketName fileName)
        (fun error =>
           logger_error ("Error during saving or uploading: " +:+ error))
        (tryCatch
           (fs_unlink env filePath ;;
            logger_info ("Local HTML file deleted: " +:+ filePath))
           (fun error =>
              logger_error ("Error deleting local HTML file: " +:+ error))) ;;
      endTime <- newDate env ;;
      logger_info ("Processing ended at " +:+ JsDate.toISOString endTime
                     +:+ " for URL: " +:+ url) ;;
      logger_info ("Processing time: " +:+ Str.ofZ (endTime - startTime) +:+ " ms")
  end.

Definition processLighthouse : M unit :=
  processWith env runAndSave desktopOpts mobileOpts.

End Code.

End InProcess.

(* ================================================================== *)
(** * The subprocess revision *)
(* ================================================================== *)

Module Subprocess.

Record Size : Type := mkSize {
  width : Z;
  height : Z;
  deviceScaleFactor : float;
  mobile : bool;
  disabled : bool
}.

Record Opts : Type := mkOpts {
  device : string;
  size : Size;
  output : string
}.

Definition desktopOpts : Opts :=
  mkOpts "desktop" (mkSize 1366 768 1%float false false) "html".
Definition mobileOpts : Opts :=
  mkOpts "mobile" (mkSize 375 667 1.75%float true false) "html".

(** The command line of [runLighthouse]. *)
Definition screenEmulationFlags (device : string) (size : Size) : string :=
  if String.eqb device "mobile" then
    "--screenEmulation.mobile --screenEmulation.width=" +:+ Str.ofZ (width size)
      +:+ " --screenEmulation.height=" +:+ Str.ofZ (height size)
      +:+ " --screenEmulation.deviceScaleFactor=2"
  else if String.eqb device "desktop" then
    "--screenEmulation.mobile=false --screenEmulation.width=" +:+ Str.ofZ (width size)
      +:+ " --screenEmulation.height=" +:+ Str.ofZ (height size)
      +:+ " --screenEmulation.deviceScaleFactor=1 --preset=desktop"
  else "".

Definition commandLine (url device : string) (size : Size) (id : Z) : string :=
  "lighthouse " +:+ url +:+ " --chrome-flags=" +:+ Str.dquote +:+ "--headless"
    +:+ Str.dquote +:+ " --output=json --output=html --output-path=./outputs/"
    +:+ Str.ofZ id +:+ " --quiet --form-factor=" +:+ device +:+ " "
    +:+ screenEmulationFlags device size.

Section Code.

Context (env : Env).

(** [exec]: the callback always runs; the subprocess may have written
    files. *)
Definition child_exec (command : string) : M ExecResult :=
  fun w =>
    let r := execOracle env w command in
    (Ok r, mkWorld (files w ∪ list_to_set (map Path.normalize (execWritten r)))
                   (trace w ++ [EvExec command r])).

(** [JSON.parse(await fs.readFile(path, "utf-8"))]. *)
Definition readJson (filePath : string) : M JsValue :=
  await (fun w => if decide (Path.normalize filePath ∈ files w)
                  then readJsonOracle env w filePath
                  else inl (enoent "open" filePath))
        (EvReadJson filePath).

(** A rejection inside the [exec] callback has no handler: neither
    [resolve] nor [reject] is called and the promise never settles. *)
Definition unhandled {A} (m : M A) : M A :=
  fun w =>
    match m w with
    | (Throw _, w') => (Halt, w')
    | r => r
    end.

Definition logStderr (url stderr : string) : M unit :=
  if Path.nonEmpty stderr
  then logger_error ("Lighthouse stderr for " +:+ url +:+ ": " +:+ stderr)
  else ret tt.

Definition runLighthouse (url device : string) (size : Size) (id : Z) : M JsValue :=
  let command := commandLine url device size id in
  logger_info ("Running command " +:+ command) ;;
  r <- child_exec command ;;
  match execError r with
  | Some error =>
      logger_error ("Error running Lighthouse for " +:+ url +:+ ": " +:+ error) ;;
      logStderr url (execStderr r) ;;
      throw error
  | None =>
      logger_info ("Lighthouse run successful for " +:+ url) ;;
      lhr <- unhandled (readJson ("./outputs/" +:+ Str.ofZ id +:+ ".report.json")) ;;
      logStderr url (execStderr r) ;;
      ret (Js.obj [("lhr", lhr)])
  end.

(** [saveToGoogleSheets]: the ten columns and [data.link]. *)
Definition saveToGoogleSheets (data : JsValue) : M unit :=
  await (getClientOracle env) EvGetClient ;;
  row <- lift (columns <- commonColumns data ;;
               link <- Js.get data "link" ;;
               inr (columns ++ [link]))%sync ;;
  appendValues env [row].

(** [uploadToS3]: defined, never called in this revision. *)
Definition uploadToS3 (filePath : string) (bucketName : option string)
  (s3Path : string) : M unit :=
  fs_readFile env filePath ;;
  putObject env bucketName s3Path.

Definition sheetData (result : JsValue) (opts : Opts) (startTime : Z)
  (urlKey link : string) : string + JsValue :=
  (lhr <- lhrLiteral result ;;
   inr (Js.obj [ ("lhr", lhr);
                ("device", JStr (device opts));
                ("date", JStr (JsDate.toISOString startTime));
                ("urlKey", JStr urlKey);
                ("link", JStr link) ]))%sync.

Definition runAndSave (url : string) (opts : Opts) (bucketName : option string)
  : M unit :=
  startTime <- newDate env ;;
  urlKey <- keyOf url ;;
  logger_info ("Processing started at " +:+ JsDate.toISOString startTime
                 +:+ " for URL: " +:+ url) ;;
  ensureDirectoryExists env "outputs" ;;
  attempt <- tryCatch
               (result <- runLighthouse url (device opts) (size opts)
                            (JsDate.getTime startTime) ;;
                logger_info ("Lighthouse run successful for " +:+ url) ;;
                ret (Some result))
               (fun error =>
                  logger_error ("Error running Lighthouse for " +:+ url +:+ ": "
                                  +:+ error) ;;
                  ret None) ;;
  match attempt with
  | None => ret tt
  | Some result =>
      let fileName := reportFileName startTime urlKey (device opts) in
      let tempName := Str.ofZ (JsDate.getTime startTime) +:+ ".report.html" in
      let jsonTempName := Str.ofZ (JsDate.getTime startTime) +:+ ".report.json" in
      let filePath := Path.join ["outputs"; tempName] in
      let jsonFilePath := Path.join ["outputs"; jsonTempName] in
      now <- newDate env ;;
      let datePrefix := JsDate.format_yyyy_MM_dd (utcOffsetMinutes env now) now in
      let s3Path := datePrefix +:+ "/" +:+ fileName in
      let link := Js.template (HOST env) +:+ "/" +:+ s3Path in
      tryCatchFinally
        (logger_info ("HTML report written to file: " +:+ filePath) ;;
         lift (checkStructure result) ;;
         data <- lift (sheetData result opts startTime urlKey link) ;;
         saveToGoogleSheets data)
        (fun error =>
           logger_error ("Error during saving or uploading: " +:+ error))
        (tryCatch
           (logger_info ("Local HTML file deleted: " +:+ filePath))
           (fun error =>
              logger_error ("Error deleting local HTML file: " +:+ error))) ;;
      endTime <- newDate env ;;
      logger_info ("Processing ended at " +:+ JsDate.toISOString endTime
                     +:+ " for URL: " +:+ url) ;;
      logger_info ("Processing time: " +:+ Str.ofZ (endTime - startTime) +:+ " ms")
  end.

Definition processLighthouse : M unit :=
  processWith env runAndSave desktopOpts mobileOpts.

End Code.

End Subprocess.

(* ================================================================== *)
(** * Facts about strings and digits *)
(* ================================================================== *)

(** The alphabet of keys: [0-9a-z]. *)
Definition isKeyChar (c : ascii) : bool :=
  let n := N_of_ascii c in
  ((48 <=? n) && (n <=? 57) || (97 <=? n) && (n <=? 122))%N.

Definition isHexChar (c : ascii) : bool :=
  match BigInt.hexValue c with
  | Some _ => true
  | None => false
  end.

Lemma chars_app (s t : string) : Str.chars (s +:+ t) = Str.chars s ++ Str.chars t.
Proof.
  induction s as [|c s IH]; simpl; [reflexivity|].
  unfold Str.chars in *. simpl. now rewrite IH.
Qed.

Lemma length_app (s t : string) :
  String.length (s +:+ t) = (String.length s + String.length t)%nat.
Proof. induction s as [|c s IH]; simpl; [reflexivity | now rewrite IH]. Qed.

Lemma length_chars (s : string) : length (Str.chars s) = String.length s.
Proof. induction s as [|c s IH]; simpl; [reflexivity | now f_equal]. Qed.

Lemma allChars_app (p : ascii -> bool) (s t : string) :
  Str.allChars p (s +:+ t) = Str.allChars p s && Str.allChars p t.
Proof. unfold Str.allChars. rewrite chars_app. apply forallb_app. Qed.

Lemma allChars_cons (p : ascii -> bool) (c : ascii) (s : string) :
  Str.allChars p (String c s) = p c && Str.allChars p s.
Proof. reflexivity. Qed.

Lemma length_repeatChar (c : ascii) (n : nat) : String.length (Str.repeatChar c n) = n.
Proof. induction n; simpl; congruence. Qed.

Lemma allChars_repeatChar (p : ascii -> bool) (c : ascii) (n : nat) :
  p c = true -> Str.allChars p (Str.repeatChar c n) = true.
Proof.
  intros Hc. induction n as [|n IH]; [reflexivity|].
  simpl. rewrite allChars_cons, Hc, IH. reflexivity.
Qed.

Lemma length_slice0 (n : nat) (s : string) :
  String.length (Str.slice0 n s) = Nat.min n (String.length s).
Proof.
  unfold Str.slice0. revert n.
  induction s as [|c s IH]; intros [|n]; simpl; try reflexivity.
  now rewrite IH.
Qed.

Lemma allChars_slice0 (p : ascii -> bool) (n : nat) (s : string) :
  Str.allChars p s = true -> Str.allChars p (Str.slice0 n s) = true.
Proof.
  unfold Str.slice0. revert n.
  induction s as [|c s IH]; intros [|n] H; simpl; try reflexivity.
  rewrite allChars_cons in *. apply andb_prop in H as [Hc Hs].
  now rewrite Hc, IH.
Qed.

Lemma length_padStart (n : nat) (c : ascii) (s : string) :
  String.length (Str.padStart n c s) = Nat.max n (String.length s).
Proof. unfold Str.padStart. rewrite length_app, length_repeatChar. lia. Qed.

Lemma allChars_padStart (p : ascii -> bool) (n : nat) (c : ascii) (s : string) :
  p c = true -> Str.allChars p s = true -> Str.allChars p (Str.padStart n c s) = true.
Proof.
  intros Hc Hs. unfold Str.padStart.
  now rewrite allChars_app, allChars_repeatChar, Hs.
Qed.

Lemma N_of_digitChar (d : N) :
  (d < 36)%N ->
  N_of_ascii (Str.digitChar d) = (if (d <? 10)%N then 48 + d else 87 + d)%N.
Proof.
  intros Hd. unfold Str.digitChar.
  destruct (d <? 10)%N eqn:E; apply N_ascii_embedding; [apply N.ltb_lt in E|]; lia.
Qed.

Lemma digitChar_key (d : N) : (d < 36)%N -> isKeyChar (Str.digitChar d) = true.
Proof.
  intros Hd. unfold isKeyChar. rewrite N_of_digitChar by assumption.
  destruct (d <? 10)%N eqn:E.
  - apply N.ltb_lt in E. apply orb_true_iff. left.
    apply andb_true_iff. split; apply N.leb_le; lia.
  - apply N.ltb_ge in E. apply orb_true_iff. right.
    apply andb_true_iff. split; apply N.leb_le; lia.
Qed.

Lemma digitsRadix_key (radix : N) (fuel : nat) (n : N) (acc : string) :
  (0 < radix <= 36)%N ->
  Str.allChars isKeyChar acc = true ->
  Str.allChars isKeyChar (Str.digitsRadix radix fuel n acc) = true.
Proof.
  intros Hr. revert n acc.
  induction fuel as [|fuel IH]; intros n acc Hacc; simpl; [assumption|].
  assert (Hd : isKeyChar (Str.digitChar (n mod radix)) = true).
  { apply digitChar_key. pose proof (N.mod_lt n radix). lia. }
  destruct (n / radix =? 0)%N.
  - now rewrite allChars_cons, Hd.
  - apply IH. now rewrite allChars_cons, Hd.
Qed.

Lemma toStringRadix_key (radix n : N) :
  (0 < radix <= 36)%N -> Str.allChars isKeyChar (Str.toStringRadix radix n) = true.
Proof. intros Hr. now apply digitsRadix_key. Qed.

(** ** The digits denote the number: [toString(radix)] loses nothing *)

Definition digitValue (c : ascii) : N :=
  let n := N_of_ascii c in
  if (n <? 58)%N then n - 48 else n - 87.

Definition digitsValue (radix : N) (s : string) : N :=
  fold_left (fun acc c => radix * acc + digitValue c)%N (Str.chars s) 0%N.

Lemma digitValue_digitChar (d : N) : (d < 36)%N -> digitValue (Str.digitChar d) = d.
Proof.
  intros Hd. unfold digitValue. rewrite N_of_digitChar by assumption.
  destruct (d <? 10)%N eqn:E.
  - apply N.ltb_lt in E.
    replace (48 + d <? 58)%N with true by (symmetry; apply N.ltb_lt; lia). lia.
  - apply N.ltb_ge in E.
    replace (87 + d <? 58)%N with false by (symmetry; apply N.ltb_ge; lia). lia.
Qed.

Lemma fold_digits_shift (radix : N) (cs : list ascii) (v0 : N) :
  fold_left (fun acc c => radix * acc + digitValue c)%N cs v0
  = (v0 * radix ^ N.of_nat (length cs)
     + fold_left (fun acc c => radix * acc + digitValue c)%N cs 0)%N.
Proof.
  revert v0. induction cs as [|c cs IH]; intros v0.
  - simpl. lia.
  - cbn [fold_left length]. rewrite IH.
    rewrite (IH (radix * 0 + digitValue c)%N).
    rewrite Nat2N.inj_succ, N.pow_succ_r'. lia.
Qed.

Lemma digitsValue_cons (radix : N) (c : ascii) (s : string) :
  digitsValue radix (String c s)
  = (digitValue c * radix ^ N.of_nat (String.length s) + digitsValue radix s)%N.
Proof.
  unfold digitsValue. change (Str.chars (String c s)) with (c :: Str.chars s).
  cbn [fold_left]. rewrite fold_digits_shift, length_chars. f_equal. lia.
Qed.

Lemma digitsRadix_value (radix : N) (fuel : nat) (n : N) (acc : string) :
  (2 <= radix <= 36)%N ->
  (n < radix ^ N.of_nat fuel)%N ->
  digitsValue radix (Str.digitsRadix radix fuel n acc)
  = (n * radix ^ N.of_nat (String.length acc) + digitsValue radix acc)%N.
Proof.
  intros Hr. revert n acc.
  induction fuel as [|fuel IH]; intros n acc Hn.
  - simpl in *. assert (n = 0%N) by lia. subst n. lia.
  - cbn [Str.digitsRadix].
    assert (Hmod : (n mod radix < radix)%N) by (apply N.mod_lt; lia).
    assert (Hd : digitValue (Str.digitChar (n mod radix)) = (n mod radix)%N)
      by (apply digitValue_digitChar; lia).
    pose proof (N.div_mod n radix ltac:(lia)) as Hn'.
    destruct (n / radix =? 0)%N eqn:E.
    + apply N.eqb_eq in E. rewrite digitsValue_cons, Hd.
      rewrite E in Hn'. f_equal. f_equal. lia.
    + rewrite IH.
      * rewrite digitsValue_cons, Hd. cbn [String.length].
        rewrite Nat2N.inj_succ, N.pow_succ_r'. nia.
      * rewrite Nat2N.inj_succ, N.pow_succ_r' in Hn.
        apply N.Div0.div_lt_upper_bound. assumption.
Qed.

(** Parsing the digits of [n.toString(radix)] gives [n] back. *)
Lemma toStringRadix_value (radix n : N) :
  (2 <= radix <= 36)%N -> digitsValue radix (Str.toStringRadix radix n) = n.
Proof.
  intros Hr. unfold Str.toStringRadix. rewrite digitsRadix_value; trivial.
  - cbn. lia.
  - rewrite Nat2N.inj_succ, N2Nat.id.
    apply N.lt_le_trans with (2 ^ N.succ (N.log2 n))%N.
    + destruct (N.eq_dec n 0%N) as [->|Hn0]; [reflexivity|].
      apply N.log2_spec. lia.
    + apply N.pow_le_mono_l. lia.
Qed.

(* ================================================================== *)
(** * The identity of a URL *)
(* ================================================================== *)

(** The big-endian integer a byte string denotes. *)
Definition bigEndianValue (acc : N) (bs : list Z) : N :=
  fold_left (fun a b => 256 * a + Z.to_N b)%N bs acc.

(** The key as the specification words it: hash the URL, read the digest
    as an integer, write it in base 36, keep the first twelve characters,
    pad on the left with ['0'] up to twelve. *)
Definition deriveKey (url : string) : string :=
  let digest := bigEndianValue 0 (Sha256.digestBytes (Sha256.bytesOfString url)) in
  let base36 := Str.chars (Str.toStringRadix 36 digest) in
  let first12 := firstn 12 base36 in
  string_of_list_ascii (repeat "0"%char (12 - length first12) ++ first12).

Lemma hexValue_digitChar (d : N) :
  (d < 16)%N -> BigInt.hexValue (Str.digitChar d) = Some d.
Proof.
  intros Hd. unfold BigInt.hexValue. rewrite N_of_digitChar by lia.
  destruct (d <? 10)%N eqn:E.
  - apply N.ltb_lt in E.
    replace ((48 <=? 48 + d) && (48 + d <=? 57))%N with true.
    + f_equal. lia.
    + symmetry. apply andb_true_iff. split; apply N.leb_le; lia.
  - apply N.ltb_ge in E.
    replace ((48 <=? 87 + d) && (87 + d <=? 57))%N with false.
    + replace ((97 <=? 87 + d) && (87 + d <=? 102))%N with true.
      * f_equal. lia.
      * symmetry. apply andb_true_iff. split; apply N.leb_le; lia.
    + symmetry. apply andb_false_iff. right. apply N.leb_gt. lia.
Qed.

Definition isByte (b : Z) : Prop := 0 <= b < 256.

Lemma hexDigits_hexOfBytes (bs : list Z) :
  Forall isByte bs ->
  forall acc : N,
    BigInt.hexDigits acc (Sha256.hexOfBytes bs) = Some (bigEndianValue acc bs).
Proof.
  induction 1 as [|b bs Hb _ IH]; intros acc; [reflexivity|].
  unfold isByte in Hb.
  assert (H16 : 0 <= b / 16 < 16) by (split; [apply Z.div_pos | apply Z.div_lt_upper_bound]; lia).
  assert (Hm : 0 <= b mod 16 < 16) by (apply Z.mod_pos_bound; lia).
  cbn [Sha256.hexOfBytes]. unfold Sha256.hexOfByte.
  change (BigInt.hexDigits acc
            (String (Str.digitChar (Z.to_N (b / 16)))
               (String (Str.digitChar (Z.to_N (b mod 16))) (Sha256.hexOfBytes bs)))
          = Some (bigEndianValue acc (b :: bs))).
  cbn [BigInt.hexDigits].
  rewrite !hexValue_digitChar by lia.
  rewrite IH. unfold bigEndianValue. cbn [fold_left]. do 2 f_equal.
  pose proof (Z.div_mod b 16 ltac:(lia)). lia.
Qed.

Lemma bytesBE_isByte (n : nat) (x : Z) : Forall isByte (Sha256.bytesBE n x).
Proof.
  induction n as [|n IH]; simpl; constructor; [|assumption].
  apply Z.mod_pos_bound. lia.
Qed.

Lemma digestBytes_isByte (msg : list Z) : Forall isByte (Sha256.digestBytes msg).
Proof.
  unfold Sha256.digestBytes. cbv zeta.
  generalize (Sha256.blocks (length (Sha256.pad msg) / 64) Sha256.H0 (Sha256.pad msg)).
  intros s. cbn [flat_map].
  repeat (apply Forall_app; split; [apply bytesBE_isByte|]). constructor.
Qed.

Lemma hexOfBytes_nonempty (b : Z) (bs : list Z) :
  exists c s, Sha256.hexOfBytes (b :: bs) = String c s.
Proof.
  cbn [Sha256.hexOfBytes]. unfold Sha256.hexOfByte.
  eexists _, _. reflexivity.
Qed.

Lemma digestBytes_cons (msg : list Z) :
  exists b bs, Sha256.digestBytes msg = b :: bs.
Proof.
  unfold Sha256.digestBytes. cbv zeta.
  generalize (Sha256.blocks (length (Sha256.pad msg) / 64) Sha256.H0 (Sha256.pad msg)).
  intros s. cbn [flat_map Sha256.bytesBE app]. eauto.
Qed.

(** [BigInt("0x" + digest)] never raises: the digest is 64 hexadecimal
    digits, and its value is the digest read as a big-endian integer. *)
Lemma ofHex_hexDigest (input : string) :
  BigInt.ofHex (Sha256.hexDigest input)
  = Some (bigEndianValue 0 (Sha256.digestBytes (Sha256.bytesOfString input))).
Proof.
  unfold Sha256.hexDigest.
  destruct (digestBytes_cons (Sha256.bytesOfString input)) as (b & bs & E).
  pose proof (digestBytes_isByte (Sha256.bytesOfString input)) as HB.
  rewrite E in *.
  destruct (hexOfBytes_nonempty b bs) as (c & s & Es).
  unfold BigInt.ofHex. rewrite <- (hexDigits_hexOfBytes _ HB 0%N).
  now rewrite Es.
Qed.

Lemma slice0_firstn (n : nat) (s : string) :
  Str.slice0 n s = string_of_list_ascii (firstn n (Str.chars s)).
Proof.
  unfold Str.slice0. revert n.
  induction s as [|c s IH]; intros [|n]; try reflexivity.
  change (Str.chars (String c s)) with (c :: Str.chars s).
  cbn [String.substring firstn string_of_list_ascii]. now rewrite IH.
Qed.

Lemma repeatChar_repeat (c : ascii) (n : nat) :
  Str.repeatChar c n = string_of_list_ascii (repeat c n).
Proof. induction n as [|n IH]; simpl; [reflexivity | now rewrite IH]. Qed.

Lemma string_of_list_ascii_app (l1 l2 : list ascii) :
  string_of_list_ascii (l1 ++ l2) = string_of_list_ascii l1 +:+ string_of_list_ascii l2.
Proof. induction l1 as [|c l1 IH]; simpl; [reflexivity | now rewrite IH]. Qed.

Lemma length_string_of_list_ascii (l : list ascii) :
  String.length (string_of_list_ascii l) = length l.
Proof. induction l as [|c l IH]; simpl; [reflexivity | now rewrite IH]. Qed.

Lemma hashStringTo12Digits_deriveKey (input : string) :
  hashStringTo12Digits input = Some (deriveKey input).
Proof.
  unfold hashStringTo12Digits, deriveKey. cbv zeta.
  rewrite ofHex_hexDigest. f_equal.
  unfold Str.padStart. rewrite slice0_firstn, repeatChar_repeat.
  now rewrite length_string_of_list_ascii, string_of_list_ascii_app.
Qed.

Lemma hashStringTo12Digits_shape (input key : string) :
  hashStringTo12Digits input = Some key ->
  String.length key = 12%nat /\ Str.allChars isKeyChar key = true.
Proof.
  unfold hashStringTo12Digits. cbv zeta.
  destruct (BigInt.ofHex (Sha256.hexDigest input)) as [n|]; [|discriminate].
  intros [= <-]. split.
  - rewrite length_padStart, length_slice0. lia.
  - apply allChars_padStart; [reflexivity|].
    apply allChars_slice0, toStringRadix_key. lia.
Qed.

(** C7.  [hashStringTo12Digits] is total: on every string it returns a key,
    never an exception.  The key is the one the specification describes
    (the SHA-256 digest read as an integer, in base 36, first twelve
    characters, padded on the left with ['0']), it has exactly twelve
    characters, all of them in [0-9a-z], and it depends on the input alone:
    every call made by the program, in whatever state of the world, gives
    the same key and leaves the world as it was. *)
Theorem hashStringTo12Digits_total_key :
  forall input : string,
    hashStringTo12Digits input = Some (deriveKey input)
    /\ String.length (deriveKey input) = 12%nat
    /\ Str.allChars isKeyChar (deriveKey input) = true
    /\ (forall w : World, keyOf input w = (Ok (deriveKey input), w)).
Proof.
  intros input.
  pose proof (hashStringTo12Digits_deriveKey input) as E.
  destruct (hashStringTo12Digits_shape _ _ E) as [Hlen Hchars].
  repeat split; try assumption.
  intros w. unfold keyOf. now rewrite E.
Qed.

(* ================================================================== *)
(** * Reasoning about asynchronous computations *)
(* ================================================================== *)

(** [wp m w Q]: running [m] from [w] ends in an outcome and a world that
    satisfy [Q]. *)
Definition wp {A} (m : M A) (w : World) (Q : Outcome A -> World -> Prop) : Prop :=
  Q (fst (m w)) (snd (m w)).

(** The world after one more event. *)
Definition after (w : World) (e : Event) : World := mkWorld (files w) (trace w ++ [e]).

Section Rules.

Context (env : Env).
Context {A B : Type}.

Lemma wp_ret (a : A) w Q : Q (Ok a) w -> wp (ret a) w Q.
Proof. exact id. Qed.

Lemma wp_throw (e : string) w (Q : Outcome A -> World -> Prop) :
  Q (Throw e) w -> wp (throw e) w Q.
Proof. exact id. Qed.

Lemma wp_lift (r : string + A) w Q :
  match r with inl e => Q (Throw e) w | inr a => Q (Ok a) w end -> wp (lift r) w Q.
Proof. unfold wp, lift. now destruct r. Qed.

Lemma wp_bind (m : M A) (k : A -> M B) w Q :
  wp m w (fun o w' =>
            match o with
            | Ok a => wp (k a) w' Q
            | Throw e => Q (Throw e) w'
            | Halt => Q Halt w'
            end) ->
  wp (bind m k) w Q.
Proof. unfold wp, bind. now destruct (m w) as [[a|e|] w']. Qed.

Lemma wp_tryCatch (body : M A) (handler : string -> M A) w Q :
  wp body w (fun o w' =>
               match o with
               | Throw e => wp (handler e) w' Q
               | _ => Q o w'
               end) ->
  wp (tryCatch body handler) w Q.
Proof. unfold wp, tryCatch. now destruct (body w) as [[a|e|] w']. Qed.

Lemma wp_tryCatchFinally (body : M A) (handler : string -> M A)
  (finalizer : M unit) w Q :
  wp (tryCatch body handler) w
     (fun o w' =>
        match o with
        | Halt => Q Halt w'
        | _ => wp finalizer w'
                 (fun o' w'' =>
                    match o' with
                    | Ok _ => Q o w''
                    | Throw e => Q (Throw e) w''
                    | Halt => Q Halt w''
                    end)
        end) ->
  wp (tryCatchFinally body handler finalizer) w Q.
Proof.
  unfold wp, tryCatchFinally.
  destruct (tryCatch body handler w) as [[a|e|] w']; cbn [fst snd]; trivial;
    now destruct (finalizer w') as [[[]|e'|] w''].
Qed.

Lemma wp_await (answer : World -> string + A) (ev : string + A -> Event) w Q :
  (forall r,
      r = answer w ->
      match r with
      | inl e => Q (Throw e) (after w (ev r))
      | inr a => Q (Ok a) (after w (ev r))
      end) ->
  wp (await answer ev) w Q.
Proof.
  intros H. specialize (H (answer w) eq_refl).
  unfold wp, await. cbv zeta. now destruct (answer w).
Qed.

End Rules.

Section RulesOfPrimitives.

Context (env : Env).

Lemma wp_record (e : Event) w Q : Q (Ok tt) (after w e) -> wp (record e) w Q.
Proof. exact id. Qed.

Lemma wp_newDate w Q : Q (Ok (clock env w)) w -> wp (newDate env) w Q.
Proof. exact id. Qed.

Lemma wp_fs_writeFile (filePath : string) (data : JsValue) w Q :
  (forall e, Q (Throw e) (after w (EvWriteFile filePath data (inl e)))) ->
  Q (Ok tt) (mkWorld (files w ∪ {[Path.normalize filePath]})
                     (trace w ++ [EvWriteFile filePath data (inr tt)])) ->
  wp (fs_writeFile env filePath data) w Q.
Proof.
  intros Hfail Hok. unfold wp, fs_writeFile. cbv zeta.
  destruct (writeFileOracle env w filePath data) as [e|[]]; [apply Hfail | apply Hok].
Qed.

Lemma wp_fs_readFile (filePath : string) w Q :
  (forall e, Q (Throw e) (after w (EvReadFile filePath (inl e)))) ->
  (Path.normalize filePath ∈ files w ->
   Q (Ok tt) (after w (EvReadFile filePath (inr tt)))) ->
  wp (fs_readFile env filePath) w Q.
Proof.
  intros Hfail Hok. unfold fs_readFile. apply wp_await. intros r Hr.
  destruct r as [e|[]]; [apply Hfail|].
  apply Hok. destruct (decide (Path.normalize filePath ∈ files w)); [assumption|discriminate].
Qed.

(** [ensureDirectoryExists] always returns; what it logs depends on the
    answer [r] of [mkdir]. *)
Lemma wp_ensureDirectoryExists (dirPath : string) w Q :
  (forall r : string + unit,
      Q (Ok tt)
        (after (after w (EvMkdir dirPath r))
               (EvLog (match r with inr _ => LInfo | inl _ => LError end)
                      (match r with
                       | inr _ => "Directory created: " +:+ dirPath
                       | inl error =>
                           "Error creating directory " +:+ dirPath +:+ ": " +:+ error
                       end)))) ->
  wp (ensureDirectoryExists env dirPath) w Q.
Proof.
  intros H. unfold wp, ensureDirectoryExists, tryCatch, bind, fs_mkdir, await.
  cbv zeta. specialize (H (mkdirOracle env w dirPath)).
  destruct (mkdirOracle env w dirPath) as [msg|[]]; exact H.
Qed.

(** The answer of [fs.unlink]: a missing file is an error whatever the
    oracle says. *)
Definition unlinkAnswer (w : World) (filePath : string) : string + unit :=
  if decide (Path.normalize filePath ∈ files w)
  then unlinkOracle env w filePath
  else inl (enoent "unlink" filePath).

(** The cleanup block [try { await fs.unlink(p); logger.info(..) } catch
    (error) { logger.error(..) }] always returns; the file is gone exactly
    when [unlink] answered without an error. *)
Lemma wp_cleanup (filePath deleted failed : string) w Q :
  (forall r : string + unit,
      r = unlinkAnswer w filePath ->
      Q (Ok tt)
        (mkWorld (match r with
                  | inr _ => files w ∖ {[Path.normalize filePath]}
                  | inl _ => files w
                  end)
                 (trace (after w (EvUnlink filePath r))
                    ++ [EvLog (match r with inr _ => LInfo | inl _ => LError end)
                              (match r with
                               | inr _ => deleted
                               | inl error => failed +:+ error
                               end)]))) ->
  wp (tryCatch (fs_unlink env filePath ;; logger_info deleted)
               (fun error => logger_error (failed +:+ error))) w Q.
Proof.
  intros H. specialize (H _ eq_refl).
  unfold wp, tryCatch, bind, fs_unlink, unlinkAnswer in *. cbv zeta.
  destruct (decide (Path.normalize filePath ∈ files w));
    [destruct (unlinkOracle env w filePath) as [msg|[]]|]; exact H.
Qed.

Lemma wp_keyOf (url : string) w Q : Q (Ok (deriveKey url)) w -> wp (keyOf url) w Q.
Proof. unfold wp, keyOf. now rewrite hashStringTo12Digits_deriveKey. Qed.

End RulesOfPrimitives.

Section RulesOfTheSubprocess.

Context (env : Env).

Lemma wp_child_exec (command : string) w Q :
  (forall r,
      Q (Ok r) (mkWorld (files w ∪ list_to_set (map Path.normalize (execWritten r)))
                        (trace w ++ [EvExec command r]))) ->
  wp (Subprocess.child_exec env command) w Q.
Proof. intros H. apply H. Qed.

Lemma wp_unhandled {A} (m : M A) w Q :
  wp m w (fun o w' =>
            match o with
            | Throw _ => Q Halt w'
            | _ => Q o w'
            end) ->
  wp (Subprocess.unhandled m) w Q.
Proof. unfold wp, Subprocess.unhandled. now destruct (m w) as [[a|e|] w']. Qed.

End RulesOfTheSubprocess.

(** One step of symbolic execution. *)
Ltac wp_step :=
  lazymatch goal with
  | |- wp (bind _ _) _ _ => apply wp_bind
  | |- wp (ret _) _ _ => apply wp_ret
  | |- wp (throw _) _ _ => apply wp_throw
  | |- wp (lift ?r) _ _ =>
      apply wp_lift;
      let a := fresh "a" in
      destruct r as [?|a] eqn:?;
      [|lazymatch type of a with unit => destruct a | _ => idtac end]
  | |- wp (tryCatchFinally _ _ _) _ _ => apply wp_tryCatchFinally
  | |- wp (tryCatch (bind (fs_unlink _ _) _) _) _ _ => apply wp_cleanup; intros ? _
  | |- wp (tryCatch _ _) _ _ => apply wp_tryCatch
  | |- wp (record _) _ _ => apply wp_record
  | |- wp (logger_info _) _ _ => apply wp_record
  | |- wp (logger_error _) _ _ => apply wp_record
  | |- wp (newDate _) _ _ => apply wp_newDate
  | |- wp (keyOf _) _ _ => apply wp_keyOf
  | |- wp (await _ _) _ _ =>
      apply wp_await;
      let a := fresh "a" in
      intros [?|a] _;
      [|lazymatch type of a with unit => destruct a | _ => idtac end]
  | |- wp (fs_writeFile _ _ _) _ _ => apply wp_fs_writeFile; [intros ?|]
  | |- wp (fs_readFile _ _) _ _ => apply wp_fs_readFile; [intros ?|intros ?]
  | |- wp (Subprocess.child_exec _ _) _ _ => apply wp_child_exec; intros ?
  | |- wp (Subprocess.unhandled _) _ _ => apply wp_unhandled
  | |- wp (match ?x with _ => _ end) _ _ => destruct x eqn:?
  | |- wp (if ?x then _ else _) _ _ => destruct x eqn:?
  | |- wp (ensureDirectoryExists _ _) _ _ => apply wp_ensureDirectoryExists; intros ?
  | |- wp (appendValues _ _) _ _ => unfold appendValues
  | |- wp (putObject _ _ _) _ _ => unfold putObject
  | |- wp (InProcess.runLighthouse _ _ _) _ _ => unfold InProcess.runLighthouse
  | |- wp (InProcess.saveToGoogleSheets _ _) _ _ => unfold InProcess.saveToGoogleSheets
  | |- wp (InProcess.uploadToS3 _ _ _ _) _ _ => unfold InProcess.uploadToS3
  | |- wp (InProcess.runAndSave _ _ _ _) _ _ => unfold InProcess.runAndSave
  | |- wp (Subprocess.readJson _ _) _ _ => unfold Subprocess.readJson
  | |- wp (Subprocess.logStderr _ _) _ _ => unfold Subprocess.logStderr
  | |- wp (Subprocess.runLighthouse _ _ _ _ _) _ _ => unfold Subprocess.runLighthouse
  | |- wp (Subprocess.saveToGoogleSheets _ _) _ _ => unfold Subprocess.saveToGoogleSheets
  | |- wp (Subprocess.runAndSave _ _ _ _) _ _ => unfold Subprocess.runAndSave
  end;
  cbv beta iota zeta.

Ltac wp_run := repeat wp_step.

(* ================================================================== *)
(** * Observations on a trace *)
(* ================================================================== *)

(** The events recorded between two worlds of the same run. *)
Definition newEvents (w w' : World) : list Event :=
  drop (length (trace w)) (trace w').

(** The [values] handed to the tabular store, successful or not. *)
Definition appendedValues (es : list Event) : list (list (list JsValue)) :=
  flat_map (fun e => match e with
                     | EvSheetsAppend _ _ values _ => [values]
                     | _ => []
                     end) es.

(** The messages of the appends the tabular store rejected. *)
Definition failedAppends (es : list Event) : list string :=
  flat_map (fun e => match e with
                     | EvSheetsAppend _ _ _ (inl message) => [message]
                     | _ => []
                     end) es.

(** The steps of [uploadToS3] that reach a collaborator: reading the report
    back and sending it. *)
Definition uploadAttempts (es : list Event) : list Event :=
  flat_map (fun e => match e with
                     | EvReadFile _ _ | EvS3Put _ _ _ => [e]
                     | _ => []
                     end) es.

(** The keys sent to the blob store. *)
Definition uploadedKeys (es : list Event) : list string :=
  flat_map (fun e => match e with
                     | EvS3Put _ key _ => [key]
                     | _ => []
                     end) es.

(** The results the audit engine returned: the value of [lighthouse(...)]
    in process, [{ lhr: JSON.parse(...) }] from the subprocess. *)
Definition engineResults (es : list Event) : list JsValue :=
  flat_map (fun e => match e with
                     | EvLighthouse _ _ _ (inr result) => [result]
                     | EvReadJson _ (inr lhr) => [Js.obj [("lhr", lhr)]]
                     | _ => []
                     end) es.

Definition errorsLogged (es : list Event) : list string :=
  flat_map (fun e => match e with
                     | EvLog LError message => [message]
                     | _ => []
                     end) es.

Definition infosLogged (es : list Event) : list string :=
  flat_map (fun e => match e with
                     | EvLog LInfo message => [message]
                     | _ => []
                     end) es.

(** The unlink calls that did not remove their file. *)
Definition failedUnlinks (es : list Event) : list string :=
  flat_map (fun e => match e with
                     | EvUnlink path (inl _) => [path]
                     | _ => []
                     end) es.

(** The files the subprocess reported as written. *)
Definition engineFiles (es : list Event) : list string :=
  flat_map (fun e => match e with
                     | EvExec _ r => map Path.normalize (execWritten r)
                     | _ => []
                     end) es.

Lemma newEvents_app (w w' : World) (es : list Event) :
  trace w' = trace w ++ es -> newEvents w w' = es.
Proof. intros H. unfold newEvents. rewrite H. apply drop_app_length. Qed.

Lemma shape_start (w : World) : trace w = trace w ++ [].
Proof. now rewrite app_nil_r. Qed.

Lemma shape_after (w0 w : World) (e : Event) (es : list Event) :
  trace w = trace w0 ++ es -> trace (after w e) = trace w0 ++ (es ++ [e]).
Proof. intros H. unfold after. cbn [trace]. rewrite H. now rewrite app_assoc. Qed.

Lemma shape_files (w0 w : World) (F : gset string) (e : Event) (es : list Event) :
  trace w = trace w0 ++ es -> trace (mkWorld F (trace w ++ [e])) = trace w0 ++ (es ++ [e]).
Proof. intros H. cbn [trace]. rewrite H. now rewrite app_assoc. Qed.

(** A property of the events of a run, from a symbolic execution. *)
Lemma wp_newEvents {A} (m : M A) (w : World)
  (P : Outcome A -> World -> list Event -> Prop) :
  wp m w (fun o w' => exists es, trace w' = trace w ++ es /\ P o w' es) ->
  P (fst (m w)) (snd (m w)) (newEvents w (snd (m w))).
Proof.
  unfold wp. intros (es & Hes & HP). now rewrite (newEvents_app _ _ _ Hes).
Qed.

(* ================================================================== *)
(** * The row of a report *)
(* ================================================================== *)

Definition lhrOf (result : JsValue) : JsValue := Js.field result "lhr".
Definition categoriesOf (result : JsValue) : JsValue := Js.field (lhrOf result) "categories".

(** The score column of category [name]: the sentinel when the category or
    its score is [undefined] or [null], the score otherwise. *)
Definition scoreOf (result : JsValue) (name : string) : JsValue :=
  scoreOrNA (Js.field (categoriesOf result) name).

(** The ten columns both revisions write. *)
Definition reportRow (startTime : Z) (device urlKey : string) (result : JsValue)
  : list JsValue :=
  [ JStr (JsDate.toISOString startTime); JStr device; JStr urlKey;
    Js.field (lhrOf result) "finalUrl";
    scoreOf result "performance"; scoreOf result "accessibility";
    scoreOf result "best-practices"; scoreOf result "seo"; scoreOf result "pwa";
    Js.field (lhrOf result) "userAgent" ].

Lemma truthy_not_nullish (v : JsValue) : Js.truthy v = true -> Js.isNullish v = false.
Proof. now destruct v. Qed.

(** The guard passes exactly when [result], [result.lhr] and
    [result.lhr.categories] are all there and truthy. *)
Lemma checkStructure_ok (result : JsValue) :
  checkStructure result = inr tt
  <-> Js.isNullish result = false
      /\ Js.truthy (lhrOf result) = true
      /\ Js.truthy (categoriesOf result) = true.
Proof.
  unfold checkStructure, categoriesOf, lhrOf, obind, Js.getPath, Js.get.
  destruct (Js.isNullish result) eqn:En; [split; [discriminate | intros [? _]; discriminate]|].
  destruct (Js.truthy (Js.field result "lhr")) eqn:El; cbn [negb];
    [|split; [discriminate | intros (_ & ? & _); discriminate]].
  rewrite (truthy_not_nullish _ El).
  destruct (Js.truthy (Js.field (Js.field result "lhr") "categories")) eqn:Ec; cbn [negb].
  - split; auto.
  - split; [discriminate | intros (_ & _ & ?); discriminate].
Qed.

(** It fails with its own message exactly when [result.lhr] or
    [result.lhr.categories] is missing or falsy; [finalUrl] plays no part. *)
Lemma checkStructure_invalid (result : JsValue) :
  checkStructure result = inl invalidStructure
  <-> Js.isNullish result = false
      /\ (Js.truthy (lhrOf result) = false \/ Js.truthy (categoriesOf result) = false).
Proof.
  unfold checkStructure, categoriesOf, lhrOf, obind, Js.getPath, Js.get.
  destruct (Js.isNullish result) eqn:En.
  - split; [|intros [? _]; discriminate].
    destruct result; try discriminate En; cbn; intros [= H]; discriminate H.
  - destruct (Js.truthy (Js.field result "lhr")) eqn:El; cbn [negb].
    + rewrite (truthy_not_nullish _ El).
      destruct (Js.truthy (Js.field (Js.field result "lhr") "categories")) eqn:Ec;
        cbn [negb]; split; auto; try discriminate.
      intros (_ & [?|?]); discriminate.
    + split; auto.
Qed.

Lemma field_score (v : JsValue) : Js.field (Js.obj [("score", v)]) "score" = v.
Proof. reflexivity. Qed.

Lemma scoreOrNA_idem (category : JsValue) :
  scoreOrNA (Js.obj [("score", scoreOrNA category)]) = scoreOrNA category.
Proof.
  unfold scoreOrNA at 1. unfold Js.optGet.
  change (Js.isNullish (Js.obj [("score", scoreOrNA category)])) with false.
  cbv iota. rewrite field_score.
  unfold scoreOrNA, Js.coalesce.
  destruct (Js.isNullish (Js.optGet category "score")) eqn:E; [reflexivity|].
  now rewrite E.
Qed.

Definition lhrObject (finalUrl performance accessibility bestPractices seo pwa
  userAgent : JsValue) : JsValue :=
  Js.obj
    [ ("finalUrl", finalUrl);
      ("categories",
        Js.obj [ ("performance", Js.obj [("score", performance)]);
                 ("accessibility", Js.obj [("score", accessibility)]);
                 ("best-practices", Js.obj [("score", bestPractices)]);
                 ("seo", Js.obj [("score", seo)]);
                 ("pwa", Js.obj [("score", pwa)]) ]);
      ("userAgent", userAgent) ].

Lemma lhrLiteral_ok (result : JsValue) :
  checkStructure result = inr tt ->
  lhrLiteral result
  = inr (lhrObject (Js.field (lhrOf result) "finalUrl")
           (scoreOf result "performance") (scoreOf result "accessibility")
           (scoreOf result "best-practices") (scoreOf result "seo")
           (scoreOf result "pwa") (Js.field (lhrOf result) "userAgent")).
Proof.
  intros H. apply checkStructure_ok in H as (Hr & Hl & Hc).
  apply truthy_not_nullish in Hl, Hc.
  unfold categoriesOf, lhrOf in *.
  unfold lhrLiteral, scoreLiteral, scoreOf, categoriesOf, lhrOf, obind, Js.getPath, Js.get.
  now rewrite Hr, Hl, Hc.
Qed.

(** [saveToGoogleSheets] reads the columns back from the literal. *)
Lemma commonColumns_InProcess (f p a b s q u device date urlKey : JsValue) :
  commonColumns (Js.obj [ ("lhr", lhrObject f p a b s q u); ("device", device);
                          ("date", date); ("urlKey", urlKey) ])
  = inr [ date; device; urlKey; f;
          scoreOrNA (Js.obj [("score", p)]); scoreOrNA (Js.obj [("score", a)]);
          scoreOrNA (Js.obj [("score", b)]); scoreOrNA (Js.obj [("score", s)]);
          scoreOrNA (Js.obj [("score", q)]); u ].
Proof. vm_compute. reflexivity. Qed.

Lemma commonColumns_Subprocess (f p a b s q u device date urlKey link : JsValue) :
  let data := Js.obj [ ("lhr", lhrObject f p a b s q u); ("device", device);
                       ("date", date); ("urlKey", urlKey); ("link", link) ] in
  commonColumns data
  = inr [ date; device; urlKey; f;
          scoreOrNA (Js.obj [("score", p)]); scoreOrNA (Js.obj [("score", a)]);
          scoreOrNA (Js.obj [("score", b)]); scoreOrNA (Js.obj [("score", s)]);
          scoreOrNA (Js.obj [("score", q)]); u ]
  /\ Js.get data "link" = inr link.
Proof. split; vm_compute; reflexivity. Qed.

(** The rows [saveToGoogleSheets] builds from the literal [runAndSave]
    hands it, once the guard has passed. *)
Lemma InProcess_row (result : JsValue) (opts : InProcess.Opts) (startTime : Z)
  (urlKey : string) :
  checkStructure result = inr tt ->
  exists data,
    InProcess.sheetData result opts startTime urlKey = inr data
    /\ commonColumns data
       = inr (reportRow startTime (InProcess.formFactor opts) urlKey result).
Proof.
  intros H. unfold InProcess.sheetData. rewrite (lhrLiteral_ok _ H).
  cbn [obind]. eexists. split; [reflexivity|].
  rewrite commonColumns_InProcess. unfold scoreOf.
  now rewrite !scoreOrNA_idem.
Qed.

Lemma Subprocess_row (result : JsValue) (opts : Subprocess.Opts) (startTime : Z)
  (urlKey link : string) :
  checkStructure result = inr tt ->
  exists data,
    Subprocess.sheetData result opts startTime urlKey link = inr data
    /\ commonColumns data
       = inr (reportRow startTime (Subprocess.device opts) urlKey result)
    /\ Js.get data "link" = inr (JStr link).
Proof.
  intros H. unfold Subprocess.sheetData. rewrite (lhrLiteral_ok _ H).
  cbn [obind]. eexists. split; [reflexivity|].
  match goal with
  | |- context [Js.obj [("lhr", lhrObject ?f ?p ?a ?b ?s ?q ?u); ("device", ?d);
                        ("date", ?t); ("urlKey", ?k); ("link", ?l)]] =>
      destruct (commonColumns_Subprocess f p a b s q u d t k l) as [Hc Hl]
  end.
  split; [|exact Hl].
  rewrite Hc. unfold scoreOf. now rewrite !scoreOrNA_idem.
Qed.

(* ================================================================== *)
(** * Runs of [runAndSave], observed through their events *)
(* ================================================================== *)

(** The events of a run, read off the final world. *)
Ltac trace_shape :=
  repeat first [apply shape_after | apply shape_files]; apply shape_start.

(** Symbolic execution down to the explicit list of events of each path. *)
Ltac run_events :=
  apply wp_newEvents; wp_run;
  (eexists; split; [trace_shape|]).

Ltac observe :=
  cbn [appendedValues failedAppends uploadAttempts uploadedKeys engineResults
       errorsLogged infosLogged failedUnlinks engineFiles flat_map app
       length In trace files].

(** The row is the one of the report, whenever the guard passed. *)
Ltac row_of_report :=
  match goal with
  | Hc : checkStructure ?r = inr tt,
    Hd : InProcess.sheetData ?r ?o ?t ?k = inr ?d,
    Hr : commonColumns ?d = inr ?row |- _ =>
      let d' := fresh in let Hd' := fresh in let Hr' := fresh in
      destruct (InProcess_row r o t k Hc) as (d' & Hd' & Hr');
      rewrite Hd in Hd'; injection Hd' as <-;
      rewrite Hr in Hr'; injection Hr' as ->
  end.

Lemma files_written_removed (F : gset string) (p : string) : (F ∪ {[p]}) ∖ {[p]} ⊆ F.
Proof. set_solver. Qed.

Lemma files_removed (F : gset string) (p : string) : F ∖ {[p]} ⊆ F.
Proof. set_solver. Qed.

(** Case analysis on the answers left symbolic by the block rules. *)
Ltac split_answers :=
  repeat match goal with
         | r : (string + unit)%type |- _ => destruct r as [?|[]]
         end.

Ltac in_list := solve [repeat first [left; reflexivity | right]].

Section InProcessRuns.

Context (env : Env) (url : string) (opts : InProcess.Opts)
        (bucketName : option string) (w : World).

Let run := InProcess.runAndSave env url opts bucketName w.
Let es := newEvents w (snd run).
Let startTime := clock env w.
Let device := InProcess.formFactor opts.
Let fileName := reportFileName startTime (deriveKey url) device.

(** Nothing escapes: every path returns normally. *)
Lemma InProcess_runAndSave_returns : fst run = Ok tt.
Proof.
  change (wp (InProcess.runAndSave env url opts bucketName) w (fun o _ => o = Ok tt)).
  wp_run; reflexivity.
Qed.

(** At most one append per task; it carries one row, the row of the
    report the engine returned, and that report passed the guard. *)
Lemma InProcess_appended :
  appendedValues es = []
  \/ exists result,
       engineResults es = [result]
       /\ checkStructure result = inr tt
       /\ appendedValues es = [[reportRow startTime device (deriveKey url) result]].
Proof.
  subst es run.
  apply (wp_newEvents (InProcess.runAndSave env url opts bucketName) w
           (fun _ _ es =>
              appendedValues es = []
              \/ exists result,
                   engineResults es = [result]
                   /\ checkStructure result = inr tt
                   /\ appendedValues es
                      = [[reportRow startTime device (deriveKey url) result]])).
  wp_run; (eexists; split; [trace_shape|]); observe; try (left; reflexivity).
  all: right; row_of_report; eexists; repeat split; eassumption || reflexivity.
Qed.

(** A rejected append is logged twice, by [saveToGoogleSheets] and by
    [runAndSave], and ends the [try] block: the upload is not started. *)
Lemma InProcess_failed_append :
  failedAppends es = []
  \/ exists e,
       failedAppends es = [e]
       /\ uploadAttempts es = []
       /\ In ("Error saving data to Google Sheets: " +:+ e) (errorsLogged es)
       /\ In ("Error during saving or uploading: " +:+ e) (errorsLogged es).
Proof.
  subst es run.
  apply (wp_newEvents (InProcess.runAndSave env url opts bucketName) w
           (fun _ _ es =>
              failedAppends es = []
              \/ exists e,
                   failedAppends es = [e]
                   /\ uploadAttempts es = []
                   /\ In ("Error saving data to Google Sheets: " +:+ e) (errorsLogged es)
                   /\ In ("Error during saving or uploading: " +:+ e) (errorsLogged es))).
  wp_run; (eexists; split; [trace_shape|]); observe; try (left; reflexivity).
  all: right; split_answers; observe; eexists; repeat split; in_list.
Qed.

(** The upload is attempted exactly when the append succeeded. *)
Lemma InProcess_upload_after_append :
  uploadAttempts es <> [] <->
  (exists values, appendedValues es = [values]) /\ failedAppends es = [].
Proof.
  subst es run.
  apply (wp_newEvents (InProcess.runAndSave env url opts bucketName) w
           (fun _ _ es =>
              uploadAttempts es <> [] <->
              (exists values, appendedValues es = [values]) /\ failedAppends es = [])).
  wp_run; (eexists; split; [trace_shape|]); observe.
  all: split;
    [ intros Hup;
      first [ exfalso; apply Hup; reflexivity
            | split; [eexists; reflexivity | reflexivity] ]
    | intros [[values Hval] Hfail];
      first [discriminate Hval | discriminate Hfail | discriminate] ].
Qed.

(** Every key sent to the blob store is the display name of the report
    under the local day of the upload. *)
Lemma InProcess_uploaded_key (key : string) :
  In key (uploadedKeys es) ->
  exists now : Z,
    key = Path.join [JsDate.format_yyyy_MM_dd (utcOffsetMinutes env now) now; fileName].
Proof.
  subst es run.
  apply (wp_newEvents (InProcess.runAndSave env url opts bucketName) w
           (fun _ _ es =>
              In key (uploadedKeys es) ->
              exists now : Z,
                key = Path.join
                        [JsDate.format_yyyy_MM_dd (utcOffsetMinutes env now) now; fileName])).
  wp_run; (eexists; split; [trace_shape|]); observe; intros Hkey; try contradiction.
  all: destruct Hkey as [<-|[]]; eexists; reflexivity.
Qed.

(** The only file the task writes is removed again unless [unlink] itself
    fails. *)
Lemma InProcess_cleanup :
  failedUnlinks es = [] -> files (snd run) ⊆ files w.
Proof.
  subst es run.
  apply (wp_newEvents (InProcess.runAndSave env url opts bucketName) w
           (fun _ w' es => failedUnlinks es = [] -> files w' ⊆ files w)).
  wp_run; (eexists; split; [trace_shape|]); observe;
    split_answers; observe; intros Hnone; try discriminate Hnone;
    first [reflexivity | apply files_written_removed | apply files_removed].
Qed.

End InProcessRuns.

(** The row of the subprocess revision: the ten columns and the link. *)
Ltac row_with_link :=
  match goal with
  | Hc : checkStructure ?r = inr tt,
    Hd : Subprocess.sheetData ?r ?o ?t ?k ?l = inr ?d,
    Hr : obind (commonColumns ?d) _ = inr ?row |- _ =>
      let d' := fresh in let Hd' := fresh in let Hr' := fresh in let Hl := fresh in
      destruct (Subprocess_row r o t k l Hc) as (d' & Hd' & Hr' & Hl);
      rewrite Hd in Hd'; injection Hd' as <-;
      rewrite Hr' in Hr; cbn [obind] in Hr; rewrite Hl in Hr; cbn [obind] in Hr;
      injection Hr as <-
  end.

Section SubprocessRuns.

Context (env : Env) (url : string) (opts : Subprocess.Opts)
        (bucketName : option string) (w : World).

Let run := Subprocess.runAndSave env url opts bucketName w.
Let es := newEvents w (snd run).
Let startTime := clock env w.
Let device := Subprocess.device opts.
Let fileName := reportFileName startTime (deriveKey url) device.

(** The storage path and the link built from it, for an archive instant
    [now]. *)
Definition storagePath (now : Z) : string :=
  JsDate.format_yyyy_MM_dd (utcOffsetMinutes env now) now +:+ "/" +:+ fileName.

Definition artifactLink (now : Z) : string :=
  Js.template (HOST env) +:+ "/" +:+ storagePath now.

(** No exception escapes; the task returns, or never does when the report
    of the subprocess cannot be read back. *)
Lemma Subprocess_runAndSave_contained : forall e, fst run <> Throw e.
Proof.
  change (wp (Subprocess.runAndSave env url opts bucketName) w
             (fun o _ => forall e, o <> Throw e)).
  wp_run; discriminate.
Qed.

(** At most one append per task; it carries one row: the ten columns of
    the report, which passed the guard, and the link. *)
Lemma Subprocess_appended :
  appendedValues es = []
  \/ exists result now,
       engineResults es = [result]
       /\ checkStructure result = inr tt
       /\ appendedValues es
          = [[reportRow startTime device (deriveKey url) result
                ++ [JStr (artifactLink now)]]].
Proof.
  subst es run.
  apply (wp_newEvents (Subprocess.runAndSave env url opts bucketName) w
           (fun _ _ es =>
              appendedValues es = []
              \/ exists result now,
                   engineResults es = [result]
                   /\ checkStructure result = inr tt
                   /\ appendedValues es
                      = [[reportRow startTime device (deriveKey url) result
                            ++ [JStr (artifactLink now)]]])).
  wp_run; (eexists; split; [trace_shape|]); observe; try (left; reflexivity).
  all: right; row_with_link.
  all: match goal with
       | |- context [EvReadJson _ (inr ?lhr)] =>
           exists (Js.obj [("lhr", lhr)])
       end.
  all: match goal with
       | |- context [JsDate.format_yyyy_MM_dd (utcOffsetMinutes env ?now) ?now] =>
           exists now
       end.
  all: unfold artifactLink, storagePath; subst fileName device startTime.
  all: split; [reflexivity|]; split; [assumption|]; reflexivity.
Qed.

(** This revision never starts an upload; a rejected append is logged
    twice and the task still returns. *)
Lemma Subprocess_failed_append :
  uploadAttempts es = []
  /\ (failedAppends es = []
      \/ exists e,
           failedAppends es = [e]
           /\ fst run = Ok tt
           /\ In ("Error saving data to Google Sheets: " +:+ e) (errorsLogged es)
           /\ In ("Error during saving or uploading: " +:+ e) (errorsLogged es)).
Proof.
  subst es run.
  apply (wp_newEvents (Subprocess.runAndSave env url opts bucketName) w
           (fun o _ es =>
              uploadAttempts es = []
              /\ (failedAppends es = []
                  \/ exists e,
                       failedAppends es = [e]
                       /\ o = Ok tt
                       /\ In ("Error saving data to Google Sheets: " +:+ e)
                             (errorsLogged es)
                       /\ In ("Error during saving or uploading: " +:+ e)
                             (errorsLogged es)))).
  wp_run; (eexists; split; [trace_shape|]); observe;
    (split; [reflexivity|]); try (left; reflexivity).
  all: right; split_answers; observe; eexists; repeat split; in_list.
Qed.

(** Nothing is ever removed: the files that were there, and the files the
    subprocess wrote, are all still there; no [unlink] is even attempted.
    A task that returns has nevertheless logged the deletion. *)
Lemma Subprocess_files_remain :
  files w ⊆ files (snd run)
  /\ (forall p, In p (engineFiles es) -> p ∈ files (snd run))
  /\ (forall p r, ~ In (EvUnlink p r) es)
  /\ (engineResults es <> [] -> fst run = Ok tt ->
      In ("Local HTML file deleted: "
            +:+ Path.join ["outputs"; Str.ofZ (JsDate.getTime startTime) +:+ ".report.html"])
         (infosLogged es)).
Proof.
  subst es run.
  apply (wp_newEvents (Subprocess.runAndSave env url opts bucketName) w
           (fun o w' es =>
              files w ⊆ files w'
              /\ (forall p, In p (engineFiles es) -> p ∈ files w')
              /\ (forall p r, ~ In (EvUnlink p r) es)
              /\ (engineResults es <> [] -> o = Ok tt ->
                  In ("Local HTML file deleted: "
                        +:+ Path.join ["outputs";
                                       Str.ofZ (JsDate.getTime startTime) +:+ ".report.html"])
                     (infosLogged es)))).
  wp_run; (eexists; split; [trace_shape|]); observe.
  all: split; [apply union_subseteq_l|].
  all: split; [intros p Hp; rewrite app_nil_r in Hp;
               apply elem_of_union_r, elem_of_list_to_set, list_elem_of_In, Hp|].
  all: split; [intros p r' Hin; cbn [In] in Hin;
               repeat (destruct Hin as [Hin|Hin]; [discriminate Hin|]); exact Hin|].
  all: intros Hres Hok; try discriminate Hok; try (now contradiction Hres).
  all: split_answers; observe; in_list.
Qed.

End SubprocessRuns.

(* ================================================================== *)
(** * The batch driver *)
(* ================================================================== *)

(** The order of the tasks of a batch, as the specification gives it:
    desktop before mobile for each URL, URLs in configuration order. *)
Definition taskOrder {O : Type} (desktopOpts mobileOpts : O) (urls : list string)
  : list (string * O) :=
  flat_map (fun url => [(url, desktopOpts); (url, mobileOpts)]) urls.

(** One task after the other, each awaited before the next starts. *)
Fixpoint sequentially {O : Type} (task : string -> O -> option string -> M unit)
  (bucketName : option string) (tasks : list (string * O)) : M unit :=
  match tasks with
  | [] => ret tt
  | (url, opts) :: rest =>
      task url opts bucketName ;; sequentially task bucketName rest
  end.

Lemma bind_ext {A B} (m : M A) (k k' : A -> M B) (w : World) :
  (forall a w', k a w' = k' a w') -> bind m k w = bind m k' w.
Proof. intros H. unfold bind. destruct (m w) as [[a|e|] w']; auto. Qed.

Lemma bind_assoc {A B C} (m : M A) (k : A -> M B) (k' : B -> M C) (w : World) :
  bind (bind m k) k' w = bind m (fun a => bind (k a) k') w.
Proof. unfold bind. now destruct (m w) as [[a|e|] w']. Qed.

Section Driver.

Context {O : Type} (env : Env) (task : string -> O -> option string -> M unit)
        (desktopOpts mobileOpts : O) (bucketName : option string).

Lemma forEachUrl_sequentially (urls : list string) (remaining i : nat) (w : World) :
  (i + remaining = length urls)%nat ->
  forEachUrl task desktopOpts mobileOpts urls bucketName remaining i w
  = sequentially task bucketName (taskOrder desktopOpts mobileOpts (drop i urls)) w.
Proof.
  revert i w. induction remaining as [|remaining IH]; intros i w Hlen.
  - rewrite drop_ge by lia. reflexivity.
  - destruct (lookup_lt_is_Some_2 urls i ltac:(lia)) as [url Hurl].
    cbn [forEachUrl]. rewrite Hurl, (drop_S _ _ _ Hurl).
    cbn [taskOrder flat_map app sequentially].
    apply bind_ext. intros _ w1. apply bind_ext. intros _ w2.
    apply IH. lia.
Qed.

Lemma sequentially_app (pre post : list (string * O)) (w : World) :
  sequentially task bucketName (pre ++ post) w
  = bind (sequentially task bucketName pre)
         (fun _ => sequentially task bucketName post) w.
Proof.
  revert w. induction pre as [|[url opts] pre IH]; intros w.
  - reflexivity.
  - cbn [app sequentially]. rewrite bind_assoc. apply bind_ext. intros _ w'. apply IH.
Qed.

Lemma sequentially_no_throw (tasks : list (string * O)) :
  (forall url opts w e, fst (task url opts bucketName w) <> Throw e) ->
  forall w e, fst (sequentially task bucketName tasks w) <> Throw e.
Proof.
  intros Htask. induction tasks as [|[url opts] tasks IH]; intros w e.
  - discriminate.
  - cbn [sequentially]. unfold bind.
    pose proof (Htask url opts w) as Hw.
    destruct (task url opts bucketName w) as [[[]|e'|] w']; cbn [fst] in *.
    + apply IH.
    + now contradiction (Hw e').
    + discriminate.
Qed.

Lemma tryCatch_no_throw {A} (body : M A) (handler : string -> M A) (w : World) :
  (forall e, fst (body w) <> Throw e) -> tryCatch body handler w = body w.
Proof.
  intros H. unfold tryCatch. destruct (body w) as [[a|e|] w']; trivial.
  now contradiction (H e).
Qed.

End Driver.

(** The driver is the [try] around the tasks in specification order. *)
Lemma processWith_sequentially {O : Type} (env : Env)
  (task : string -> O -> option string -> M unit) (desktopOpts mobileOpts : O)
  (targets : string) (w : World) :
  TARGET_URL env = Some targets ->
  processWith env task desktopOpts mobileOpts w
  = tryCatch
      (sequentially task (S3_BUCKET_NAME env)
         (taskOrder desktopOpts mobileOpts (Str.splitOn "," targets)))
      (fun error => logger_error ("Error during scheduled task: " +:+ error)) w.
Proof.
  intros Htargets. unfold processWith. rewrite Htargets. unfold tryCatch.
  now rewrite forEachUrl_sequentially by reflexivity.
Qed.

(** With a task runner that lets nothing escape, the [try] is transparent. *)
Lemma processWith_contained {O : Type} (env : Env)
  (task : string -> O -> option string -> M unit) (desktopOpts mobileOpts : O)
  (targets : string) (w : World) :
  TARGET_URL env = Some targets ->
  (forall url opts w e, fst (task url opts (S3_BUCKET_NAME env) w) <> Throw e) ->
  processWith env task desktopOpts mobileOpts w
  = sequentially task (S3_BUCKET_NAME env)
      (taskOrder desktopOpts mobileOpts (Str.splitOn "," targets)) w.
Proof.
  intros Htargets Htask. rewrite (processWith_sequentially _ _ _ _ _ _ Htargets).
  apply tryCatch_no_throw. now apply sequentially_no_throw.
Qed.

(* ================================================================== *)
(** * Names of artifacts *)
(* ================================================================== *)

Definition notSlash (c : ascii) : bool := negb (Ascii.eqb c "/").

(** A string without a path separator. *)
Definition noSlash (s : string) : bool := Str.allChars notSlash s.

Lemma noSlash_app (s t : string) : noSlash (s +:+ t) = noSlash s && noSlash t.
Proof. apply allChars_app. Qed.

Lemma allChars_impl (p q : ascii -> bool) (s : string) :
  (forall c, p c = true -> q c = true) ->
  Str.allChars p s = true -> Str.allChars q s = true.
Proof.
  intros Hpq. unfold Str.allChars. rewrite !forallb_forall. auto.
Qed.

Lemma isKeyChar_notSlash (c : ascii) : isKeyChar c = true -> notSlash c = true.
Proof.
  unfold isKeyChar, notSlash. intros H.
  destruct (Ascii.eqb_spec c "/") as [->|]; [discriminate H | reflexivity].
Qed.

Lemma noSlash_key (s : string) : Str.allChars isKeyChar s = true -> noSlash s = true.
Proof. apply allChars_impl, isKeyChar_notSlash. Qed.

Lemma noSlash_ofZ (z : Z) : noSlash (Str.ofZ z) = true.
Proof.
  unfold Str.ofZ.
  assert (H : noSlash (Str.toStringRadix 10 (Z.abs_N z)) = true)
    by (apply noSlash_key, toStringRadix_key; lia).
  destruct (z <? 0); [|exact H].
  unfold noSlash in *. now rewrite allChars_cons, H.
Qed.

Lemma noSlash_padZ (width : nat) (z : Z) : noSlash (JsDate.padZ width z) = true.
Proof. apply allChars_padStart; [reflexivity | apply noSlash_ofZ]. Qed.

Lemma length_padZ (width : nat) (z : Z) : (width <= String.length (JsDate.padZ width z))%nat.
Proof. unfold JsDate.padZ. rewrite length_padStart. lia. Qed.

Lemma noSlash_format (offset t : Z) : noSlash (JsDate.format_yyyy_MM_dd offset t) = true.
Proof.
  unfold JsDate.format_yyyy_MM_dd.
  destruct (JsDate.civilFromDays _) as [[y m] d].
  now rewrite !noSlash_app, !noSlash_padZ.
Qed.

Lemma length_format (offset t : Z) :
  (10 <= String.length (JsDate.format_yyyy_MM_dd offset t))%nat.
Proof.
  unfold JsDate.format_yyyy_MM_dd.
  destruct (JsDate.civilFromDays _) as [[y m] d].
  rewrite !length_app. cbn [String.length].
  pose proof (length_padZ 4 (if 0 <? y then y else 1 - y)).
  pose proof (length_padZ 2 m). pose proof (length_padZ 2 d). lia.
Qed.

Lemma noSlash_toISOString (t : Z) : noSlash (JsDate.toISOString t) = true.
Proof.
  unfold JsDate.toISOString.
  destruct (JsDate.civilFromDays _) as [[y m] d].
  assert (Hy : noSlash (JsDate.isoYear y) = true).
  { unfold JsDate.isoYear. destruct (_ && _); [apply noSlash_padZ|].
    rewrite noSlash_app, noSlash_padZ. now destruct (y <? 0). }
  now rewrite !noSlash_app, Hy, !noSlash_padZ.
Qed.

Lemma noSlash_reportFileName (startTime : Z) (urlKey device : string) :
  noSlash urlKey = true -> noSlash device = true ->
  noSlash (reportFileName startTime urlKey device) = true.
Proof.
  intros Hk Hd. unfold reportFileName.
  now rewrite !noSlash_app, noSlash_toISOString, Hk, Hd.
Qed.

Lemma length_reportFileName (startTime : Z) (urlKey device : string) :
  (25 <= String.length (reportFileName startTime urlKey device))%nat.
Proof. unfold reportFileName. rewrite !length_app. cbn [String.length]. lia. Qed.

(** ** [path.join] of two plain segments *)

Lemma append_nil_r (s : string) : s +:+ "" = s.
Proof.
  induction s as [|c s IH]; [reflexivity|].
  change (String c s +:+ "") with (String c (s +:+ "")). now rewrite IH.
Qed.

Lemma splitOn_noSep (sep : ascii) (s : string) :
  Str.allChars (fun c => negb (Ascii.eqb c sep)) s = true -> Str.splitOn sep s = [s].
Proof.
  induction s as [|c s IH]; intros H; [reflexivity|].
  rewrite allChars_cons in H. apply andb_prop in H as [Hc Hs].
  cbn [Str.splitOn]. apply negb_true_iff in Hc. rewrite Hc, (IH Hs). reflexivity.
Qed.

Lemma splitOn_app (sep : ascii) (s t : string) :
  Str.allChars (fun c => negb (Ascii.eqb c sep)) s = true ->
  Str.splitOn sep (s +:+ String sep t) = s :: Str.splitOn sep t.
Proof.
  induction s as [|c s IH]; intros H.
  - change ("" +:+ String sep t) with (String sep t).
    cbn [Str.splitOn]. now rewrite Ascii.eqb_refl.
  - rewrite allChars_cons in H. apply andb_prop in H as [Hc Hs].
    change (String c s +:+ String sep t) with (String c (s +:+ String sep t)).
    cbn [Str.splitOn]. apply negb_true_iff in Hc. rewrite Hc, (IH Hs). reflexivity.
Qed.

Lemma endsWithSlash_app (s t : string) :
  t <> "" -> Path.endsWithSlash (s +:+ t) = Path.endsWithSlash t.
Proof.
  intros Ht. induction s as [|c s IH]; [reflexivity|].
  change (String c s +:+ t) with (String c (s +:+ t)).
  cbn [Path.endsWithSlash]. destruct (s +:+ t) eqn:E; [|exact IH].
  destruct s; [|discriminate E]. now contradiction Ht.
Qed.

Lemma endsWithSlash_noSlash (s : string) : noSlash s = true -> Path.endsWithSlash s = false.
Proof.
  induction s as [|c s IH]; [reflexivity|]. intros H.
  unfold noSlash in H. rewrite allChars_cons in H. apply andb_prop in H as [Hc Hs].
  cbn [Path.endsWithSlash]. destruct s; [|now apply IH].
  now apply negb_true_iff in Hc.
Qed.

(** A segment [path.normalize] keeps as it is. *)
Definition plainSegment (s : string) : Prop :=
  noSlash s = true /\ (3 <= String.length s)%nat.

Lemma plainSegment_eqb (s : string) :
  plainSegment s ->
  String.eqb s "" = false /\ String.eqb s "." = false /\ String.eqb s ".." = false.
Proof.
  intros [_ Hlen]. repeat split; apply String.eqb_neq; intros ->; cbn in Hlen; lia.
Qed.

Lemma join_plain (a b : string) :
  plainSegment a -> plainSegment b -> Path.join [a; b] = a +:+ "/" +:+ b.
Proof.
  intros Ha Hb.
  destruct (plainSegment_eqb a Ha) as (Ha0 & Ha1 & Ha2).
  destruct (plainSegment_eqb b Hb) as (Hb0 & Hb1 & Hb2).
  destruct Ha as [Hsa Hla], Hb as [Hsb Hlb].
  unfold Path.join, Path.nonEmpty. cbn [List.filter]. rewrite Ha0, Hb0. cbn [negb].
  cbn [Str.joinWith]. unfold Path.normalize.
  destruct a as [|ca a']; [discriminate Ha0|].
  change (String ca a' +:+ "/" +:+ b) with (String ca (a' +:+ "/" +:+ b)).
  cbv zeta.
  assert (Hstart : Path.startsWithSlash (String ca (a' +:+ "/" +:+ b)) = false).
  { cbn [Path.startsWithSlash]. unfold noSlash in Hsa. rewrite allChars_cons in Hsa.
    apply andb_prop in Hsa as [Hc _]. now apply negb_true_iff in Hc. }
  assert (Hend : Path.endsWithSlash (String ca (a' +:+ "/" +:+ b)) = false).
  { change (String ca (a' +:+ "/" +:+ b)) with (String ca a' +:+ String "/" b).
    rewrite endsWithSlash_app by discriminate.
    destruct b as [|cb b']; [discriminate Hb0|].
    cbn [Path.endsWithSlash]. now apply (endsWithSlash_noSlash (String cb b')). }
  rewrite Hstart, Hend. cbn [negb].
  change (String ca (a' +:+ "/" +:+ b)) with (String ca a' +:+ String "/" b).
  rewrite (splitOn_app "/" (String ca a') b Hsa), (splitOn_noSep "/" b Hsb).
  cbn [Path.normalizeSegments]. rewrite Ha0, Ha1, Ha2, Hb0, Hb1, Hb2. cbn [orb rev app].
  cbn [Str.joinWith].
  change (String ca a' +:+ "/" +:+ b) with (String ca (a' +:+ "/" +:+ b)).
  cbv iota. now rewrite append_nil_r.
Qed.

(** The key [uploadToS3] computes and the path the subprocess revision
    writes into the sheet are the same string. *)
Lemma join_storage_path (offset now startTime : Z) (urlKey device : string) :
  noSlash urlKey = true -> noSlash device = true ->
  Path.join [JsDate.format_yyyy_MM_dd offset now; reportFileName startTime urlKey device]
  = JsDate.format_yyyy_MM_dd offset now +:+ "/" +:+ reportFileName startTime urlKey device.
Proof.
  intros Hk Hd. apply join_plain; split.
  - apply noSlash_format.
  - pose proof (length_format offset now). lia.
  - now apply noSlash_reportFileName.
  - pose proof (length_reportFileName startTime urlKey device). lia.
Qed.

(* ================================================================== *)
(** * Sample reports and a sample environment *)
(* ================================================================== *)

Definition category (score : JsValue) : JsValue := Js.obj [("score", score)].

Definition fourCategories : list (string * JsValue) :=
  [ ("performance", category (JNum 0.75%float));
    ("accessibility", category (JNum 1%float));
    ("best-practices", category (JNum 0.875%float));
    ("seo", category (JNum 0.5%float)) ].

Definition sampleResult (lhrFields : list (string * JsValue)) : JsValue :=
  Js.obj [("report", JStr "<!doctype html>"); ("lhr", Js.obj lhrFields)].

Definition fullReport : JsValue :=
  sampleResult [ ("finalUrl", JStr "https://example1.com/");
                 ("userAgent", JStr "Mozilla/5.0");
                 ("categories", Js.obj (fourCategories ++ [("pwa", category (JNum 0.25%float))])) ].

Definition reportWithoutPwa : JsValue :=
  sampleResult [ ("finalUrl", JStr "https://example1.com/");
                 ("userAgent", JStr "Mozilla/5.0");
                 ("categories", Js.obj fourCategories) ].

Definition reportWithZeroPwa : JsValue :=
  sampleResult [ ("finalUrl", JStr "https://example1.com/");
                 ("userAgent", JStr "Mozilla/5.0");
                 ("categories", Js.obj (fourCategories ++ [("pwa", category (JNum 0%float))])) ].

Definition reportWithoutFinalUrl : JsValue :=
  sampleResult [ ("userAgent", JStr "Mozilla/5.0");
                 ("categories", Js.obj fourCategories) ].

Definition reportWithoutCategories : JsValue :=
  sampleResult [ ("finalUrl", JStr "https://example1.com/");
                 ("userAgent", JStr "Mozilla/5.0") ].

(** 2024-05-01T10:00:00Z, in milliseconds since the epoch. *)
Definition sampleInstant : Z := 1714557600000.

(** An environment in UTC whose clock advances one millisecond per
    recorded call, where every collaborator answers, the engine returns
    [result] (the subprocess writes its two report files under the id of
    the task) and the tabular store answers [appendAnswer]. *)
Definition sampleEnv (targets : string) (result : JsValue) (appendAnswer : string + unit)
  : Env :=
  {| clock := fun w => sampleInstant + Z.of_nat (length (trace w));
     utcOffsetMinutes := fun _ => 0;
     HOST := Some "https://cdn.example.com";
     TARGET_URL := Some targets;
     S3_BUCKET_NAME := Some "reports";
     SPREADSHEET_ID := Some "sheet-1";
     mkdirOracle := fun _ _ => inr tt;
     launchOracle := fun _ => inr 9222;
     lighthouseOracle := fun _ _ _ _ => inr result;
     killOracle := fun _ => inr tt;
     execOracle := fun w _ =>
       let id := Str.ofZ (sampleInstant + Z.of_nat (length (trace w)) - 4) in
       mkExecResult None ""
         [ "./outputs/" +:+ id +:+ ".report.json";
           "./outputs/" +:+ id +:+ ".report.html" ];
     readJsonOracle := fun _ _ => inr (Js.field result "lhr");
     writeFileOracle := fun _ _ _ => inr tt;
     readFileOracle := fun _ _ => inr tt;
     unlinkOracle := fun _ _ => inr tt;
     getClientOracle := fun _ => inr tt;
     appendOracle := fun _ _ _ _ => appendAnswer;
     s3SendOracle := fun _ _ _ => inr tt |}.

Definition emptyWorld : World := mkWorld ∅ [].

Definition sampleUrl : string := "https://example1.com".

(** The engine calls of the in-process revision, in order. *)
Definition engineCalls (es : list Event) : list (string * string) :=
  flat_map (fun e => match e with
                     | EvLighthouse url formFactor _ _ => [(url, formFactor)]
                     | _ => []
                     end) es.

(** A task runner with a programming defect: it logs its task and throws
    on the URL [defect]. *)
Definition defectiveTask (url : string) (opts : InProcess.Opts)
  (bucketName : option string) : M unit :=
  logger_info ("task " +:+ url +:+ " " +:+ InProcess.formFactor opts) ;;
  if String.eqb url "defect" then throw "defect in the coordinator" else ret tt.

(* ================================================================== *)
(** * Examples *)
(* ================================================================== *)

Example sha256_constants :
  nth 0 Sha256.K 0 = 0x428a2f98 /\ nth 63 Sha256.K 0 = 0xc67178f2
  /\ Sha256.sa Sha256.H0 = 0x6a09e667 /\ Sha256.sh Sha256.H0 = 0x5be0cd19.
Proof. repeat split. Qed.

Example sha256_empty :
  Sha256.hexDigest ""
  = "e3b0c44298fc1c149afbf4c8996fb92427ae41e4649b934ca495991b7852b855".
Proof. vm_compute. reflexivity. Qed.

Example sha256_abc :
  Sha256.hexDigest "abc"
  = "ba7816bf8f01cfea414140de5dae2223b00361a396177a9cb410ff61f20015ad".
Proof. vm_compute. reflexivity. Qed.

Example sha256_two_blocks :
  Sha256.hexDigest "abcdbcdecdefdefgefghfghighijhijkijkljklmklmnlmnomnopnopq"
  = "248d6a61d20638b8e5c026930c3e6039a33ce45964ff2167f6ecedd419db06c1".
Proof. vm_compute. reflexivity. Qed.

Example key_of_sample_url : hashStringTo12Digits sampleUrl = Some "66oiczinwvov".
Proof. vm_compute. reflexivity. Qed.

Example key_of_empty_string : hashStringTo12Digits "" = Some "5oaq0bjhj6un".
Proof. vm_compute. reflexivity. Qed.

Example padStart_pads : Str.padStart 12 "0" "7z" = "00000000007z".
Proof. reflexivity. Qed.

Example toISOString_sample : JsDate.toISOString sampleInstant = "2024-05-01T10:00:00.000Z".
Proof. vm_compute. reflexivity. Qed.

Example toISOString_leap_day : JsDate.toISOString 951782400000 = "2000-02-29T00:00:00.000Z".
Proof. vm_compute. reflexivity. Qed.

Example toISOString_before_epoch : JsDate.toISOString (-1) = "1969-12-31T23:59:59.999Z".
Proof. vm_compute. reflexivity. Qed.

Example format_local_day :
  JsDate.format_yyyy_MM_dd 900 sampleInstant = "2024-05-02".
Proof. vm_compute. reflexivity. Qed.

Example join_normalizes : Path.join ["2024-05-01"; "../x/./y//z/"] = "x/y/z/".
Proof. vm_compute. reflexivity. Qed.

Example split_targets :
  Str.splitOn "," "https://example1.com,https://example2.com"
  = ["https://example1.com"; "https://example2.com"].
Proof. vm_compute. reflexivity. Qed.

Example zero_is_falsy_not_nullish :
  Js.truthy (JNum 0%float) = false /\ Js.isNullish (JNum 0%float) = false.
Proof. split; reflexivity. Qed.

(** One URL, two profiles: the engine is called for desktop, then mobile. *)
Example single_url_order :
  engineCalls
    (trace (snd (InProcess.processLighthouse
                   (sampleEnv sampleUrl fullReport (inr tt)) emptyWorld)))
  = [(sampleUrl, "desktop"); (sampleUrl, "mobile")].
Proof. vm_compute. reflexivity. Qed.

(** In process, a task that succeeds leaves the working directory as it
    found it. *)
Example in_process_leaves_nothing :
  files (snd (InProcess.runAndSave (sampleEnv sampleUrl fullReport (inr tt))
                sampleUrl InProcess.mobileOpts (Some "reports") emptyWorld))
  = ∅.
Proof. vm_compute. reflexivity. Qed.

(* ================================================================== *)
(** * The two sinks *)
(* ================================================================== *)

(** A structurally valid report, a tabular store that rejects the append:
    the in-process revision logs the failure and never starts the upload. *)
Lemma sheet_failure_skips_upload :
  let env := sampleEnv sampleUrl fullReport (inl "quota exceeded") in
  let run := InProcess.runAndSave env sampleUrl InProcess.mobileOpts
               (Some "reports") emptyWorld in
  let es := newEvents emptyWorld (snd run) in
  engineResults es = [fullReport]
  /\ checkStructure fullReport = inr tt
  /\ failedAppends es = ["quota exceeded"]
  /\ uploadAttempts es = [].
Proof. vm_compute. repeat split; reflexivity. Qed.

(** C1 (amended).  When the tabular store rejects the append, the failure
    is logged by [saveToGoogleSheets] and again by [runAndSave], the task
    returns normally, and the artifact upload is not attempted: in process
    the rejected append leaves the [try] block before [uploadToS3]; the
    subprocess revision has no upload at all. *)
Theorem failed_append_ends_publication :
  forall (env : Env) (url : string) (bucketName : option string) (w : World),
    (forall opts : InProcess.Opts,
        let run := InProcess.runAndSave env url opts bucketName w in
        let es := newEvents w (snd run) in
        failedAppends es <> [] ->
        fst run = Ok tt
        /\ uploadAttempts es = []
        /\ exists e,
             failedAppends es = [e]
             /\ In ("Error saving data to Google Sheets: " +:+ e) (errorsLogged es)
             /\ In ("Error during saving or uploading: " +:+ e) (errorsLogged es))
    /\ (forall opts : Subprocess.Opts,
           let run := Subprocess.runAndSave env url opts bucketName w in
           let es := newEvents w (snd run) in
           failedAppends es <> [] ->
           fst run = Ok tt
           /\ uploadAttempts es = []
           /\ exists e,
                failedAppends es = [e]
                /\ In ("Error saving data to Google Sheets: " +:+ e) (errorsLogged es)
                /\ In ("Error during saving or uploading: " +:+ e) (errorsLogged es)).
Proof.
  intros env url bucketName w. split; intros opts run es Hfail.
  - destruct (InProcess_failed_append env url opts bucketName w)
      as [Hnone|(e & He & Hup & Hlog1 & Hlog2)]; [now contradiction Hfail|].
    split; [apply InProcess_runAndSave_returns|]. split; [exact Hup|]. eauto.
  - destruct (Subprocess_failed_append env url opts bucketName w)
      as [Hup [Hnone|(e & He & Hok & Hlog1 & Hlog2)]]; [now contradiction Hfail|].
    split; [exact Hok|]. split; [exact Hup|]. eauto.
Qed.

Lemma failed_append_ends_publication_witness :
  let env := sampleEnv sampleUrl fullReport (inl "quota exceeded") in
  let run := Subprocess.runAndSave env sampleUrl Subprocess.mobileOpts
               (Some "reports") emptyWorld in
  let es := newEvents emptyWorld (snd run) in
  failedAppends es <> []
  /\ fst run = Ok tt
  /\ uploadAttempts es = []
  /\ exists e,
       failedAppends es = [e]
       /\ In ("Error saving data to Google Sheets: " +:+ e) (errorsLogged es)
       /\ In ("Error during saving or uploading: " +:+ e) (errorsLogged es).
Proof.
  intros env run es.
  assert (Hfail : failedAppends es <> []) by (vm_compute; discriminate).
  split; [exact Hfail|].
  exact (proj2 (failed_append_ends_publication env sampleUrl (Some "reports") emptyWorld)
           Subprocess.mobileOpts Hfail).
Defined.

(** In process the upload is attempted exactly when one row was appended
    and the append succeeded. *)
Lemma upload_follows_successful_append
  (env : Env) (url : string) (opts : InProcess.Opts) (bucketName : option string)
  (w : World) :
  let es := newEvents w (snd (InProcess.runAndSave env url opts bucketName w)) in
  uploadAttempts es <> [] <->
  (exists values, appendedValues es = [values]) /\ failedAppends es = [].
Proof. apply InProcess_upload_after_append. Qed.

(* ================================================================== *)
(** * Structural validation *)
(* ================================================================== *)

(** A report with categories and no final URL passes the guard and its row
    is appended, with [undefined] in the fourth column (index 3); a report
    with a final URL and no categories fails the guard. *)
Lemma row_appended_without_final_url :
  let env := sampleEnv sampleUrl reportWithoutFinalUrl (inr tt) in
  let run := InProcess.runAndSave env sampleUrl InProcess.desktopOpts
               (Some "reports") emptyWorld in
  let es := newEvents emptyWorld (snd run) in
  Js.field (lhrOf reportWithoutFinalUrl) "finalUrl" = JUndefined
  /\ engineResults es = [reportWithoutFinalUrl]
  /\ map (fun values => map (fun row => nth 3 row JNull) values) (appendedValues es)
     = [[JUndefined]]
  /\ Js.field (lhrOf reportWithoutCategories) "finalUrl" = JStr "https://example1.com/"
  /\ checkStructure reportWithoutCategories = inl invalidStructure.
Proof. vm_compute. repeat split. Qed.

(** C2 (amended).  The guard of [runAndSave] fails, with the message
    "Invalid Lighthouse result structure", exactly when [result.lhr] or
    [result.lhr.categories] is missing or falsy, whether or not the report
    has a final URL.  A row is appended only for a report that passed this
    guard: when the engine returned a result that does not pass it, no row
    is appended, and every appended row belongs to the one result of the
    task, which passed it. *)
Theorem append_only_after_guard :
  (forall result : JsValue,
      (checkStructure result = inl invalidStructure
       <-> Js.isNullish result = false
           /\ (Js.truthy (lhrOf result) = false
               \/ Js.truthy (categoriesOf result) = false))
      /\ (checkStructure result = inr tt
          <-> Js.isNullish result = false
              /\ Js.truthy (lhrOf result) = true
              /\ Js.truthy (categoriesOf result) = true))
  /\ (forall (env : Env) (url : string) (bucketName : option string) (w : World),
         (forall (opts : InProcess.Opts) (result : JsValue),
             let es := newEvents w (snd (InProcess.runAndSave env url opts bucketName w)) in
             In result (engineResults es) ->
             checkStructure result <> inr tt ->
             appendedValues es = [])
         /\ (forall (opts : Subprocess.Opts) (result : JsValue),
                let es := newEvents w (snd (Subprocess.runAndSave env url opts bucketName w)) in
                In result (engineResults es) ->
                checkStructure result <> inr tt ->
                appendedValues es = [])).
Proof.
  split.
  - intros result. split; [apply checkStructure_invalid | apply checkStructure_ok].
  - intros env url bucketName w. split; intros opts result es Hin Hbad.
    + destruct (InProcess_appended env url opts bucketName w)
        as [Hnone|(result' & Hres & Hok & _)]; [exact Hnone|].
      fold es in Hres. rewrite Hres in Hin. destruct Hin as [<-|[]].
      now contradiction Hbad.
    + destruct (Subprocess_appended env url opts bucketName w)
        as [Hnone|(result' & now & Hres & Hok & _)]; [exact Hnone|].
      fold es in Hres. rewrite Hres in Hin. destruct Hin as [<-|[]].
      now contradiction Hbad.
Qed.

Lemma append_only_after_guard_witness :
  let env := sampleEnv sampleUrl reportWithoutCategories (inr tt) in
  let es := newEvents emptyWorld
              (snd (InProcess.runAndSave env sampleUrl InProcess.desktopOpts
                      (Some "reports") emptyWorld)) in
  In reportWithoutCategories (engineResults es)
  /\ checkStructure reportWithoutCategories <> inr tt
  /\ appendedValues es = [].
Proof.
  intros env es.
  assert (Hin : In reportWithoutCategories (engineResults es))
    by (vm_compute; left; reflexivity).
  assert (Hbad : checkStructure reportWithoutCategories <> inr tt)
    by (vm_compute; discriminate).
  split; [exact Hin|]. split; [exact Hbad|].
  exact (proj1 (proj2 append_only_after_guard env sampleUrl (Some "reports") emptyWorld)
           InProcess.desktopOpts reportWithoutCategories Hin Hbad).
Defined.

(** Every appended row belongs to a result that passed the guard. *)
Lemma appended_row_passed_guard
  (env : Env) (url : string) (bucketName : option string) (w : World) :
  (forall opts : InProcess.Opts,
      let es := newEvents w (snd (InProcess.runAndSave env url opts bucketName w)) in
      appendedValues es <> [] ->
      exists result, engineResults es = [result] /\ checkStructure result = inr tt)
  /\ (forall opts : Subprocess.Opts,
         let es := newEvents w (snd (Subprocess.runAndSave env url opts bucketName w)) in
         appendedValues es <> [] ->
         exists result, engineResults es = [result] /\ checkStructure result = inr tt).
Proof.
  split; intros opts es Hsome.
  - destruct (InProcess_appended env url opts bucketName w)
      as [Hnone|(result & Hres & Hok & _)]; [now contradiction Hsome | eauto].
  - destruct (Subprocess_appended env url opts bucketName w)
      as [Hnone|(result & now & Hres & Hok & _)]; [now contradiction Hsome | eauto].
Qed.

(* ================================================================== *)
(** * The appended row *)
(* ================================================================== *)

(** The five fixed categories, in column order. *)
Definition categoryNames : list string :=
  ["performance"; "accessibility"; "best-practices"; "seo"; "pwa"].

(** The report holds scalars where the row reads a value. *)
Definition scalarReport (result : JsValue) : Prop :=
  Js.isScalar (Js.field (lhrOf result) "finalUrl") = true
  /\ Js.isScalar (Js.field (lhrOf result) "userAgent") = true
  /\ Forall (fun name => Js.isScalar (scoreOf result name) = true) categoryNames.

(** In process the appended row has ten columns. *)
Lemma in_process_row_has_ten_columns :
  let env := sampleEnv sampleUrl fullReport (inr tt) in
  let es := newEvents emptyWorld
              (snd (InProcess.runAndSave env sampleUrl InProcess.mobileOpts
                      (Some "reports") emptyWorld)) in
  map (fun values => map (fun row => length row) values) (appendedValues es) = [[10%nat]].
Proof. vm_compute. reflexivity. Qed.

Lemma reportRow_scalar (startTime : Z) (device urlKey : string) (result : JsValue) :
  scalarReport result ->
  Forall (fun v => Js.isScalar v = true) (reportRow startTime device urlKey result).
Proof.
  intros (Hf & Hu & Hs). unfold categoryNames in Hs.
  repeat match goal with
         | H : Forall _ (_ :: _) |- _ => apply Forall_cons_1 in H as [? H]
         end.
  unfold reportRow. repeat constructor; assumption.
Qed.

(** C5 (amended).  Every append carries exactly one row.  In process the
    row is the ordered list of ten values date, device, urlKey, finalUrl,
    performance, accessibility, bestPractices, seo, pwa, userAgent; the
    subprocess revision appends the artifact link as an eleventh value.
    Date, device, urlKey and link are strings and the other values are
    those of the report, so the row holds scalars whenever the report does. *)
Theorem appended_row_columns :
  forall (env : Env) (url : string) (bucketName : option string) (w : World),
    (forall (opts : InProcess.Opts) (values : list (list JsValue)),
        let es := newEvents w (snd (InProcess.runAndSave env url opts bucketName w)) in
        In values (appendedValues es) ->
        exists result row,
          values = [row]
          /\ engineResults es = [result]
          /\ row = [ JStr (JsDate.toISOString (clock env w));
                     JStr (InProcess.formFactor opts);
                     JStr (deriveKey url);
                     Js.field (lhrOf result) "finalUrl";
                     scoreOf result "performance";
                     scoreOf result "accessibility";
                     scoreOf result "best-practices";
                     scoreOf result "seo";
                     scoreOf result "pwa";
                     Js.field (lhrOf result) "userAgent" ]
          /\ length row = 10%nat
          /\ (scalarReport result -> Forall (fun v => Js.isScalar v = true) row))
    /\ (forall (opts : Subprocess.Opts) (values : list (list JsValue)),
           let es := newEvents w (snd (Subprocess.runAndSave env url opts bucketName w)) in
           In values (appendedValues es) ->
           exists result row link,
             values = [row]
             /\ engineResults es = [result]
             /\ row = [ JStr (JsDate.toISOString (clock env w));
                        JStr (Subprocess.device opts);
                        JStr (deriveKey url);
                        Js.field (lhrOf result) "finalUrl";
                        scoreOf result "performance";
                        scoreOf result "accessibility";
                        scoreOf result "best-practices";
                        scoreOf result "seo";
                        scoreOf result "pwa";
                        Js.field (lhrOf result) "userAgent";
                        JStr link ]
             /\ length row = 11%nat
             /\ (scalarReport result -> Forall (fun v => Js.isScalar v = true) row)).
Proof.
  intros env url bucketName w. split; intros opts values es Hin.
  - destruct (InProcess_appended env url opts bucketName w)
      as [Hnone|(result & Hres & _ & Hval)]; fold es in Hnone || fold es in Hres, Hval.
    + rewrite Hnone in Hin. destruct Hin.
    + rewrite Hval in Hin. destruct Hin as [<-|[]].
      eexists result, _. split; [reflexivity|]. split; [exact Hres|].
      split; [reflexivity|]. split; [reflexivity|]. apply reportRow_scalar.
  - destruct (Subprocess_appended env url opts bucketName w)
      as [Hnone|(result & now & Hres & _ & Hval)]; fold es in Hnone || fold es in Hres, Hval.
    + rewrite Hnone in Hin. destruct Hin.
    + rewrite Hval in Hin. destruct Hin as [<-|[]].
      eexists result, _, _. split; [reflexivity|]. split; [exact Hres|].
      split; [reflexivity|]. split; [reflexivity|].
      intros Hs. apply (reportRow_scalar (clock env w) (Subprocess.device opts)
                          (deriveKey url)) in Hs.
      unfold reportRow in Hs.
      repeat match goal with
             | H : Forall _ (_ :: _) |- _ => apply Forall_cons_1 in H as [? H]
             end.
      repeat constructor; assumption.
Qed.

Lemma appended_row_columns_witness :
  let env := sampleEnv sampleUrl fullReport (inr tt) in
  let es := newEvents emptyWorld
              (snd (Subprocess.runAndSave env sampleUrl Subprocess.desktopOpts
                      (Some "reports") emptyWorld)) in
  exists values,
    In values (appendedValues es)
    /\ exists result row link,
         values = [row]
         /\ engineResults es = [result]
         /\ row = [ JStr (JsDate.toISOString (clock env emptyWorld));
                    JStr (Subprocess.device Subprocess.desktopOpts);
                    JStr (deriveKey sampleUrl);
                    Js.field (lhrOf result) "finalUrl";
                    scoreOf result "performance";
                    scoreOf result "accessibility";
                    scoreOf result "best-practices";
                    scoreOf result "seo";
                    scoreOf result "pwa";
                    Js.field (lhrOf result) "userAgent";
                    JStr link ]
         /\ length row = 11%nat
         /\ (scalarReport result -> Forall (fun v => Js.isScalar v = true) row).
Proof.
  intros env es.
  assert (Hin : exists values, In values (appendedValues es)).
  { assert (Hsome : appendedValues es <> []) by (vm_compute; discriminate).
    destruct (appendedValues es) as [|values rest]; [now contradiction Hsome|].
    exists values. now left. }
  destruct Hin as [values Hin]. exists values. split; [exact Hin|].
  exact (proj2 (appended_row_columns env sampleUrl (Some "reports") emptyWorld)
           Subprocess.desktopOpts values Hin).
Defined.

(* ================================================================== *)
(** * Missing categories and zero scores *)
(* ================================================================== *)

Lemma scoreOrNA_cases (category : JsValue) :
  scoreOrNA category
  = if Js.isNullish category || Js.isNullish (Js.field category "score")
    then NA else Js.field category "score".
Proof.
  unfold scoreOrNA, Js.coalesce, Js.optGet.
  destruct (Js.isNullish category); reflexivity.
Qed.

Lemma categories_object_passes (result : JsValue) (cats : gmap string JsValue) :
  categoriesOf result = JObj cats -> checkStructure result = inr tt.
Proof.
  intros Hc. apply checkStructure_ok. unfold categoriesOf, lhrOf in *.
  destruct result as [| | | | | |fields]; try discriminate Hc.
  cbn [Js.isNullish Js.field] in *.
  destruct (default JUndefined (fields !! "lhr")) as [| | | | | |lhr]; try discriminate Hc.
  cbn [Js.truthy Js.field] in *. rewrite Hc. repeat split.
Qed.

(** C9.  When the report has a categories mapping, a category that is
    absent from it gets the sentinel "N/A" in its column, and building the
    record does not fail: the guard passes and both revisions obtain their
    row. *)
Theorem missing_category_gets_sentinel :
  forall (result : JsValue) (cats : gmap string JsValue) (name : string),
    categoriesOf result = JObj cats ->
    In name categoryNames ->
    cats !! name = None ->
    scoreOf result name = NA
    /\ checkStructure result = inr tt
    /\ (forall (opts : InProcess.Opts) (startTime : Z) (urlKey : string),
           exists data,
             InProcess.sheetData result opts startTime urlKey = inr data
             /\ commonColumns data
                = inr (reportRow startTime (InProcess.formFactor opts) urlKey result))
    /\ (forall (opts : Subprocess.Opts) (startTime : Z) (urlKey link : string),
           exists data,
             Subprocess.sheetData result opts startTime urlKey link = inr data
             /\ commonColumns data
                = inr (reportRow startTime (Subprocess.device opts) urlKey result)
             /\ Js.get data "link" = inr (JStr link)).
Proof.
  intros result cats name Hcats _ Hmissing.
  pose proof (categories_object_passes _ _ Hcats) as Hok.
  split; [|split; [exact Hok|split]].
  - unfold scoreOf. rewrite Hcats. cbn [Js.field]. now rewrite Hmissing.
  - intros opts startTime urlKey. now apply InProcess_row.
  - intros opts startTime urlKey link. now apply Subprocess_row.
Qed.

(** A report missing only [pwa]. *)
Lemma missing_category_gets_sentinel_witness :
  exists cats,
    categoriesOf reportWithoutPwa = JObj cats
    /\ In "pwa" categoryNames
    /\ cats !! "pwa" = None
    /\ scoreOf reportWithoutPwa "pwa" = NA
    /\ nth 8 (reportRow sampleInstant "mobile" "ab12cd34ef56" reportWithoutPwa) JNull = NA.
Proof.
  eexists. split; [vm_compute; reflexivity|].
  assert (Hin : In "pwa" categoryNames) by (cbn; tauto).
  split; [exact Hin|].
  assert (Hnone : (list_to_map fourCategories : gmap string JsValue) !! "pwa" = None)
    by (vm_compute; reflexivity).
  split; [vm_compute; reflexivity|].
  assert (Hs : scoreOf reportWithoutPwa "pwa" = NA).
  { refine (proj1 (missing_category_gets_sentinel reportWithoutPwa
                     (list_to_map fourCategories) "pwa" _ Hin Hnone)).
    vm_compute. reflexivity. }
  split; exact Hs.
Defined.

(* ================================================================== *)
(** * Local working files *)
(* ================================================================== *)

Definition isUnlink (e : Event) : bool :=
  match e with
  | EvUnlink _ _ => true
  | _ => false
  end.

(** C3 (the subprocess revision does not do it).  The subprocess revision
    removes nothing: after a task, every file that was in the working
    directory before it and every file the engine wrote during it is still
    there, and no [unlink] was even attempted.  On the sample task the HTML
    report and the JSON sidecar remain, while the log says
    "Local HTML file deleted". *)
Theorem subprocess_never_removes_files :
  (forall (env : Env) (url : string) (opts : Subprocess.Opts)
          (bucketName : option string) (w : World),
      let run := Subprocess.runAndSave env url opts bucketName w in
      let es := newEvents w (snd run) in
      files w ⊆ files (snd run)
      /\ Forall (fun p => p ∈ files (snd run)) (engineFiles es)
      /\ existsb isUnlink es = false)
  /\ (let run := Subprocess.runAndSave (sampleEnv sampleUrl fullReport (inr tt))
                   sampleUrl Subprocess.mobileOpts (Some "reports") emptyWorld in
      fst run = Ok tt
      /\ elements (files (snd run))
         = ["outputs/1714557600000.report.json"; "outputs/1714557600000.report.html"]
      /\ existsb (String.eqb "Local HTML file deleted: outputs/1714557600000.report.html")
           (infosLogged (trace (snd run))) = true).
Proof.
  split.
  - intros env url opts bucketName w run es.
    destruct (Subprocess_files_remain env url opts bucketName w)
      as (Hsub & Hfiles & Hun & _).
    fold run in Hsub, Hfiles, Hun. fold es in Hfiles, Hun.
    split; [exact Hsub|]. split.
    + apply List.Forall_forall. exact Hfiles.
    + destruct (existsb isUnlink es) eqn:E; [|reflexivity].
      apply existsb_exists in E as (e & Hin & He).
      destruct e; try discriminate He. now apply Hun in Hin.
  - vm_compute. repeat split.
Qed.

(** In process, by contrast, the report written by the task is removed on
    every path on which [unlink] does not itself fail. *)
Lemma in_process_removes_its_file
  (env : Env) (url : string) (opts : InProcess.Opts) (bucketName : option string)
  (w : World) :
  let run := InProcess.runAndSave env url opts bucketName w in
  failedUnlinks (newEvents w (snd run)) = [] -> files (snd run) ⊆ files w.
Proof. apply InProcess_cleanup. Qed.

(* ================================================================== *)
(** * Failures that reach the batch driver *)
(* ================================================================== *)

(** The defect strikes in the first task of four: the driver catches and
    logs it, and none of the three remaining tasks runs. *)
Lemma defect_ends_the_batch :
  let env := sampleEnv "defect,https://example2.com" fullReport (inr tt) in
  let run := processWith env defectiveTask InProcess.desktopOpts InProcess.mobileOpts
               emptyWorld in
  taskOrder InProcess.desktopOpts InProcess.mobileOpts (Str.splitOn "," "defect,https://example2.com")
  = [ ("defect", InProcess.desktopOpts); ("defect", InProcess.mobileOpts);
      ("https://example2.com", InProcess.desktopOpts);
      ("https://example2.com", InProcess.mobileOpts) ]
  /\ fst run = Ok tt
  /\ trace (snd run)
     = [ EvLog LInfo "task defect desktop";
         EvLog LError "Error during scheduled task: defect in the coordinator" ].
Proof. vm_compute. repeat split. Qed.

(** C4 (amended).  A failure that escapes a task is caught by the batch
    driver and logged, and it ends the batch: the driver returns normally
    right after the log line, and the tasks after the failing one are not
    run. *)
Theorem escaped_failure_ends_batch :
  forall {O : Type} (env : Env) (task : string -> O -> option string -> M unit)
         (desktopOpts mobileOpts : O) (targets : string)
         (pre post : list (string * O)) (url : string) (opts : O)
         (w w1 w2 : World) (e : string),
    TARGET_URL env = Some targets ->
    taskOrder desktopOpts mobileOpts (Str.splitOn "," targets) = pre ++ (url, opts) :: post ->
    sequentially task (S3_BUCKET_NAME env) pre w = (Ok tt, w1) ->
    task url opts (S3_BUCKET_NAME env) w1 = (Throw e, w2) ->
    processWith env task desktopOpts mobileOpts w
    = (Ok tt, after w2 (EvLog LError ("Error during scheduled task: " +:+ e))).
Proof.
  intros O env task desktopOpts mobileOpts targets pre post url opts w w1 w2 e
         Htargets Horder Hpre Htask.
  rewrite (processWith_sequentially _ _ _ _ _ _ Htargets), Horder.
  unfold tryCatch. rewrite sequentially_app. unfold bind at 1. rewrite Hpre.
  cbn [sequentially]. unfold bind. rewrite Htask. reflexivity.
Qed.

Lemma escaped_failure_ends_batch_witness :
  let env := sampleEnv "defect,https://example2.com" fullReport (inr tt) in
  processWith env defectiveTask InProcess.desktopOpts InProcess.mobileOpts emptyWorld
  = (Ok tt,
     after (after emptyWorld (EvLog LInfo "task defect desktop"))
           (EvLog LError ("Error during scheduled task: " +:+ "defect in the coordinator"))).
Proof.
  intros env.
  apply (escaped_failure_ends_batch env defectiveTask InProcess.desktopOpts
           InProcess.mobileOpts "defect,https://example2.com" []
           [ ("defect", InProcess.mobileOpts);
             ("https://example2.com", InProcess.desktopOpts);
             ("https://example2.com", InProcess.mobileOpts) ]
           "defect" InProcess.desktopOpts emptyWorld emptyWorld
           (after emptyWorld (EvLog LInfo "task defect desktop"))
           "defect in the coordinator");
    vm_compute; reflexivity.
Defined.

(* ================================================================== *)
(** * The order of a batch *)
(* ================================================================== *)

(** C6.  With the URL list configured, a batch is the tasks (url_1,
    desktop), (url_1, mobile), (url_2, desktop), (url_2, mobile), ... run
    one after the other in this order, each from the world the previous
    one left; this holds in both revisions. *)
Theorem batch_runs_tasks_in_order :
  forall (env : Env) (targets : string) (w : World),
    TARGET_URL env = Some targets ->
    InProcess.processLighthouse env w
    = sequentially (InProcess.runAndSave env) (S3_BUCKET_NAME env)
        (taskOrder InProcess.desktopOpts InProcess.mobileOpts (Str.splitOn "," targets)) w
    /\ Subprocess.processLighthouse env w
       = sequentially (Subprocess.runAndSave env) (S3_BUCKET_NAME env)
           (taskOrder Subprocess.desktopOpts Subprocess.mobileOpts
              (Str.splitOn "," targets)) w.
Proof.
  intros env targets w Htargets. split.
  - apply processWith_contained; [exact Htargets|].
    intros url opts w' e. rewrite InProcess_runAndSave_returns. discriminate.
  - apply processWith_contained; [exact Htargets|].
    intros url opts w' e. apply Subprocess_runAndSave_contained.
Qed.

Lemma batch_runs_tasks_in_order_witness :
  let env := sampleEnv "https://example1.com,https://example2.com" fullReport (inr tt) in
  TARGET_URL env = Some "https://example1.com,https://example2.com"
  /\ InProcess.processLighthouse env emptyWorld
     = sequentially (InProcess.runAndSave env) (S3_BUCKET_NAME env)
         (taskOrder InProcess.desktopOpts InProcess.mobileOpts
            (Str.splitOn "," "https://example1.com,https://example2.com")) emptyWorld.
Proof.
  intros env. split; [reflexivity|].
  exact (proj1 (batch_runs_tasks_in_order env "https://example1.com,https://example2.com"
                  emptyWorld eq_refl)).
Defined.

(** Two URLs: the engine is called four times, in specification order. *)
Example two_urls_order :
  engineCalls
    (trace (snd (InProcess.processLighthouse
                   (sampleEnv "https://example1.com,https://example2.com" fullReport (inr tt))
                   emptyWorld)))
  = [ ("https://example1.com", "desktop"); ("https://example1.com", "mobile");
      ("https://example2.com", "desktop"); ("https://example2.com", "mobile") ].
Proof. vm_compute. reflexivity. Qed.

(* ================================================================== *)
(** * The storage path *)
(* ================================================================== *)

Lemma noSlash_deriveKey (url : string) : noSlash (deriveKey url) = true.
Proof.
  apply noSlash_key.
  exact (proj2 (hashStringTo12Digits_shape _ _ (hashStringTo12Digits_deriveKey url))).
Qed.

(* ================================================================== *)
(** * Further observations *)
(* ================================================================== *)

Definition isOk {A : Type} (r : string + A) : bool :=
  match r with
  | inr _ => true
  | inl _ => false
  end.

(** The life of the headless browser: launched, used for one audit,
    killed; each step with its success. *)
Inductive ChromeStep : Type :=
| Launched (ok : bool)
| Audited (ok : bool)
| Killed (ok : bool).

Definition chromeSteps (es : list Event) : list ChromeStep :=
  flat_map (fun e => match e with
                     | EvChromeLaunch r => [Launched (isOk r)]
                     | EvLighthouse _ _ _ r => [Audited (isOk r)]
                     | EvChromeKill r => [Killed (isOk r)]
                     | _ => []
                     end) es.

(** The ports Chrome reported and the ports the engine was given. *)
Definition launchedPorts (es : list Event) : list Z :=
  flat_map (fun e => match e with
                     | EvChromeLaunch (inr port) => [port]
                     | _ => []
                     end) es.

Definition enginePorts (es : list Event) : list Z :=
  flat_map (fun e => match e with
                     | EvLighthouse _ _ port _ => [port]
                     | _ => []
                     end) es.

Definition killFailures (es : list Event) : list string :=
  flat_map (fun e => match e with
                     | EvChromeKill (inl message) => [message]
                     | _ => []
                     end) es.

(** The failures of the audit phase: launch, engine, kill, or a non-zero
    exit of the subprocess. *)
Definition engineFailures (es : list Event) : list string :=
  flat_map (fun e => match e with
                     | EvChromeLaunch (inl message)
                     | EvLighthouse _ _ _ (inl message)
                     | EvChromeKill (inl message) => [message]
                     | EvExec _ r =>
                         match execError r with
                         | Some message => [message]
                         | None => []
                         end
                     | _ => []
                     end) es.

(** The reports of the subprocess that could not be read back. *)
Definition unreadableReports (es : list Event) : list string :=
  flat_map (fun e => match e with
                     | EvReadJson path (inl _) => [path]
                     | _ => []
                     end) es.

Definition reportReads (es : list Event) : list string :=
  flat_map (fun e => match e with
                     | EvReadJson path _ => [path]
                     | _ => []
                     end) es.

Definition commandsRun (es : list Event) : list string :=
  flat_map (fun e => match e with
                     | EvExec command _ => [command]
                     | _ => []
                     end) es.

(** The paths handed to [fs.writeFile], [fs.readFile] and [fs.unlink]. *)
Definition writeCalls (es : list Event) : list string :=
  flat_map (fun e => match e with
                     | EvWriteFile path _ _ => [path]
                     | _ => []
                     end) es.

Definition failedWrites (es : list Event) : list string :=
  flat_map (fun e => match e with
                     | EvWriteFile path _ (inl _) => [path]
                     | _ => []
                     end) es.

Definition readCalls (es : list Event) : list string :=
  flat_map (fun e => match e with
                     | EvReadFile path _ => [path]
                     | _ => []
                     end) es.

Definition unlinkCalls (es : list Event) : list string :=
  flat_map (fun e => match e with
                     | EvUnlink path _ => [path]
                     | _ => []
                     end) es.

(** The requests that reached the tabular store and the blob store. *)
Definition appendTargets (es : list Event) : list (option string * string) :=
  flat_map (fun e => match e with
                     | EvSheetsAppend spreadsheetId range _ _ => [(spreadsheetId, range)]
                     | _ => []
                     end) es.

Definition putRequests (es : list Event) : list (option string * string) :=
  flat_map (fun e => match e with
                     | EvS3Put bucket key _ => [(bucket, key)]
                     | _ => []
                     end) es.

Definition clientFailures (es : list Event) : list string :=
  flat_map (fun e => match e with
                     | EvGetClient (inl message) => [message]
                     | _ => []
                     end) es.

(** The messages of the failures of the saving phase: the write of the
    report, the auth client, the append, the read of the report and the
    put of the object. *)
Definition savingFailures (es : list Event) : list string :=
  flat_map (fun e => match e with
                     | EvWriteFile _ _ (inl message)
                     | EvGetClient (inl message)
                     | EvSheetsAppend _ _ _ (inl message)
                     | EvReadFile _ (inl message)
                     | EvS3Put _ _ (inl message) => [message]
                     | _ => []
                     end) es.

(** The calls to the collaborators, in the order they were made; log lines
    left out. *)
Inductive Call : Type :=
| CMkdir | CLaunch | CAudit | CKill | CExec | CReadJson
| CWrite | CRead | CUnlink | CClient | CAppend | CPut.

Definition calls (es : list Event) : list Call :=
  flat_map (fun e => match e with
                     | EvLog _ _ => []
                     | EvMkdir _ _ => [CMkdir]
                     | EvChromeLaunch _ => [CLaunch]
                     | EvLighthouse _ _ _ _ => [CAudit]
                     | EvChromeKill _ => [CKill]
                     | EvExec _ _ => [CExec]
                     | EvReadJson _ _ => [CReadJson]
                     | EvWriteFile _ _ _ => [CWrite]
                     | EvReadFile _ _ => [CRead]
                     | EvUnlink _ _ => [CUnlink]
                     | EvGetClient _ => [CClient]
                     | EvSheetsAppend _ _ _ _ => [CAppend]
                     | EvS3Put _ _ _ => [CPut]
                     end) es.

(** Whether the closing log lines of [runAndSave] were written. *)
Definition processingEnded (es : list Event) : bool :=
  existsb (String.prefix "Processing ended at ") (infosLogged es).

Ltac observe_more :=
  cbn [chromeSteps launchedPorts enginePorts killFailures engineFailures
       unreadableReports reportReads commandsRun writeCalls failedWrites readCalls
       unlinkCalls appendTargets putRequests clientFailures calls savingFailures
       appendedValues failedAppends uploadAttempts uploadedKeys engineResults
       errorsLogged infosLogged failedUnlinks engineFiles flat_map app
       length In trace files isOk execError].

(* ================================================================== *)
(** * [runLighthouse], in process *)
(* ================================================================== *)

(** Chrome is released on every path: when the launch fails nothing else
    happens; when it succeeds the engine is called once, with the port
    Chrome reported, and Chrome is killed once afterwards, whether the
    engine succeeded or not.  A result is returned only when the engine and
    the kill both succeeded. *)
Theorem runLighthouse_releases_chrome :
  forall (env : Env) (url : string) (opts : InProcess.Opts) (w : World),
    let run := InProcess.runLighthouse env url opts w in
    let es := newEvents w (snd run) in
    match fst run with
    | Ok result =>
        chromeSteps es = [Launched true; Audited true; Killed true]
        /\ engineResults es = [result]
        /\ enginePorts es = launchedPorts es
    | Throw e =>
        (chromeSteps es = [Launched false] /\ engineFailures es = [e])
        \/ (exists audited killed,
              chromeSteps es = [Launched true; Audited audited; Killed killed]
              /\ audited && killed = false
              /\ In e (engineFailures es)
              /\ enginePorts es = launchedPorts es)
    | Halt => False
    end.
Proof.
  intros env url opts w run es. subst es run.
  apply (wp_newEvents (InProcess.runLighthouse env url opts) w
           (fun o _ es =>
              match o with
              | Ok result =>
                  chromeSteps es = [Launched true; Audited true; Killed true]
                  /\ engineResults es = [result]
                  /\ enginePorts es = launchedPorts es
              | Throw e =>
                  (chromeSteps es = [Launched false] /\ engineFailures es = [e])
                  \/ (exists audited killed,
                        chromeSteps es = [Launched true; Audited audited; Killed killed]
                        /\ audited && killed = false
                        /\ In e (engineFailures es)
                        /\ enginePorts es = launchedPorts es)
              | Halt => False
              end)).
  wp_run; (eexists; split; [trace_shape|]); observe_more.
  all: first [ now repeat split
             | left; now split
             | right; eexists _, _; repeat split; in_list ].
Qed.

(** A failure of [chrome.kill()] replaces the outcome of the audit: the
    caller sees the error of the kill, even when the engine had returned a
    result, and the "Chrome instance killed" line is not logged. *)
Theorem kill_failure_masks_the_audit :
  forall (env : Env) (url : string) (opts : InProcess.Opts) (w : World) (e : string),
    let run := InProcess.runLighthouse env url opts w in
    let es := newEvents w (snd run) in
    In e (killFailures es) ->
    fst run = Throw e
    /\ existsb (String.eqb ("Chrome instance killed for " +:+ url)) (infosLogged es) = false.
Proof.
  intros env url opts w e run es. subst es run.
  apply (wp_newEvents (InProcess.runLighthouse env url opts) w
           (fun o _ es =>
              In e (killFailures es) ->
              o = Throw e
              /\ existsb (String.eqb ("Chrome instance killed for " +:+ url))
                   (infosLogged es) = false)).
  wp_run; (eexists; split; [trace_shape|]); observe_more;
    intros Hin; try contradiction; destruct Hin as [<-|[]].
  all: split; [reflexivity|].
  all: cbn [existsb orb]; try reflexivity.
  all: rewrite ?orb_false_r; apply String.eqb_neq; intros Heq.
  all: apply (f_equal String.length) in Heq; rewrite !length_app in Heq;
    cbn [String.length] in Heq; lia.
Qed.

(* ================================================================== *)
(** * [runLighthouse], as a subprocess *)
(* ================================================================== *)

(** The three ways the subprocess audit ends.  One command is run.  A
    non-zero exit rejects with the error of [exec] and the report is never
    read.  After a clean exit the JSON report of the same id is read back:
    the result is [{ lhr: <the parsed report> }], or, when the report cannot
    be read or parsed, the promise never settles. *)
Theorem subprocess_audit_outcomes :
  forall (env : Env) (url device : string) (size : Subprocess.Size) (id : Z) (w : World),
    let run := Subprocess.runLighthouse env url device size id w in
    let es := newEvents w (snd run) in
    commandsRun es = [Subprocess.commandLine url device size id]
    /\ match fst run with
       | Ok result =>
           engineFailures es = []
           /\ reportReads es = ["./outputs/" +:+ Str.ofZ id +:+ ".report.json"]
           /\ engineResults es = [result]
           /\ exists lhr, result = Js.obj [("lhr", lhr)]
       | Throw e =>
           engineFailures es = [e]
           /\ reportReads es = []
           /\ In ("Error running Lighthouse for " +:+ url +:+ ": " +:+ e) (errorsLogged es)
       | Halt =>
           engineFailures es = []
           /\ unreadableReports es = ["./outputs/" +:+ Str.ofZ id +:+ ".report.json"]
           /\ errorsLogged es = []
       end.
Proof.
  intros env url device size id w run es. subst es run.
  apply (wp_newEvents (Subprocess.runLighthouse env url device size id) w
           (fun o _ es =>
              commandsRun es = [Subprocess.commandLine url device size id]
              /\ match o with
                 | Ok result =>
                     engineFailures es = []
                     /\ reportReads es = ["./outputs/" +:+ Str.ofZ id +:+ ".report.json"]
                     /\ engineResults es = [result]
                     /\ exists lhr, result = Js.obj [("lhr", lhr)]
                 | Throw e =>
                     engineFailures es = [e]
                     /\ reportReads es = []
                     /\ In ("Error running Lighthouse for " +:+ url +:+ ": " +:+ e)
                          (errorsLogged es)
                 | Halt =>
                     engineFailures es = []
                     /\ unreadableReports es = ["./outputs/" +:+ Str.ofZ id +:+ ".report.json"]
                     /\ errorsLogged es = []
                 end)).
  wp_run; (eexists; split; [trace_shape|]); observe_more;
    repeat match goal with H : execError _ = _ |- _ => rewrite H end;
    observe_more; (split; [reflexivity|]).
  all: repeat split; try reflexivity; try in_list; eauto.
Qed.

(** Whatever the subprocess printed on its standard error is logged at
    error level once the audit has settled, also after a clean exit. *)
Theorem subprocess_stderr_is_logged :
  forall (env : Env) (url device : string) (size : Subprocess.Size) (id : Z) (w : World)
         (command : string) (r : ExecResult),
    let run := Subprocess.runLighthouse env url device size id w in
    let es := newEvents w (snd run) in
    In (EvExec command r) es ->
    execStderr r <> "" ->
    fst run <> Halt ->
    In ("Lighthouse stderr for " +:+ url +:+ ": " +:+ execStderr r) (errorsLogged es).
Proof.
  intros env url device size id w command r run es. subst es run.
  apply (wp_newEvents (Subprocess.runLighthouse env url device size id) w
           (fun o _ es =>
              In (EvExec command r) es ->
              execStderr r <> "" ->
              o <> Halt ->
              In ("Lighthouse stderr for " +:+ url +:+ ": " +:+ execStderr r)
                 (errorsLogged es))).
  wp_run; (eexists; split; [trace_shape|]); observe_more;
    intros Hin Hnoise Hsettled; try (now contradiction Hsettled).
  all: repeat (destruct Hin as [Hin|Hin]; [try discriminate Hin|]); try contradiction.
  all: injection Hin as _ <-.
  all: try in_list.
  all: match goal with
       | H : Path.nonEmpty _ = false |- _ =>
           unfold Path.nonEmpty in H; apply negb_false_iff, String.eqb_eq in H;
           now contradiction Hnoise
       end.
Qed.

(* ================================================================== *)
(** * [saveToGoogleSheets] *)
(* ================================================================== *)

Lemma obind_inr {A B} (r : string + A) (k : A -> string + B) (b : B) :
  obind r k = inr b -> exists a, r = inr a /\ k a = inr b.
Proof. destruct r as [e|a]; [discriminate | eauto]. Qed.

Lemma get_inr (v : JsValue) (key : string) (x : JsValue) :
  Js.get v key = inr x <-> Js.isNullish v = false /\ x = Js.field v key.
Proof.
  unfold Js.get. destruct (Js.isNullish v); split.
  - discriminate.
  - intros [? _]. discriminate.
  - intros [= <-]. auto.
  - intros [_ ->]. reflexivity.
Qed.

Lemma commonColumns_inr (data : JsValue) (row : list JsValue) :
  commonColumns data = inr row ->
  Js.isNullish data = false
  /\ Js.isNullish (Js.field data "lhr") = false
  /\ Js.isNullish (Js.field (Js.field data "lhr") "categories") = false
  /\ length row = 10%nat.
Proof.
  unfold commonColumns, scoreColumn, Js.getPath, obind, Js.get.
  destruct (Js.isNullish data); [discriminate|].
  destruct (Js.isNullish (Js.field data "lhr")); [discriminate|].
  destruct (Js.isNullish (Js.field (Js.field data "lhr") "categories")); [discriminate|].
  intros [= <-]. repeat split.
Qed.

(** The ten shared columns are defined exactly when [data], [data.lhr]
    and [data.lhr.categories] are neither [undefined] nor [null]. *)
Lemma commonColumns_defined :
  forall data : JsValue,
    (Js.isNullish data = false
     /\ Js.isNullish (Js.field data "lhr") = false
     /\ Js.isNullish (Js.field (Js.field data "lhr") "categories") = false)
    <-> exists row, commonColumns data = inr row /\ length row = 10%nat.
Proof.
  intros data. split.
  - intros (Hd & Hl & Hc).
    unfold commonColumns, scoreColumn, Js.getPath, obind, Js.get.
    rewrite Hd, Hl, Hc. eexists. split; reflexivity.
  - intros (row & Hrow & _).
    destruct (commonColumns_inr data row Hrow) as (Hd & Hl & Hc & _). auto.
Qed.

(** What [saveToGoogleSheets] sends and logs, in process.  Without an auth
    client, or when a column cannot be read, no request is made and the
    function logs nothing.  Otherwise exactly one request is made, for the
    configured spreadsheet and the range "2024!A1", with one row; its
    rejection is logged and thrown again with the same message. *)
Theorem saveToGoogleSheets_requests :
  forall (env : Env) (data : JsValue) (w : World),
    let run := InProcess.saveToGoogleSheets env data w in
    let es := newEvents w (snd run) in
    match fst run with
    | Ok _ =>
        exists row,
          commonColumns data = inr row
          /\ appendedValues es = [[row]]
          /\ failedAppends es = []
          /\ appendTargets es = [(SPREADSHEET_ID env, "2024!A1")]
          /\ infosLogged es = ["Data saved to Google Sheets"]
    | Throw e =>
        (clientFailures es = [e] /\ appendTargets es = [] /\ errorsLogged es = [])
        \/ (commonColumns data = inl e /\ appendTargets es = [] /\ errorsLogged es = [])
        \/ (exists row,
              commonColumns data = inr row
              /\ appendedValues es = [[row]]
              /\ failedAppends es = [e]
              /\ appendTargets es = [(SPREADSHEET_ID env, "2024!A1")]
              /\ errorsLogged es = ["Error saving data to Google Sheets: " +:+ e])
    | Halt => False
    end.
Proof.
  intros env data w run es. subst es run.
  apply (wp_newEvents (InProcess.saveToGoogleSheets env data) w
           (fun o _ es =>
              match o with
              | Ok _ =>
                  exists row,
                    commonColumns data = inr row
                    /\ appendedValues es = [[row]]
                    /\ failedAppends es = []
                    /\ appendTargets es = [(SPREADSHEET_ID env, "2024!A1")]
                    /\ infosLogged es = ["Data saved to Google Sheets"]
              | Throw e =>
                  (clientFailures es = [e] /\ appendTargets es = [] /\ errorsLogged es = [])
                  \/ (commonColumns data = inl e /\ appendTargets es = []
                      /\ errorsLogged es = [])
                  \/ (exists row,
                        commonColumns data = inr row
                        /\ appendedValues es = [[row]]
                        /\ failedAppends es = [e]
                        /\ appendTargets es = [(SPREADSHEET_ID env, "2024!A1")]
                        /\ errorsLogged es = ["Error saving data to Google Sheets: " +:+ e])
              | Halt => False
              end)).
  wp_run; (eexists; split; [trace_shape|]); observe_more.
  - left. repeat split.
  - right. left. repeat split.
  - right. right. eexists. repeat split.
  - eexists. repeat split.
Qed.

Lemma columns_with_link (data : JsValue) (row : list JsValue) :
  obind (commonColumns data)
        (fun columns => obind (Js.get data "link") (fun link => inr (columns ++ [link])))
  = inr row ->
  exists columns,
    commonColumns data = inr columns
    /\ row = columns ++ [Js.field data "link"]
    /\ length row = 11%nat.
Proof.
  intros H. apply obind_inr in H as (columns & Hcols & H).
  apply obind_inr in H as (link & Hlink & H). injection H as <-.
  apply get_inr in Hlink as [_ ->].
  exists columns. split; [assumption|]. split; [reflexivity|].
  destruct (commonColumns_inr data columns Hcols) as (_ & _ & _ & Hlen).
  rewrite List.length_app, Hlen. reflexivity.
Qed.

(** The subprocess revision appends [data.link] to the ten columns: eleven
    values, the last one [undefined] when [data] has no link. *)
Theorem subprocess_columns_with_link :
  forall (env : Env) (data : JsValue) (w : World),
    let run := Subprocess.saveToGoogleSheets env data w in
    let es := newEvents w (snd run) in
    forall values,
      In values (appendedValues es) ->
      exists columns,
        commonColumns data = inr columns
        /\ values = [columns ++ [Js.field data "link"]]
        /\ length (columns ++ [Js.field data "link"]) = 11%nat
        /\ appendTargets es = [(SPREADSHEET_ID env, "2024!A1")].
Proof.
  intros env data w run es values. subst es run.
  apply (wp_newEvents (Subprocess.saveToGoogleSheets env data) w
           (fun _ _ es =>
              In values (appendedValues es) ->
              exists columns,
                commonColumns data = inr columns
                /\ values = [columns ++ [Js.field data "link"]]
                /\ length (columns ++ [Js.field data "link"]) = 11%nat
                /\ appendTargets es = [(SPREADSHEET_ID env, "2024!A1")])).
  wp_run; (eexists; split; [trace_shape|]); observe_more;
    intros Hin; try contradiction; destruct Hin as [<-|[]].
  all: match goal with
       | H : obind (commonColumns ?d) _ = inr ?row |- _ =>
           destruct (columns_with_link d row H) as (columns & Hcols & -> & Hlen)
       end.
  all: exists columns; repeat split; assumption.
Qed.

(* ================================================================== *)
(** * Environments with one faulty collaborator *)
(* ================================================================== *)

Inductive Fault : Type :=
| LaunchFails | EngineFails | KillFails | ExecFails | ReportUnreadable | StderrNoise
| WriteFails | ReadFails | UnlinkFails | ClientFails | SendFails.

Definition faultIs (f g : Fault) : bool :=
  match f, g with
  | LaunchFails, LaunchFails | EngineFails, EngineFails | KillFails, KillFails
  | ExecFails, ExecFails | ReportUnreadable, ReportUnreadable | StderrNoise, StderrNoise
  | WriteFails, WriteFails | ReadFails, ReadFails | UnlinkFails, UnlinkFails
  | ClientFails, ClientFails | SendFails, SendFails => true
  | _, _ => false
  end.

(** [sampleEnv] with the full report, a tabular store that accepts, and the
    collaborator named by [fault] failing on every call. *)
Definition faultyEnv (fault : Fault) (targets : string) : Env :=
  let base := sampleEnv targets fullReport (inr tt) in
  let answer {A : Type} (f : Fault) (message : string) (ok : A) : string + A :=
    if faultIs fault f then inl message else inr ok in
  {| clock := clock base;
     utcOffsetMinutes := utcOffsetMinutes base;
     HOST := HOST base;
     TARGET_URL := TARGET_URL base;
     S3_BUCKET_NAME := S3_BUCKET_NAME base;
     SPREADSHEET_ID := SPREADSHEET_ID base;
     mkdirOracle := mkdirOracle base;
     launchOracle := fun _ => answer LaunchFails "connect ECONNREFUSED" 9222;
     lighthouseOracle := fun _ _ _ _ => answer EngineFails "PROTOCOL_TIMEOUT" fullReport;
     killOracle := fun _ => answer KillFails "kill EPERM" tt;
     execOracle := fun w command =>
       let r := execOracle base w command in
       if faultIs fault ExecFails
       then mkExecResult (Some "Command failed") "Unable to connect to Chrome" []
       else if faultIs fault StderrNoise
            then mkExecResult None "DevTools listening" (execWritten r)
            else r;
     readJsonOracle := fun _ _ =>
       answer ReportUnreadable "Unexpected end of JSON input" (Js.field fullReport "lhr");
     writeFileOracle := fun _ _ _ => answer WriteFails "ENOSPC: no space left on device" tt;
     readFileOracle := fun _ _ => answer ReadFails "EACCES: permission denied" tt;
     unlinkOracle := fun _ _ => answer UnlinkFails "EBUSY: resource busy" tt;
     getClientOracle := fun _ => answer ClientFails "invalid_grant" tt;
     appendOracle := appendOracle base;
     s3SendOracle := fun _ _ _ => answer SendFails "AccessDenied" tt |}.

(* ================================================================== *)
(** * [uploadToS3] *)
(* ================================================================== *)

(** What [uploadToS3] reads and sends, in process: the local file is read
    once; when that fails nothing is sent and nothing is logged here;
    otherwise one object is put, into the given bucket, under the key
    joined to the local day of the call; a rejection is logged and thrown
    again with the same message. *)
Theorem uploadToS3_requests :
  forall (env : Env) (filePath : string) (bucketName : option string) (key : string)
         (w : World),
    let run := InProcess.uploadToS3 env filePath bucketName key w in
    let es := newEvents w (snd run) in
    let s3Key := Path.join [JsDate.format_yyyy_MM_dd
                              (utcOffsetMinutes env (clock env w)) (clock env w); key] in
    readCalls es = [filePath]
    /\ match fst run with
       | Ok _ =>
           putRequests es = [(bucketName, s3Key)]
           /\ infosLogged es = ["File uploaded to S3: " +:+ s3Key]
       | Throw e =>
           (putRequests es = [] /\ errorsLogged es = [])
           \/ (putRequests es = [(bucketName, s3Key)]
               /\ errorsLogged es = ["Error uploading file to S3: " +:+ e])
       | Halt => False
       end.
Proof.
  intros env filePath bucketName key w run es s3Key. subst es run s3Key.
  apply (wp_newEvents (InProcess.uploadToS3 env filePath bucketName key) w
           (fun o _ es =>
              readCalls es = [filePath]
              /\ match o with
                 | Ok _ =>
                     putRequests es
                     = [(bucketName,
                         Path.join [JsDate.format_yyyy_MM_dd
                                      (utcOffsetMinutes env (clock env w)) (clock env w);
                                    key])]
                     /\ infosLogged es
                        = ["File uploaded to S3: "
                             +:+ Path.join [JsDate.format_yyyy_MM_dd
                                              (utcOffsetMinutes env (clock env w))
                                              (clock env w); key]]
                 | Throw e =>
                     (putRequests es = [] /\ errorsLogged es = [])
                     \/ (putRequests es
                         = [(bucketName,
                             Path.join [JsDate.format_yyyy_MM_dd
                                          (utcOffsetMinutes env (clock env w)) (clock env w);
                                        key])]
                         /\ errorsLogged es = ["Error uploading file to S3: " +:+ e])
                 | Halt => False
                 end)).
  wp_run; (eexists; split; [trace_shape|]); observe_more; (split; [reflexivity|]).
  - left. now split.
  - right. now split.
  - now split.
Qed.

Lemma kill_failure_masks_the_audit_witness :
  let env := faultyEnv KillFails sampleUrl in
  let run := InProcess.runLighthouse env sampleUrl InProcess.desktopOpts emptyWorld in
  let es := newEvents emptyWorld (snd run) in
  engineResults es = [fullReport]
  /\ In "kill EPERM" (killFailures es)
  /\ fst run = Throw "kill EPERM"
  /\ existsb (String.eqb ("Chrome instance killed for " +:+ sampleUrl)) (infosLogged es) = false.
Proof.
  intros env run es.
  assert (Hin : In "kill EPERM" (killFailures es)) by (vm_compute; left; reflexivity).
  split; [vm_compute; reflexivity|]. split; [exact Hin|].
  exact (kill_failure_masks_the_audit env sampleUrl InProcess.desktopOpts emptyWorld
           "kill EPERM" Hin).
Defined.

Lemma subprocess_stderr_is_logged_witness :
  let env := faultyEnv StderrNoise sampleUrl in
  let run := Subprocess.runLighthouse env sampleUrl "mobile"
               (Subprocess.size Subprocess.mobileOpts) (sampleInstant - 3) emptyWorld in
  let es := newEvents emptyWorld (snd run) in
  exists command r,
    In (EvExec command r) es
    /\ execError r = None
    /\ execStderr r <> ""
    /\ fst run <> Halt
    /\ In ("Lighthouse stderr for " +:+ sampleUrl +:+ ": " +:+ execStderr r) (errorsLogged es).
Proof.
  intros env run es.
  exists (Subprocess.commandLine sampleUrl "mobile" (Subprocess.size Subprocess.mobileOpts)
            (sampleInstant - 3)).
  exists (mkExecResult None "DevTools listening"
            [ "./outputs/1714557599997.report.json"; "./outputs/1714557599997.report.html" ]).
  assert (Hin : In (EvExec (Subprocess.commandLine sampleUrl "mobile"
                              (Subprocess.size Subprocess.mobileOpts) (sampleInstant - 3))
                      (mkExecResult None "DevTools listening"
                         [ "./outputs/1714557599997.report.json";
                           "./outputs/1714557599997.report.html" ])) es)
    by (vm_compute; right; left; reflexivity).
  assert (Hnoise : execStderr (mkExecResult None "DevTools listening"
                                 [ "./outputs/1714557599997.report.json";
                                   "./outputs/1714557599997.report.html" ]) <> "")
    by discriminate.
  assert (Hsettled : fst run <> Halt) by (intros Hhalt; vm_compute in Hhalt; discriminate Hhalt).
  split; [exact Hin|]. split; [reflexivity|]. split; [exact Hnoise|].
  split; [exact Hsettled|].
  exact (subprocess_stderr_is_logged env sampleUrl "mobile"
           (Subprocess.size Subprocess.mobileOpts) (sampleInstant - 3) emptyWorld _ _
           Hin Hnoise Hsettled).
Defined.

Lemma subprocess_columns_with_link_witness :
  let env := sampleEnv sampleUrl fullReport (inr tt) in
  let data := Js.obj [("lhr", Js.obj [("categories", Js.obj [])])] in
  let run := Subprocess.saveToGoogleSheets env data emptyWorld in
  let es := newEvents emptyWorld (snd run) in
  exists values,
    In values (appendedValues es)
    /\ Js.field data "link" = JUndefined
    /\ exists columns,
         commonColumns data = inr columns
         /\ values = [columns ++ [Js.field data "link"]]
         /\ length (columns ++ [Js.field data "link"]) = 11%nat
         /\ appendTargets es = [(SPREADSHEET_ID env, "2024!A1")].
Proof.
  intros env data run es.
  assert (Hsome : appendedValues es <> []) by (vm_compute; discriminate).
  destruct (appendedValues es) as [|values rest] eqn:E; [now contradiction Hsome|].
  exists values. split; [now left|]. split; [reflexivity|].
  apply (subprocess_columns_with_link env data emptyWorld values).
  fold run. fold es. rewrite E. now left.
Defined.

(* ================================================================== *)
(** * The phases of [runAndSave], in process *)
(* ================================================================== *)

(** Symbolic execution with the answers of [mkdir], [unlink] and [exec]
    split into their cases, and with every event and every world named as
    it appears, so that goals and proofs stay small. *)
Ltac wp_step_cases :=
  lazymatch goal with
  | |- wp (ensureDirectoryExists _ _) _ _ =>
      apply wp_ensureDirectoryExists; intros [?|[]]; cbv beta iota zeta
  | |- wp (tryCatch (bind (fs_unlink _ _) _) _) _ _ =>
      apply wp_cleanup; intros [?|[]] _; cbv beta iota zeta
  | |- wp (Subprocess.child_exec _ _) _ _ =>
      apply wp_child_exec; intros [[?|] ? ?];
      cbn [execError execStderr execWritten]; cbv beta iota zeta
  | |- _ => wp_step
  end.

Ltac name_world :=
  lazymatch goal with
  | |- wp _ (after ?w0 ?e) _ =>
      let x := fresh "ev" in set (x := e);
      let w' := fresh "w" in set (w' := after w0 x)
  | |- wp _ (mkWorld ?F (trace ?w0 ++ [?e])) _ =>
      let x := fresh "ev" in set (x := e);
      let w' := fresh "w" in set (w' := mkWorld F (trace w0 ++ [x]))
  | |- _ => idtac
  end.

Ltac wp_run_cases := repeat (wp_step_cases; name_world).

(** A hypothesis about the events that the events refute. *)
Ltac refute H :=
  first [ discriminate H | exfalso; apply H; reflexivity ].

Lemma prefix_append (p s : string) : String.prefix p (p +:+ s) = true.
Proof.
  induction p as [|c p IH].
  - now destruct s.
  - change (String c p +:+ s) with (String c (p +:+ s)). cbn [String.prefix].
    destruct (ascii_dec c c) as [_|Hne]; [exact IH | now contradiction Hne].
Qed.

Lemma processingEnded_intro (es : list Event) (rest : string) :
  In (EvLog LInfo ("Processing ended at " +:+ rest)) es -> processingEnded es = true.
Proof.
  intros Hin. unfold processingEnded. apply existsb_exists.
  exists ("Processing ended at " +:+ rest). split; [|apply prefix_append].
  unfold infosLogged. apply in_flat_map. eexists. split; [exact Hin|]. now left.
Qed.

Ltac close_phase :=
  repeat split;
  first [ reflexivity
        | eapply processingEnded_intro; in_list
        | left; reflexivity
        | right; reflexivity
        | eexists; split; in_list ].

(** The line only the [catch] of [processLighthouse] writes. *)
Definition fromDriver (message : string) : bool :=
  String.prefix "Error during scheduled task: " message.

Section InProcessPhases.

Context (env : Env) (url : string) (opts : InProcess.Opts)
        (bucketName : option string) (w : World).

Let run := InProcess.runAndSave env url opts bucketName w.
Let es := newEvents w (snd run).
Let filePath :=
  Path.join ["outputs";
             reportFileName (clock env w) (deriveKey url) (InProcess.formFactor opts)].

Lemma InProcess_phases :
  trace (snd run) = trace w ++ es
  /\ forallb (fun message => negb (fromDriver message)) (errorsLogged es) = true
  /\ (putRequests es <> [] ->
      calls es = [CMkdir; CLaunch; CAudit; CKill; CWrite; CClient; CAppend; CRead; CPut;
                  CUnlink]
      /\ failedWrites es = [] /\ failedAppends es = [])
  /\ (engineFailures es <> [] ->
   writeCalls es = [] /\ readCalls es = [] /\ unlinkCalls es = []
   /\ appendTargets es = [] /\ putRequests es = []
   /\ processingEnded es = false
   /\ exists e, In e (engineFailures es)
                /\ In ("Error running Lighthouse for " +:+ url +:+ ": " +:+ e)
                     (errorsLogged es))
  /\ (engineFailures es = [] ->
      unlinkCalls es = [filePath]
      /\ processingEnded es = true
      /\ (writeCalls es = [] \/ writeCalls es = [filePath])
      /\ (readCalls es = [] \/ readCalls es = [filePath]))
  /\ (failedWrites es <> [] ->
      appendTargets es = [] /\ putRequests es = [] /\ readCalls es = []
      /\ unlinkCalls es = [filePath])
  /\ (forall result,
         engineFailures es = [] ->
         engineResults es = [result] ->
         Js.isNullish result = false ->
         writeCalls es = [filePath])
  /\ (savingFailures es <> [] ->
      exists e,
        savingFailures es = [e]
        /\ In ("Error during saving or uploading: " +:+ e) (errorsLogged es)).
Proof.
  subst es run filePath.
  apply (wp_newEvents (InProcess.runAndSave env url opts bucketName) w
           (fun _ w' es =>
              trace w' = trace w ++ es
              /\ forallb (fun message => negb (fromDriver message)) (errorsLogged es) = true
              /\ (putRequests es <> [] ->
                  calls es = [CMkdir; CLaunch; CAudit; CKill; CWrite; CClient; CAppend;
                              CRead; CPut; CUnlink]
                  /\ failedWrites es = [] /\ failedAppends es = [])
              /\ (engineFailures es <> [] ->
               writeCalls es = [] /\ readCalls es = [] /\ unlinkCalls es = []
               /\ appendTargets es = [] /\ putRequests es = []
               /\ processingEnded es = false
               /\ exists e, In e (engineFailures es)
                            /\ In ("Error running Lighthouse for " +:+ url +:+ ": " +:+ e)
                                 (errorsLogged es))
              /\ (engineFailures es = [] ->
                  unlinkCalls es
                  = [Path.join ["outputs";
                                reportFileName (clock env w) (deriveKey url)
                                  (InProcess.formFactor opts)]]
                  /\ processingEnded es = true
                  /\ (writeCalls es = []
                      \/ writeCalls es
                         = [Path.join ["outputs";
                                       reportFileName (clock env w) (deriveKey url)
                                         (InProcess.formFactor opts)]])
                  /\ (readCalls es = []
                      \/ readCalls es
                         = [Path.join ["outputs";
                                       reportFileName (clock env w) (deriveKey url)
                                         (InProcess.formFactor opts)]]))
              /\ (failedWrites es <> [] ->
                  appendTargets es = [] /\ putRequests es = [] /\ readCalls es = []
                  /\ unlinkCalls es
                     = [Path.join ["outputs";
                                   reportFileName (clock env w) (deriveKey url)
                                     (InProcess.formFactor opts)]])
              /\ (forall result,
                     engineFailures es = [] ->
                     engineResults es = [result] ->
                     Js.isNullish result = false ->
                     writeCalls es
                     = [Path.join ["outputs";
                                   reportFileName (clock env w) (deriveKey url)
                                     (InProcess.formFactor opts)]])
              /\ (savingFailures es <> [] ->
                  exists e,
                    savingFailures es = [e]
                    /\ In ("Error during saving or uploading: " +:+ e)
                         (errorsLogged es)))).
  wp_run_cases; (eexists; split; [trace_shape|]); (split; [trace_shape|]).
  all: split; [reflexivity|].
  all: split; [intros Hput; first [refute Hput | now repeat split]|].
  all: split; [intros Hfail; first [refute Hfail | close_phase]|].
  all: split; [intros Hnone; first [refute Hnone | close_phase]|].
  all: split; [intros Hwrite; first [refute Hwrite | now repeat split]|].
  all: split;
    [|intros Hsave; first [refute Hsave | eexists; split; [reflexivity | in_list]]].
  all: intros result Hnone Hres Hdef; first [refute Hnone | reflexivity | idtac].
  all: lazy in Hres; injection Hres as <-.
  all: match goal with
       | H : Js.get _ "report" = inl _ |- _ =>
           unfold Js.get in H; rewrite Hdef in H; discriminate H
       end.
Qed.

End InProcessPhases.

(** When the audit phase fails (Chrome does not start, the engine throws,
    or the kill fails), the task logs the error and returns normally before
    anything else: no file is written, read or removed, nothing reaches the
    tabular store or the blob store, and the closing "Processing ended"
    lines are not logged. *)
Theorem in_process_audit_failure_is_contained :
  forall (env : Env) (url : string) (opts : InProcess.Opts) (bucketName : option string)
         (w : World),
    let run := InProcess.runAndSave env url opts bucketName w in
    let es := newEvents w (snd run) in
    engineFailures es <> [] ->
    fst run = Ok tt
    /\ writeCalls es = [] /\ readCalls es = [] /\ unlinkCalls es = []
    /\ appendTargets es = [] /\ putRequests es = []
    /\ processingEnded es = false
    /\ exists e, In e (engineFailures es)
                 /\ In ("Error running Lighthouse for " +:+ url +:+ ": " +:+ e)
                      (errorsLogged es).
Proof.
  intros env url opts bucketName w run es Hfail.
  split; [apply InProcess_runAndSave_returns|].
  destruct (InProcess_phases env url opts bucketName w) as (_ & _ & _ & Hfailure & _).
  exact (Hfailure Hfail).
Qed.

Lemma in_process_audit_failure_is_contained_witness :
  let env := faultyEnv EngineFails sampleUrl in
  let run := InProcess.runAndSave env sampleUrl InProcess.mobileOpts (Some "reports")
               emptyWorld in
  let es := newEvents emptyWorld (snd run) in
  engineFailures es <> []
  /\ fst run = Ok tt
  /\ writeCalls es = [] /\ readCalls es = [] /\ unlinkCalls es = []
  /\ appendTargets es = [] /\ putRequests es = []
  /\ processingEnded es = false
  /\ exists e, In e (engineFailures es)
               /\ In ("Error running Lighthouse for " +:+ sampleUrl +:+ ": " +:+ e)
                    (errorsLogged es).
Proof.
  intros env run es.
  assert (Hfail : engineFailures es <> []) by (vm_compute; discriminate).
  split; [exact Hfail|].
  exact (in_process_audit_failure_is_contained env sampleUrl InProcess.mobileOpts
           (Some "reports") emptyWorld Hfail).
Defined.

(** When the audit phase succeeds, the cleanup runs on every path: exactly
    one [fs.unlink] is attempted, on the path of the report under
    [outputs], whatever happened to the write, the guard, the append and
    the upload; every file call of the task is on that one path; and the
    closing lines are logged. *)
Theorem in_process_cleanup_always_attempted :
  forall (env : Env) (url : string) (opts : InProcess.Opts) (bucketName : option string)
         (w : World),
    let run := InProcess.runAndSave env url opts bucketName w in
    let es := newEvents w (snd run) in
    let filePath :=
      Path.join ["outputs";
                 reportFileName (clock env w) (deriveKey url) (InProcess.formFactor opts)] in
    engineFailures es = [] ->
    unlinkCalls es = [filePath]
    /\ processingEnded es = true
    /\ (writeCalls es = [] \/ writeCalls es = [filePath])
    /\ (readCalls es = [] \/ readCalls es = [filePath]).
Proof.
  intros env url opts bucketName w run es filePath Hnone.
  destruct (InProcess_phases env url opts bucketName w) as (_ & _ & _ & _ & Hcleanup & _).
  exact (Hcleanup Hnone).
Qed.

Lemma in_process_cleanup_always_attempted_witness :
  let env := faultyEnv WriteFails sampleUrl in
  let run := InProcess.runAndSave env sampleUrl InProcess.mobileOpts (Some "reports")
               emptyWorld in
  let es := newEvents emptyWorld (snd run) in
  let filePath :=
    Path.join ["outputs";
               reportFileName (clock env emptyWorld) (deriveKey sampleUrl)
                 (InProcess.formFactor InProcess.mobileOpts)] in
  engineFailures es = []
  /\ failedWrites es <> []
  /\ unlinkCalls es = [filePath]
  /\ processingEnded es = true
  /\ (writeCalls es = [] \/ writeCalls es = [filePath])
  /\ (readCalls es = [] \/ readCalls es = [filePath]).
Proof.
  intros env run es filePath.
  assert (Hnone : engineFailures es = []) by (vm_compute; reflexivity).
  split; [exact Hnone|]. split; [vm_compute; discriminate|].
  exact (in_process_cleanup_always_attempted env sampleUrl InProcess.mobileOpts
           (Some "reports") emptyWorld Hnone).
Defined.

(** A report that cannot be written is neither appended nor uploaded: the
    write comes first in the [try] block.  The cleanup still tries to
    remove the file. *)
Theorem in_process_write_failure_skips_sinks :
  forall (env : Env) (url : string) (opts : InProcess.Opts) (bucketName : option string)
         (w : World),
    let run := InProcess.runAndSave env url opts bucketName w in
    let es := newEvents w (snd run) in
    failedWrites es <> [] ->
    appendTargets es = [] /\ putRequests es = [] /\ readCalls es = []
    /\ unlinkCalls es
       = [Path.join ["outputs";
                     reportFileName (clock env w) (deriveKey url)
                       (InProcess.formFactor opts)]].
Proof.
  intros env url opts bucketName w run es Hwrite.
  destruct (InProcess_phases env url opts bucketName w) as (_ & _ & _ & _ & _ & Hskip & _).
  exact (Hskip Hwrite).
Qed.

Lemma in_process_write_failure_skips_sinks_witness :
  let env := faultyEnv WriteFails sampleUrl in
  let run := InProcess.runAndSave env sampleUrl InProcess.desktopOpts (Some "reports")
               emptyWorld in
  let es := newEvents emptyWorld (snd run) in
  failedWrites es <> []
  /\ appendTargets es = [] /\ putRequests es = [] /\ readCalls es = []
  /\ unlinkCalls es
     = [Path.join ["outputs";
                   reportFileName (clock env emptyWorld) (deriveKey sampleUrl)
                     (InProcess.formFactor InProcess.desktopOpts)]].
Proof.
  intros env run es.
  assert (Hwrite : failedWrites es <> []) by (vm_compute; discriminate).
  split; [exact Hwrite|].
  exact (in_process_write_failure_skips_sinks env sampleUrl InProcess.desktopOpts
           (Some "reports") emptyWorld Hwrite).
Defined.

(** The report is written before it is validated: whenever the engine
    returned a result that is not [undefined] or [null], the write of
    [result.report] is attempted, also for a result that then fails the
    guard (its file is removed again by the cleanup). *)
Theorem report_is_written_before_the_guard :
  forall (env : Env) (url : string) (opts : InProcess.Opts) (bucketName : option string)
         (w : World) (result : JsValue),
    let run := InProcess.runAndSave env url opts bucketName w in
    let es := newEvents w (snd run) in
    engineFailures es = [] ->
    engineResults es = [result] ->
    Js.isNullish result = false ->
    writeCalls es
    = [Path.join ["outputs";
                  reportFileName (clock env w) (deriveKey url) (InProcess.formFactor opts)]].
Proof.
  intros env url opts bucketName w result run es.
  destruct (InProcess_phases env url opts bucketName w) as (_ & _ & _ & _ & _ & _ & Hguard & _).
  exact (Hguard result).
Qed.

Lemma report_is_written_before_the_guard_witness :
  let env := sampleEnv sampleUrl reportWithoutCategories (inr tt) in
  let run := InProcess.runAndSave env sampleUrl InProcess.desktopOpts (Some "reports")
               emptyWorld in
  let es := newEvents emptyWorld (snd run) in
  checkStructure reportWithoutCategories = inl invalidStructure
  /\ appendedValues es = []
  /\ writeCalls es
     = [Path.join ["outputs";
                   reportFileName (clock env emptyWorld) (deriveKey sampleUrl)
                     (InProcess.formFactor InProcess.desktopOpts)]].
Proof.
  intros env run es.
  split; [vm_compute; reflexivity|]. split; [vm_compute; reflexivity|].
  apply (report_is_written_before_the_guard env sampleUrl InProcess.desktopOpts
           (Some "reports") emptyWorld reportWithoutCategories);
    vm_compute; reflexivity.
Defined.

(** The order of a task that reaches the blob store: directory, Chrome
    launched, audit, Chrome killed, report written, auth client, row
    appended, report read back, object put, local file removed; each call
    made once, and the write and the append both succeeded. *)
Theorem in_process_upload_comes_last :
  forall (env : Env) (url : string) (opts : InProcess.Opts) (bucketName : option string)
         (w : World),
    let run := InProcess.runAndSave env url opts bucketName w in
    let es := newEvents w (snd run) in
    putRequests es <> [] ->
    calls es = [CMkdir; CLaunch; CAudit; CKill; CWrite; CClient; CAppend; CRead; CPut;
                CUnlink]
    /\ failedWrites es = [] /\ failedAppends es = [].
Proof.
  intros env url opts bucketName w run es Hput.
  destruct (InProcess_phases env url opts bucketName w) as (_ & _ & Horder & _).
  exact (Horder Hput).
Qed.

Lemma in_process_upload_comes_last_witness :
  let env := faultyEnv SendFails sampleUrl in
  let run := InProcess.runAndSave env sampleUrl InProcess.mobileOpts (Some "reports")
               emptyWorld in
  let es := newEvents emptyWorld (snd run) in
  putRequests es <> []
  /\ calls es = [CMkdir; CLaunch; CAudit; CKill; CWrite; CClient; CAppend; CRead; CPut;
                 CUnlink]
  /\ failedWrites es = [] /\ failedAppends es = [].
Proof.
  intros env run es.
  assert (Hput : putRequests es <> []) by (vm_compute; discriminate).
  split; [exact Hput|].
  exact (in_process_upload_comes_last env sampleUrl InProcess.mobileOpts (Some "reports")
           emptyWorld Hput).
Defined.

(** No failure of the saving phase is silent, and the first one ends the
    phase: when the write of the report, the auth client, the append, the
    read of the report or the put of the object fails, it is the only
    such failure of the task, and its message is logged behind "Error
    during saving or uploading: ". *)
Theorem in_process_saving_failure_is_logged :
  forall (env : Env) (url : string) (opts : InProcess.Opts) (bucketName : option string)
         (w : World),
    let run := InProcess.runAndSave env url opts bucketName w in
    let es := newEvents w (snd run) in
    savingFailures es <> [] ->
    exists e,
      savingFailures es = [e]
      /\ In ("Error during saving or uploading: " +:+ e) (errorsLogged es).
Proof.
  intros env url opts bucketName w run es Hsave.
  destruct (InProcess_phases env url opts bucketName w)
    as (_ & _ & _ & _ & _ & _ & _ & Hlogged).
  exact (Hlogged Hsave).
Qed.

Lemma in_process_saving_failure_is_logged_witness :
  let env := faultyEnv ReadFails sampleUrl in
  let run := InProcess.runAndSave env sampleUrl InProcess.desktopOpts (Some "reports")
               emptyWorld in
  let es := newEvents emptyWorld (snd run) in
  savingFailures es <> []
  /\ exists e,
       savingFailures es = [e]
       /\ In ("Error during saving or uploading: " +:+ e) (errorsLogged es).
Proof.
  intros env run es.
  assert (Hsave : savingFailures es <> []) by (vm_compute; discriminate).
  split; [exact Hsave|].
  exact (in_process_saving_failure_is_logged env sampleUrl InProcess.desktopOpts
           (Some "reports") emptyWorld Hsave).
Defined.

(* ================================================================== *)
(** * The phases of [runAndSave], as a subprocess *)
(* ================================================================== *)

Ltac last_event :=
  match goal with
  | |- exists es0 e, ?l = es0 ++ [_] /\ _ =>
      exists (removelast l); eexists; split; [reflexivity|]
  end.

Section SubprocessPhases.

Context (env : Env) (url : string) (opts : Subprocess.Opts)
        (bucketName : option string) (w : World).

Let run := Subprocess.runAndSave env url opts bucketName w.
Let es := newEvents w (snd run).
Let command :=
  Subprocess.commandLine url (Subprocess.device opts) (Subprocess.size opts) (clock env w).
Let jsonReport := "./outputs/" +:+ Str.ofZ (clock env w) +:+ ".report.json".

Lemma Subprocess_phases :
  trace (snd run) = trace w ++ es
  /\ commandsRun es = [command]
  /\ writeCalls es = [] /\ readCalls es = [] /\ unlinkCalls es = [] /\ putRequests es = []
  /\ (appendTargets es <> [] -> calls es = [CMkdir; CExec; CReadJson; CClient; CAppend])
  /\ (savingFailures es <> [] ->
      exists e,
        savingFailures es = [e]
        /\ In ("Error during saving or uploading: " +:+ e) (errorsLogged es))
  /\ match fst run with
     | Ok _ =>
         unreadableReports es = []
         /\ (engineFailures es <> [] ->
             reportReads es = [] /\ appendTargets es = [] /\ processingEnded es = false)
         /\ (engineFailures es = [] ->
             reportReads es = [jsonReport] /\ processingEnded es = true)
     | Throw _ => False
     | Halt =>
         engineFailures es = [] /\ appendTargets es = [] /\ processingEnded es = false
         /\ savingFailures es = []
         /\ exists es0 e,
              es = es0 ++ [EvReadJson jsonReport (inl e)]
              /\ unreadableReports es0 = []
     end.
Proof.
  subst es run command jsonReport.
  apply (wp_newEvents (Subprocess.runAndSave env url opts bucketName) w
           (fun o w' es =>
              trace w' = trace w ++ es
              /\ commandsRun es
                 = [Subprocess.commandLine url (Subprocess.device opts)
                      (Subprocess.size opts) (clock env w)]
              /\ writeCalls es = [] /\ readCalls es = [] /\ unlinkCalls es = []
              /\ putRequests es = []
              /\ (appendTargets es <> [] ->
                  calls es = [CMkdir; CExec; CReadJson; CClient; CAppend])
              /\ (savingFailures es <> [] ->
                  exists e,
                    savingFailures es = [e]
                    /\ In ("Error during saving or uploading: " +:+ e)
                         (errorsLogged es))
              /\ match o with
                 | Ok _ =>
                     unreadableReports es = []
                     /\ (engineFailures es <> [] ->
                         reportReads es = [] /\ appendTargets es = []
                         /\ processingEnded es = false)
                     /\ (engineFailures es = [] ->
                         reportReads es
                         = ["./outputs/" +:+ Str.ofZ (clock env w) +:+ ".report.json"]
                         /\ processingEnded es = true)
                 | Throw _ => False
                 | Halt =>
                     engineFailures es = [] /\ appendTargets es = []
                     /\ processingEnded es = false
                     /\ savingFailures es = []
                     /\ exists es0 e,
                          es = es0
                                 ++ [EvReadJson
                                       ("./outputs/" +:+ Str.ofZ (clock env w)
                                          +:+ ".report.json") (inl e)]
                          /\ unreadableReports es0 = []
                 end)).
  wp_run_cases; (eexists; split; [trace_shape|]); (split; [trace_shape|]).
  all: do 5 (split; [reflexivity|]).
  all: split; [intros Happend; first [refute Happend | reflexivity]|].
  all: split;
    [intros Hsave; first [refute Hsave | eexists; split; [reflexivity | in_list]]|].
  all: try (split; [reflexivity|]).
  all: try (split; [intros Hfail; first [refute Hfail | close_phase]|];
            intros Hnone; first [refute Hnone | close_phase]).
  all: do 3 (split; [reflexivity|]).
  all: last_event; reflexivity.
Qed.

End SubprocessPhases.

(** A report of the subprocess that cannot be read back stalls the task
    for good: the failed read is the last thing that happens, nothing is
    appended, the closing lines are never logged and the task never
    settles.  This is the only way a task fails to return. *)
Theorem subprocess_task_stalls_on_unreadable_report :
  forall (env : Env) (url : string) (opts : Subprocess.Opts) (bucketName : option string)
         (w : World),
    let run := Subprocess.runAndSave env url opts bucketName w in
    let es := newEvents w (snd run) in
    (unreadableReports es <> [] <-> fst run = Halt)
    /\ (fst run <> Halt -> fst run = Ok tt)
    /\ (fst run = Halt ->
        appendTargets es = [] /\ processingEnded es = false
        /\ exists es0 e,
             es = es0 ++ [EvReadJson ("./outputs/" +:+ Str.ofZ (clock env w)
                                        +:+ ".report.json") (inl e)]
             /\ unreadableReports es0 = []).
Proof.
  intros env url opts bucketName w run es.
  pose proof (Subprocess_phases env url opts bucketName w) as (_ & _ & _ & _ & _ & _ & _ & _ & H).
  fold run in H. fold es in H.
  destruct (fst run) as [[]|e|].
  - destruct H as (Hnone & _). rewrite Hnone.
    split; [split; [intros Hne; now contradiction Hne | discriminate]|].
    split; [reflexivity | discriminate].
  - contradiction.
  - destruct H as (_ & Happ & Hend & _ & es0 & e & Hes & Hes0).
    split.
    + split; [reflexivity|]. intros _. rewrite Hes.
      unfold unreadableReports. rewrite flat_map_app. cbn [flat_map].
      intros Heq. now apply app_eq_nil in Heq as [_ Heq].
    + split; [intros Hne; now contradiction Hne|].
      intros _. split; [exact Happ|]. split; [exact Hend|]. now exists es0, e.
Qed.

(** A subprocess that exits with an error is contained by the task: the
    report is not read back, nothing is appended, the closing lines are
    not logged and the task returns normally. *)
Theorem subprocess_exec_failure_is_contained :
  forall (env : Env) (url : string) (opts : Subprocess.Opts) (bucketName : option string)
         (w : World),
    let run := Subprocess.runAndSave env url opts bucketName w in
    let es := newEvents w (snd run) in
    engineFailures es <> [] ->
    fst run = Ok tt
    /\ reportReads es = [] /\ appendTargets es = [] /\ processingEnded es = false.
Proof.
  intros env url opts bucketName w run es Hfail.
  pose proof (Subprocess_phases env url opts bucketName w) as (_ & _ & _ & _ & _ & _ & _ & _ & H).
  fold run in H. fold es in H.
  destruct (fst run) as [[]|e|].
  - split; [reflexivity|]. now apply H.
  - contradiction.
  - destruct H as (Hnone & _). now contradiction Hfail.
Qed.

(** The subprocess revision runs exactly one command per task, with the
    start instant in milliseconds as the id of its output files, and the
    Node process itself writes, reads as a blob, removes and uploads
    nothing: the only file it opens is the JSON report of that id.  A task
    that reaches the tabular store made its calls in this order:
    directory, subprocess, report read back, auth client, append. *)
Theorem subprocess_task_runs_one_command :
  forall (env : Env) (url : string) (opts : Subprocess.Opts) (bucketName : option string)
         (w : World),
    let run := Subprocess.runAndSave env url opts bucketName w in
    let es := newEvents w (snd run) in
    commandsRun es
    = [Subprocess.commandLine url (Subprocess.device opts) (Subprocess.size opts)
         (clock env w)]
    /\ writeCalls es = [] /\ readCalls es = [] /\ unlinkCalls es = [] /\ putRequests es = []
    /\ (fst run = Ok tt -> engineFailures es = [] ->
        reportReads es = ["./outputs/" +:+ Str.ofZ (clock env w) +:+ ".report.json"]
        /\ processingEnded es = true)
    /\ (appendTargets es <> [] -> calls es = [CMkdir; CExec; CReadJson; CClient; CAppend]).
Proof.
  intros env url opts bucketName w run es.
  pose proof (Subprocess_phases env url opts bucketName w)
    as (_ & Hcmd & Hw & Hr & Hu & Hp & Horder & _ & H).
  fold run in H. fold es in H.
  do 5 (split; [assumption|]).
  split; [|assumption].
  intros Hok Hnone. rewrite Hok in H. now apply H.
Qed.

Lemma subprocess_task_stalls_on_unreadable_report_witness :
  let env := faultyEnv ReportUnreadable sampleUrl in
  let run := Subprocess.runAndSave env sampleUrl Subprocess.mobileOpts (Some "reports")
               emptyWorld in
  let es := newEvents emptyWorld (snd run) in
  unreadableReports es <> []
  /\ fst run = Halt
  /\ appendTargets es = [] /\ processingEnded es = false.
Proof.
  intros env run es.
  assert (Hbad : unreadableReports es <> []) by (vm_compute; discriminate).
  destruct (subprocess_task_stalls_on_unreadable_report env sampleUrl Subprocess.mobileOpts
              (Some "reports") emptyWorld) as (Hiff & _ & Hhalt).
  pose proof (proj1 Hiff Hbad) as Hstalled.
  destruct (Hhalt Hstalled) as (Happ & Hend & _).
  split; [exact Hbad|]. split; [exact Hstalled|]. split; [exact Happ | exact Hend].
Defined.

Lemma subprocess_exec_failure_is_contained_witness :
  let env := faultyEnv ExecFails sampleUrl in
  let run := Subprocess.runAndSave env sampleUrl Subprocess.desktopOpts (Some "reports")
               emptyWorld in
  let es := newEvents emptyWorld (snd run) in
  engineFailures es = ["Command failed"]
  /\ fst run = Ok tt
  /\ reportReads es = [] /\ appendTargets es = [] /\ processingEnded es = false.
Proof.
  intros env run es.
  assert (Hfail : engineFailures es <> []) by (vm_compute; discriminate).
  split; [vm_compute; reflexivity|].
  exact (subprocess_exec_failure_is_contained env sampleUrl Subprocess.desktopOpts
           (Some "reports") emptyWorld Hfail).
Defined.

(** In the subprocess revision too the first failure of the saving phase
    (the auth client or the append) is the only one, and its message is
    logged behind "Error during saving or uploading: ". *)
Theorem subprocess_saving_failure_is_logged :
  forall (env : Env) (url : string) (opts : Subprocess.Opts) (bucketName : option string)
         (w : World),
    let run := Subprocess.runAndSave env url opts bucketName w in
    let es := newEvents w (snd run) in
    savingFailures es <> [] ->
    fst run = Ok tt
    /\ exists e,
         savingFailures es = [e]
         /\ In ("Error during saving or uploading: " +:+ e) (errorsLogged es).
Proof.
  intros env url opts bucketName w run es Hsave.
  pose proof (Subprocess_phases env url opts bucketName w)
    as (_ & _ & _ & _ & _ & _ & _ & Hlogged & H).
  fold run in H. fold es in H, Hlogged.
  split; [|exact (Hlogged Hsave)].
  destruct (fst run) as [[]|e|]; [reflexivity | contradiction |].
  destruct H as (_ & _ & _ & Hnone & _). now contradiction Hsave.
Qed.

Lemma subprocess_saving_failure_is_logged_witness :
  let env := faultyEnv ClientFails sampleUrl in
  let run := Subprocess.runAndSave env sampleUrl Subprocess.desktopOpts (Some "reports")
               emptyWorld in
  let es := newEvents emptyWorld (snd run) in
  savingFailures es = ["invalid_grant"]
  /\ fst run = Ok tt
  /\ exists e,
       savingFailures es = [e]
       /\ In ("Error during saving or uploading: " +:+ e) (errorsLogged es).
Proof.
  intros env run es.
  assert (Hsave : savingFailures es <> []) by (vm_compute; discriminate).
  split; [vm_compute; reflexivity|].
  exact (subprocess_saving_failure_is_logged env sampleUrl Subprocess.desktopOpts
           (Some "reports") emptyWorld Hsave).
Defined.

(* ================================================================== *)
(** * Whole batches *)
(* ================================================================== *)

Lemma sequentially_returns {O : Type} (task : string -> O -> option string -> M unit)
  (bucketName : option string) (tasks : list (string * O)) :
  (forall url opts w, fst (task url opts bucketName w) = Ok tt) ->
  forall w, fst (sequentially task bucketName tasks w) = Ok tt.
Proof.
  intros Htask. induction tasks as [|[url opts] tasks IH]; intros w; [reflexivity|].
  cbn [sequentially]. unfold bind. pose proof (Htask url opts w) as Hw.
  destruct (task url opts bucketName w) as [o w']. cbn [fst] in Hw. subst o. apply IH.
Qed.

(** A property of event lists that holds of nothing, and of two runs one
    after the other when it holds of each, holds of a whole batch. *)
Lemma sequentially_events {O : Type} (task : string -> O -> option string -> M unit)
  (bucketName : option string) (I : list Event -> Prop) :
  I [] ->
  (forall es es', I es -> I es' -> I (es ++ es')) ->
  (forall url opts w,
      exists es, trace (snd (task url opts bucketName w)) = trace w ++ es /\ I es) ->
  forall tasks w,
    exists es, trace (snd (sequentially task bucketName tasks w)) = trace w ++ es /\ I es.
Proof.
  intros Hnil Happ Htask tasks.
  induction tasks as [|[url opts] tasks IH]; intros w.
  - exists []. split; [apply shape_start | exact Hnil].
  - cbn [sequentially]. unfold bind.
    destruct (Htask url opts w) as (es1 & Hes1 & HI1).
    destruct (task url opts bucketName w) as [[[]|e|] w1]; cbn [snd] in *.
    + destruct (IH w1) as (es2 & Hes2 & HI2).
      exists (es1 ++ es2). split; [|now apply Happ].
      rewrite Hes2, Hes1. now rewrite app_assoc.
    + exists es1. now split.
    + exists es1. now split.
Qed.

(** The in-process batch.  Without [TARGET_URL] the split throws outside
    the [try]: the promise of [processLighthouse] rejects and nothing is
    logged.  With it the batch always completes, and the [catch] of the
    driver is never entered: no task lets an exception out, so the line
    "Error during scheduled task" is never written. *)
Theorem in_process_batch_settles :
  forall (env : Env) (w : World),
    let run := InProcess.processLighthouse env w in
    match TARGET_URL env with
    | None => run = (Throw "Cannot read properties of undefined (reading 'split')", w)
    | Some _ =>
        fst run = Ok tt
        /\ existsb fromDriver (errorsLogged (newEvents w (snd run))) = false
    end.
Proof.
  intros env w run. subst run.
  destruct (TARGET_URL env) as [targets|] eqn:Htargets.
  - unfold InProcess.processLighthouse.
    rewrite (processWith_contained env _ _ _ targets w Htargets)
      by (intros url opts w' e; rewrite InProcess_runAndSave_returns; discriminate).
    split.
    + apply sequentially_returns. intros url opts w'. apply InProcess_runAndSave_returns.
    + destruct (sequentially_events (InProcess.runAndSave env) (S3_BUCKET_NAME env)
                  (fun es => existsb fromDriver (errorsLogged es) = false))
        with (tasks := taskOrder InProcess.desktopOpts InProcess.mobileOpts
                         (Str.splitOn "," targets)) (w := w) as (es & Hes & HI).
      * reflexivity.
      * intros es es' H H'. unfold errorsLogged. rewrite flat_map_app, existsb_app.
        unfold errorsLogged in H, H'. now rewrite H, H'.
      * intros url opts w'.
        destruct (InProcess_phases env url opts (S3_BUCKET_NAME env) w') as (Hes & Hall & _).
        eexists. split; [exact Hes|].
        apply not_true_is_false. intros Hex. apply existsb_exists in Hex as (m & Hin & Hm).
        rewrite forallb_forall in Hall. specialize (Hall m Hin). now rewrite Hm in Hall.
      * now rewrite (newEvents_app _ _ _ Hes).
  - unfold InProcess.processLighthouse, processWith. now rewrite Htargets.
Qed.

(** The events of a run that ended in a failed read of a subprocess
    report, with no such failure before. *)
Definition stalled (es : list Event) : Prop :=
  exists es0 path e,
    es = es0 ++ [EvReadJson path (inl e)] /\ unreadableReports es0 = [].

Lemma flat_map_length_app {A B} (f : A -> list B) (l l' : list A) :
  length (flat_map f (l ++ l')) = (length (flat_map f l) + length (flat_map f l'))%nat.
Proof. now rewrite flat_map_app, List.length_app. Qed.

Lemma Subprocess_batch (env : Env) (tasks : list (string * Subprocess.Opts)) (w : World) :
  let run := sequentially (Subprocess.runAndSave env) (S3_BUCKET_NAME env) tasks w in
  exists es,
    trace (snd run) = trace w ++ es
    /\ match fst run with
       | Ok _ => unreadableReports es = [] /\ length (commandsRun es) = length tasks
       | Throw _ => False
       | Halt =>
           stalled es /\ (length (commandsRun es) <= length tasks)%nat
           /\ (1 <= length tasks)%nat
       end.
Proof.
  revert w. induction tasks as [|[url opts] tasks IH]; intros w.
  - exists []. split; [apply shape_start | now split].
  - cbn [sequentially]. unfold bind. cbv zeta.
    destruct (Subprocess_phases env url opts (S3_BUCKET_NAME env) w)
      as (Hes1 & Hcmd & _ & _ & _ & _ & _ & _ & H1).
    set (es1 := newEvents w (snd (Subprocess.runAndSave env url opts (S3_BUCKET_NAME env) w)))
      in *.
    destruct (Subprocess.runAndSave env url opts (S3_BUCKET_NAME env) w) as [[[]|e|] w1];
      cbn [fst snd] in *.
    + destruct (IH w1) as (es2 & Hes2 & H2). cbv zeta in H2.
      exists (es1 ++ es2). split; [rewrite Hes2, Hes1; now rewrite app_assoc|].
      destruct H1 as (Hnone1 & _).
      destruct (fst (sequentially _ _ tasks w1)) as [[]|e|].
      * destruct H2 as (Hnone2 & Hlen2). split.
        -- unfold unreadableReports in *. now rewrite flat_map_app, Hnone1, Hnone2.
        -- unfold commandsRun in *. rewrite flat_map_length_app, Hcmd, Hlen2. reflexivity.
      * contradiction.
      * destruct H2 as ((es0 & path & e & -> & Hes0) & Hlen2 & Hpos). split; [|split].
        -- exists (es1 ++ es0), path, e. split; [now rewrite app_assoc|].
           unfold unreadableReports in *. now rewrite flat_map_app, Hnone1, Hes0.
        -- unfold commandsRun in *. rewrite flat_map_length_app, Hcmd. cbn [length]. lia.
        -- cbn [length]. lia.
    + contradiction.
    + exists es1. split; [exact Hes1|].
      destruct H1 as (_ & _ & _ & _ & es0 & e & Hes0 & Hnone0). split; [|split].
      * exists es0. eexists. exists e. split; [exact Hes0 | exact Hnone0].
      * rewrite Hcmd. cbn [length]. lia.
      * cbn [length]. lia.
Qed.

(** The subprocess batch.  With [TARGET_URL] set the batch never rejects.
    It completes when every report could be read back, and then exactly
    one command was run per task.  Otherwise it stalls at the first
    unreadable report: that failed read is the last event of the batch,
    the tasks after it never start, and the [catch] of the driver does not
    see it. *)
Theorem unreadable_report_stalls_the_batch :
  forall (env : Env) (targets : string) (w : World),
    TARGET_URL env = Some targets ->
    let run := Subprocess.processLighthouse env w in
    let es := newEvents w (snd run) in
    let tasks := taskOrder Subprocess.desktopOpts Subprocess.mobileOpts
                   (Str.splitOn "," targets) in
    match fst run with
    | Ok _ => unreadableReports es = [] /\ length (commandsRun es) = length tasks
    | Throw _ => False
    | Halt => stalled es /\ (length (commandsRun es) <= length tasks)%nat
    end.
Proof.
  intros env targets w Htargets run es tasks. subst es run tasks.
  unfold Subprocess.processLighthouse.
  rewrite (processWith_contained env _ _ _ targets w Htargets)
    by (intros url opts w' e; apply Subprocess_runAndSave_contained).
  destruct (Subprocess_batch env
              (taskOrder Subprocess.desktopOpts Subprocess.mobileOpts
                 (Str.splitOn "," targets)) w) as (es & Hes & H).
  cbv zeta in H. rewrite (newEvents_app _ _ _ Hes).
  destruct (fst (sequentially _ _ _ w)) as [[]|e|]; [exact H | exact H |].
  destruct H as (Hstalled & Hlen & _). now split.
Qed.

Lemma unreadable_report_stalls_the_batch_witness :
  let targets := "https://example1.com,https://example2.com" in
  let env := faultyEnv ReportUnreadable targets in
  let run := Subprocess.processLighthouse env emptyWorld in
  let es := newEvents emptyWorld (snd run) in
  TARGET_URL env = Some targets
  /\ fst run = Halt
  /\ length (commandsRun es) = 1%nat
  /\ length (taskOrder Subprocess.desktopOpts Subprocess.mobileOpts
               (Str.splitOn "," targets)) = 4%nat
  /\ stalled es.
Proof.
  intros targets env run es.
  assert (Htargets : TARGET_URL env = Some targets) by reflexivity.
  assert (Hhalt : fst run = Halt) by (vm_compute; reflexivity).
  pose proof (unreadable_report_stalls_the_batch env targets emptyWorld Htargets) as H.
  cbv zeta in H. fold run in H. rewrite Hhalt in H. destruct H as (Hstalled & _).
  split; [exact Htargets|]. split; [exact Hhalt|].
  split; [vm_compute; reflexivity|]. split; [vm_compute; reflexivity | exact Hstalled].
Defined.

(* ================================================================== *)
(** * The list of targets *)
(* ================================================================== *)

Definition notComma (c : ascii) : bool := negb (Ascii.eqb c ",").

(** The number of commas of a string. *)
Definition commas (s : string) : nat :=
  length (List.filter (fun c => Ascii.eqb c ",") (Str.chars s)).

Lemma splitOn_cons (sep : ascii) (s : string) :
  exists piece pieces, Str.splitOn sep s = piece :: pieces.
Proof.
  destruct s as [|c s]; [now eexists _, _|].
  cbn [Str.splitOn]. destruct (Ascii.eqb c sep); [now eexists _, _|].
  destruct (Str.splitOn sep s); now eexists _, _.
Qed.

Lemma joinWith_cons (sep piece : string) (piece' : string) (pieces : list string) :
  Str.joinWith sep (piece :: piece' :: pieces)
  = piece +:+ sep +:+ Str.joinWith sep (piece' :: pieces).
Proof. reflexivity. Qed.

Lemma joinWith_splitOn (sep : ascii) (s : string) :
  Str.joinWith (String sep "") (Str.splitOn sep s) = s.
Proof.
  induction s as [|c s IH]; [reflexivity|].
  cbn [Str.splitOn]. destruct (Ascii.eqb_spec c sep) as [->|Hne].
  - destruct (splitOn_cons sep s) as (piece & pieces & Hs). rewrite Hs in IH |- *.
    rewrite joinWith_cons, IH. reflexivity.
  - destruct (Str.splitOn sep s) as [|piece [|piece' pieces]].
    + cbn in IH. now subst s.
    + cbn in IH |- *. now subst s.
    + rewrite joinWith_cons in IH |- *.
      change (String c piece +:+ String sep "" +:+ Str.joinWith (String sep "") (piece' :: pieces))
        with (String c (piece +:+ String sep "" +:+ Str.joinWith (String sep "") (piece' :: pieces))).
      now rewrite IH.
Qed.

Lemma splitOn_pieces (sep : ascii) (s : string) :
  Forall (fun piece => Str.allChars (fun c => negb (Ascii.eqb c sep)) piece = true)
         (Str.splitOn sep s).
Proof.
  induction s as [|c s IH]; [now repeat constructor|].
  cbn [Str.splitOn]. destruct (Ascii.eqb c sep) eqn:Hc; [now constructor|].
  destruct (Str.splitOn sep s) as [|piece pieces].
  - repeat constructor. rewrite allChars_cons, Hc. reflexivity.
  - inversion IH as [|? ? Hpiece Hpieces]; subst. constructor; [|assumption].
    now rewrite allChars_cons, Hc, Hpiece.
Qed.

Lemma length_splitOn (sep : ascii) (s : string) :
  length (Str.splitOn sep s)
  = S (length (List.filter (fun c => Ascii.eqb c sep) (Str.chars s))).
Proof.
  induction s as [|c s IH]; [reflexivity|].
  cbn [Str.splitOn]. change (Str.chars (String c s)) with (c :: Str.chars s).
  cbn [List.filter]. destruct (Ascii.eqb c sep).
  - cbn [length]. now rewrite IH.
  - destruct (Str.splitOn sep s); cbn [length] in *; [discriminate IH | exact IH].
Qed.

Lemma length_taskOrder {O : Type} (desktopOpts mobileOpts : O) (urls : list string) :
  length (taskOrder desktopOpts mobileOpts urls) = (2 * length urls)%nat.
Proof.
  induction urls as [|url urls IH]; [reflexivity|].
  cbn [taskOrder flat_map app length] in *. unfold taskOrder in IH. rewrite IH. lia.
Qed.

(* ================================================================== *)
(** * The files of the subprocess *)
(* ================================================================== *)

Lemma normalize_in_outputs (name : string) :
  plainSegment name ->
  Path.normalize ("./outputs/" +:+ name) = "outputs/" +:+ name.
Proof.
  intros Hname. destruct (plainSegment_eqb name Hname) as (Hn0 & Hn1 & Hn2).
  destruct Hname as [Hslash Hlen].
  unfold Path.normalize.
  change ("./outputs/" +:+ name) with (String "." (String "/" ("outputs/" +:+ name))).
  cbv zeta. cbn [Path.startsWithSlash]. change (Ascii.eqb "." "/") with false. cbn [negb].
  assert (Hend : Path.endsWithSlash (String "." (String "/" ("outputs/" +:+ name))) = false).
  { change (String "." (String "/" ("outputs/" +:+ name))) with ("./outputs/" +:+ name).
    rewrite endsWithSlash_app by (intros ->; discriminate Hn0).
    now apply endsWithSlash_noSlash. }
  rewrite Hend.
  change (String "." (String "/" ("outputs/" +:+ name)))
    with ("." +:+ String "/" ("outputs" +:+ String "/" name)).
  rewrite (splitOn_app "/" "." _ eq_refl), (splitOn_app "/" "outputs" _ eq_refl),
    (splitOn_noSep "/" name Hslash).
  cbn [Path.normalizeSegments]. rewrite Hn0, Hn1, Hn2.
  change (String.eqb "." "" || String.eqb "." ".") with true.
  change (String.eqb "outputs" "" || String.eqb "outputs" ".") with false.
  change (String.eqb "outputs" "..") with false.
  cbn [orb rev app Str.joinWith].
  change ("outputs" +:+ "/" +:+ name) with (String "o" ("utputs/" +:+ name)).
  cbv iota. change ("" +:+ String "o" ("utputs/" +:+ name)) with ("outputs/" +:+ name).
  apply append_nil_r.
Qed.

Lemma plainSegment_report (id : Z) (extension : string) :
  noSlash extension = true -> (3 <= String.length extension)%nat ->
  plainSegment (Str.ofZ id +:+ extension).
Proof.
  intros Hslash Hlen. split.
  - now rewrite noSlash_app, noSlash_ofZ, Hslash.
  - rewrite length_app. lia.
Qed.

(** The subprocess and [runAndSave] name the same files: the path the
    command line asks the engine to write, with the extension the engine
    adds, is after normalisation the path [runAndSave] builds with
    [path.join] for the HTML report and for its JSON sidecar, and the JSON
    path is the one read back. *)
Theorem subprocess_report_paths_agree :
  forall id : Z,
    Path.normalize ("./outputs/" +:+ Str.ofZ id +:+ ".report.html")
    = Path.join ["outputs"; Str.ofZ id +:+ ".report.html"]
    /\ Path.normalize ("./outputs/" +:+ Str.ofZ id +:+ ".report.json")
       = Path.join ["outputs"; Str.ofZ id +:+ ".report.json"]
    /\ Path.join ["outputs"; Str.ofZ id +:+ ".report.html"]
       = "outputs/" +:+ Str.ofZ id +:+ ".report.html"
    /\ Path.join ["outputs"; Str.ofZ id +:+ ".report.html"]
       <> Path.join ["outputs"; Str.ofZ id +:+ ".report.json"].
Proof.
  intros id.
  assert (Hhtml : plainSegment (Str.ofZ id +:+ ".report.html"))
    by (apply plainSegment_report; [reflexivity | cbn; lia]).
  assert (Hjson : plainSegment (Str.ofZ id +:+ ".report.json"))
    by (apply plainSegment_report; [reflexivity | cbn; lia]).
  assert (Hout : plainSegment "outputs") by (split; [reflexivity | cbn; lia]).
  rewrite !(join_plain "outputs" _ Hout Hhtml), !(join_plain "outputs" _ Hout Hjson).
  rewrite (normalize_in_outputs _ Hhtml), (normalize_in_outputs _ Hjson).
  repeat split.
  change ("outputs" +:+ "/" +:+ Str.ofZ id +:+ ".report.html")
    with ("outputs/" +:+ Str.ofZ id +:+ ".report.html").
  change ("outputs" +:+ "/" +:+ Str.ofZ id +:+ ".report.json")
    with ("outputs/" +:+ Str.ofZ id +:+ ".report.json").
  intros Heq.
  assert (Hsuffix : forall s t u : string, s +:+ t = s +:+ u -> t = u).
  { intros s t u. induction s as [|c s IH]; [trivial|].
    change (String c s +:+ t) with (String c (s +:+ t)).
    change (String c s +:+ u) with (String c (s +:+ u)).
    intros [= H]. now apply IH. }
  apply (Hsuffix "outputs/") in Heq. apply Hsuffix in Heq. discriminate Heq.
Qed.

(* ================================================================== *)
(** * [ensureDirectoryExists] *)
(* ================================================================== *)

(** [ensureDirectoryExists] never throws.  It calls [mkdir] once, on the
    path it was given, and logs one line: at info level when the call
    succeeded, at error level, with the message of the failure, when it
    did not.  The caller cannot tell the two apart. *)
Theorem ensureDirectoryExists_contained :
  forall (env : Env) (dirPath : string) (w : World),
    let run := ensureDirectoryExists env dirPath w in
    let es := newEvents w (snd run) in
    fst run = Ok tt
    /\ ((es = [EvMkdir dirPath (inr tt); EvLog LInfo ("Directory created: " +:+ dirPath)])
        \/ exists e,
             es = [EvMkdir dirPath (inl e);
                   EvLog LError ("Error creating directory " +:+ dirPath +:+ ": " +:+ e)]).
Proof.
  intros env dirPath w run es. subst es run.
  apply (wp_newEvents (ensureDirectoryExists env dirPath) w
           (fun o w' es =>
              o = Ok tt
              /\ ((es = [EvMkdir dirPath (inr tt);
                         EvLog LInfo ("Directory created: " +:+ dirPath)])
                  \/ exists e,
                       es = [EvMkdir dirPath (inl e);
                             EvLog LError ("Error creating directory " +:+ dirPath
                                             +:+ ": " +:+ e)]))).
  apply wp_ensureDirectoryExists. intros [e|[]].
  - eexists. split; [trace_shape|]. split; [reflexivity|]. right. now exists e.
  - eexists. split; [trace_shape|]. split; [reflexivity|]. now left.
Qed.

(* ================================================================== *)
(** * From the engine's result to the appended row *)
(* ================================================================== *)

(** A score column of [saveToGoogleSheets] holds what [?.score ?? "N/A"]
    gives on the category of [data.lhr.categories]. *)
Lemma column_of_category (data : JsValue) (row : list JsValue) (i : nat) (name : string) :
  nth_error categoryNames i = Some name ->
  commonColumns data = inr row ->
  nth (4 + i) row JNull = scoreOf data name.
Proof.
  intros Hname Hrow.
  unfold commonColumns, scoreColumn, Js.getPath, obind, Js.get in Hrow.
  destruct (Js.isNullish data); [discriminate Hrow|].
  destruct (Js.isNullish (Js.field data "lhr")); [discriminate Hrow|].
  destruct (Js.isNullish (Js.field (Js.field data "lhr") "categories"));
    [discriminate Hrow|].
  injection Hrow as <-. unfold categoryNames in Hname.
  do 5 (destruct i as [|i]; [injection Hname as <-; reflexivity|]).
  destruct i; discriminate Hname.
Qed.

Lemma reportRow_column (startTime : Z) (device urlKey : string) (result : JsValue)
  (i : nat) (name : string) (tail : list JsValue) :
  nth_error categoryNames i = Some name ->
  nth (4 + i) (reportRow startTime device urlKey result ++ tail) JNull = scoreOf result name.
Proof.
  intros Hname. unfold categoryNames in Hname.
  do 5 (destruct i as [|i]; [injection Hname as <-; reflexivity|]).
  destruct i; discriminate Hname.
Qed.

(** A category with a score of 0 is an object, so [categories] holds it
    and the guard passes. *)
Lemma zero_score_passes_guard (result category : JsValue) (name : string) :
  Js.field (categoriesOf result) name = category ->
  Js.field category "score" = JNum 0%float ->
  checkStructure result = inr tt /\ scoreOf result name = JNum 0%float.
Proof.
  intros Hcat Hzero.
  assert (Hobj : exists cats, categoriesOf result = JObj cats).
  { destruct (categoriesOf result) as [| | | | | |cats] eqn:E; cbn [Js.field] in Hcat;
      try (subst category; discriminate Hzero). now exists cats. }
  destruct Hobj as [cats Hcats].
  split; [exact (categories_object_passes _ _ Hcats)|].
  unfold scoreOf. rewrite Hcat, scoreOrNA_cases, Hzero.
  destruct category; try discriminate Hzero. reflexivity.
Qed.

(** What [saveToGoogleSheets] hands to the tabular store, once it has the
    auth client: the row, when the row can be built. *)
Lemma InProcess_sheet_appends (env : Env) (data : JsValue) (w : World) :
  let es := newEvents w (snd (InProcess.saveToGoogleSheets env data w)) in
  clientFailures es = [] ->
  match commonColumns data with
  | inr row => appendedValues es = [[row]]
  | inl _ => appendedValues es = []
  end.
Proof.
  intros es. subst es.
  apply (wp_newEvents (InProcess.saveToGoogleSheets env data) w
           (fun _ _ es =>
              clientFailures es = [] ->
              match commonColumns data with
              | inr row => appendedValues es = [[row]]
              | inl _ => appendedValues es = []
              end)).
  wp_run; (eexists; split; [trace_shape|]); observe_more; intros Hclient;
    first [discriminate Hclient | reflexivity].
Qed.

Lemma Subprocess_sheet_appends (env : Env) (data : JsValue) (w : World) :
  let es := newEvents w (snd (Subprocess.saveToGoogleSheets env data w)) in
  clientFailures es = [] ->
  match commonColumns data with
  | inr row => appendedValues es = [[row ++ [Js.field data "link"]]]
  | inl _ => appendedValues es = []
  end.
Proof.
  intros es. subst es.
  apply (wp_newEvents (Subprocess.saveToGoogleSheets env data) w
           (fun _ _ es =>
              clientFailures es = [] ->
              match commonColumns data with
              | inr row => appendedValues es = [[row ++ [Js.field data "link"]]]
              | inl _ => appendedValues es = []
              end)).
  wp_run; (eexists; split; [trace_shape|]); observe_more; intros Hclient;
    try discriminate Hclient.
  all: match goal with
       | H : obind (commonColumns ?d) _ = inr ?row |- _ =>
           destruct (columns_with_link d row H) as (columns & Hcols & -> & _);
           rewrite Hcols; reflexivity
       | H : obind (commonColumns ?d) _ = inl _ |- _ =>
           destruct (commonColumns d) as [e|columns] eqn:Hcols; [reflexivity|];
           destruct (commonColumns_inr d columns Hcols) as (Hd & _);
           cbn [obind] in H; unfold Js.get in H; rewrite Hd in H; discriminate H
       end.
Qed.

(** A result can be pointed at as the one the engine returned. *)
Ltac the_result H :=
  first [ now destruct H | destruct H as [<-|[]] ].

Section RowIsAppended.

Context (env : Env) (url : string) (bucketName : option string) (w : World).

(** In process: a result that passes the guard is appended, unless the
    report cannot be written or the auth client is refused. *)
Lemma InProcess_row_is_appended (opts : InProcess.Opts) (result : JsValue) :
  let es := newEvents w (snd (InProcess.runAndSave env url opts bucketName w)) in
  engineFailures es = [] ->
  In result (engineResults es) ->
  checkStructure result = inr tt ->
  failedWrites es = [] ->
  clientFailures es = [] ->
  appendedValues es <> [].
Proof.
  intros es. subst es.
  apply (wp_newEvents (InProcess.runAndSave env url opts bucketName) w
           (fun _ _ es =>
              engineFailures es = [] ->
              In result (engineResults es) ->
              checkStructure result = inr tt ->
              failedWrites es = [] ->
              clientFailures es = [] ->
              appendedValues es <> [])).
  wp_run_cases; (eexists; split; [trace_shape|]).
  all: intros Hnone Hres Hok Hwrite Hclient.
  all: first [ discriminate Hnone | discriminate Hwrite | discriminate Hclient | idtac ].
  all: the_result Hres.
  all: try (intros Habs; discriminate Habs).
  all: try congruence.
  all: match goal with
       | H : Js.get ?r "report" = inl _ |- _ =>
           apply checkStructure_ok in Hok as (Hr & _);
           unfold Js.get in H; rewrite Hr in H; discriminate H
       | H : InProcess.sheetData ?r ?o ?t ?k = inl _ |- _ =>
           destruct (InProcess_row r o t k Hok) as (d & Hd & _);
           rewrite Hd in H; discriminate H
       | Hd : InProcess.sheetData ?r ?o ?t ?k = inr ?d, H : commonColumns ?d = inl _ |- _ =>
           destruct (InProcess_row r o t k Hok) as (d' & Hd' & Hr');
           rewrite Hd in Hd'; injection Hd' as Hd'; rewrite <- Hd' in Hr';
           rewrite H in Hr'; discriminate Hr'
       end.
Qed.

(** As a subprocess: a result that passes the guard is appended, unless
    the auth client is refused. *)
Lemma Subprocess_row_is_appended (opts : Subprocess.Opts) (result : JsValue) :
  let es := newEvents w (snd (Subprocess.runAndSave env url opts bucketName w)) in
  In result (engineResults es) ->
  checkStructure result = inr tt ->
  clientFailures es = [] ->
  appendedValues es <> [].
Proof.
  intros es. subst es.
  apply (wp_newEvents (Subprocess.runAndSave env url opts bucketName) w
           (fun _ _ es =>
              In result (engineResults es) ->
              checkStructure result = inr tt ->
              clientFailures es = [] ->
              appendedValues es <> [])).
  wp_run_cases; (eexists; split; [trace_shape|]).
  all: intros Hres Hok Hclient.
  all: first [ discriminate Hclient | idtac ].
  all: the_result Hres.
  all: try (intros Habs; discriminate Habs).
  all: try congruence.
  all: match goal with
       | H : Subprocess.sheetData ?r ?o ?t ?k ?l = inl _ |- _ =>
           destruct (Subprocess_row r o t k l Hok) as (d & Hd & _);
           rewrite Hd in H; discriminate H
       | Hd : Subprocess.sheetData ?r ?o ?t ?k ?l = inr ?d,
         H : obind (commonColumns ?d) _ = inl _ |- _ =>
           destruct (Subprocess_row r o t k l Hok) as (d' & Hd' & Hr' & Hl');
           rewrite Hd in Hd'; injection Hd' as Hd'; rewrite <- Hd' in Hr', Hl';
           rewrite Hr' in H; cbn [obind] in H; rewrite Hl' in H; discriminate H
       end.
Qed.

End RowIsAppended.

(** C10.  A category that is present with the number 0 as its score keeps
    it in the appended row: in both revisions a task whose engine returned
    such a report (and that got as far as the tabular store: no failure of
    the audit, of the write of the report or of the auth client) appends
    exactly one row, and the column of that category holds 0, not the
    sentinel.  The same holds of [saveToGoogleSheets] alone on any [data],
    and for every category the column holds the sentinel exactly when the
    category or its score is [undefined] or [null], the score otherwise. *)
Theorem zero_score_is_kept :
  forall (result category : JsValue) (i : nat) (name : string),
    nth_error categoryNames i = Some name ->
    Js.field (categoriesOf result) name = category ->
    Js.field category "score" = JNum 0%float ->
    (forall (env : Env) (url : string) (opts : InProcess.Opts)
            (bucketName : option string) (w : World),
        let es := newEvents w (snd (InProcess.runAndSave env url opts bucketName w)) in
        engineFailures es = [] -> engineResults es = [result] ->
        failedWrites es = [] -> clientFailures es = [] ->
        exists row,
          appendedValues es = [[row]] /\ length row = 10%nat
          /\ nth (4 + i) row JNull = JNum 0%float /\ nth (4 + i) row JNull <> NA)
    /\ (forall (env : Env) (url : string) (opts : Subprocess.Opts)
               (bucketName : option string) (w : World),
           let es := newEvents w (snd (Subprocess.runAndSave env url opts bucketName w)) in
           engineResults es = [result] -> clientFailures es = [] ->
           exists row,
             appendedValues es = [[row]] /\ length row = 11%nat
             /\ nth (4 + i) row JNull = JNum 0%float /\ nth (4 + i) row JNull <> NA)
    /\ (forall (env : Env) (w : World) (row : list JsValue),
           commonColumns result = inr row ->
           nth (4 + i) row JNull = JNum 0%float
           /\ (clientFailures
                 (newEvents w (snd (InProcess.saveToGoogleSheets env result w))) = [] ->
               appendedValues
                 (newEvents w (snd (InProcess.saveToGoogleSheets env result w))) = [[row]])
           /\ (clientFailures
                 (newEvents w (snd (Subprocess.saveToGoogleSheets env result w))) = [] ->
               appendedValues
                 (newEvents w (snd (Subprocess.saveToGoogleSheets env result w)))
               = [[row ++ [Js.field result "link"]]]))
    /\ (forall (data : JsValue) (row : list JsValue) (j : nat) (other : string),
           nth_error categoryNames j = Some other ->
           commonColumns data = inr row ->
           nth (4 + j) row JNull
           = (if Js.isNullish (Js.field (categoriesOf data) other)
                 || Js.isNullish (Js.field (Js.field (categoriesOf data) other) "score")
              then NA
              else Js.field (Js.field (categoriesOf data) other) "score")).
Proof.
  intros result category i name Hname Hcat Hzero.
  destruct (zero_score_passes_guard result category name Hcat Hzero) as [Hok Hscore].
  split; [|split; [|split]].
  - intros env url opts bucketName w es Hnone Hres Hwrite Hclient.
    assert (Hin : In result (engineResults es)) by (rewrite Hres; now left).
    pose proof (InProcess_row_is_appended env url bucketName w opts result
                  Hnone Hin Hok Hwrite Hclient) as Hsome.
    destruct (InProcess_appended env url opts bucketName w)
      as [Hnil|(result' & Hres' & _ & Hval)]; [now contradiction Hsome|].
    fold es in Hres', Hval. rewrite Hres in Hres'. injection Hres' as <-.
    eexists. split; [exact Hval|]. split; [reflexivity|].
    rewrite <- (app_nil_r (reportRow _ _ _ result)), (reportRow_column _ _ _ _ _ _ _ Hname).
    rewrite Hscore. split; [reflexivity | discriminate].
  - intros env url opts bucketName w es Hres Hclient.
    assert (Hin : In result (engineResults es)) by (rewrite Hres; now left).
    pose proof (Subprocess_row_is_appended env url bucketName w opts result
                  Hin Hok Hclient) as Hsome.
    destruct (Subprocess_appended env url opts bucketName w)
      as [Hnil|(result' & now & Hres' & _ & Hval)]; [now contradiction Hsome|].
    fold es in Hres', Hval. rewrite Hres in Hres'. injection Hres' as <-.
    eexists. split; [exact Hval|]. split; [reflexivity|].
    rewrite (reportRow_column _ _ _ _ _ _ _ Hname), Hscore.
    split; [reflexivity | discriminate].
  - intros env w row Hrow.
    split; [rewrite (column_of_category _ _ _ _ Hname Hrow); exact Hscore|].
    split.
    + intros Hclient. pose proof (InProcess_sheet_appends env result w Hclient) as H.
      now rewrite Hrow in H.
    + intros Hclient. pose proof (Subprocess_sheet_appends env result w Hclient) as H.
      now rewrite Hrow in H.
  - intros data row j other Hother Hrow.
    rewrite (column_of_category _ _ _ _ Hother Hrow). unfold scoreOf.
    apply scoreOrNA_cases.
Qed.

(** The sample report whose [pwa] category scores 0, audited on the
    desktop profile of both revisions. *)
Lemma zero_score_is_kept_witness :
  let env := sampleEnv sampleUrl reportWithZeroPwa (inr tt) in
  nth_error categoryNames 4 = Some "pwa"
  /\ Js.field (categoriesOf reportWithZeroPwa) "pwa" = category (JNum 0%float)
  /\ Js.field (category (JNum 0%float)) "score" = JNum 0%float
  /\ (let es := newEvents emptyWorld
                  (snd (InProcess.runAndSave env sampleUrl InProcess.desktopOpts
                          (Some "reports") emptyWorld)) in
      engineResults es = [reportWithZeroPwa]
      /\ exists row,
           appendedValues es = [[row]] /\ length row = 10%nat
           /\ nth 8 row JNull = JNum 0%float /\ nth 8 row JNull <> NA).
Proof.
  intros env.
  assert (Hname : nth_error categoryNames 4 = Some "pwa") by reflexivity.
  assert (Hcat : Js.field (categoriesOf reportWithZeroPwa) "pwa" = category (JNum 0%float))
    by (vm_compute; reflexivity).
  assert (Hzero : Js.field (category (JNum 0%float)) "score" = JNum 0%float)
    by (vm_compute; reflexivity).
  split; [exact Hname|]. split; [exact Hcat|]. split; [exact Hzero|].
  assert (Hres : engineResults
                   (newEvents emptyWorld
                      (snd (InProcess.runAndSave env sampleUrl InProcess.desktopOpts
                              (Some "reports") emptyWorld)))
                 = [reportWithZeroPwa]) by (vm_compute; reflexivity).
  split; [exact Hres|].
  apply (proj1 (zero_score_is_kept reportWithZeroPwa (category (JNum 0%float)) 4 "pwa"
                  Hname Hcat Hzero)
           env sampleUrl InProcess.desktopOpts (Some "reports") emptyWorld).
  - vm_compute. reflexivity.
  - exact Hres.
  - vm_compute. reflexivity.
  - vm_compute. reflexivity.
Defined.

(* ================================================================== *)
(** * The storage path, in the runs *)
(* ================================================================== *)

(** The events before the first one that [mark] picks out. *)
Fixpoint eventsBefore (mark : Event -> bool) (es : list Event) : list Event :=
  match es with
  | [] => []
  | e :: rest => if mark e then [] else e :: eventsBefore mark rest
  end.

(** [uploadToS3] reads the clock just before it reads the report back. *)
Definition isReadFile (e : Event) : bool :=
  match e with
  | EvReadFile _ _ => true
  | _ => false
  end.

(** [s.startsWith(p)]. *)
Fixpoint startsWith (p s : string) : bool :=
  match p with
  | EmptyString => true
  | String c p' =>
      match s with
      | String c' s' => Ascii.eqb c c' && startsWith p' s'
      | EmptyString => false
      end
  end.

(** The subprocess revision reads the clock for the date prefix just
    before it logs "HTML report written to file". *)
Definition isWrittenNote (e : Event) : bool :=
  match e with
  | EvLog LInfo message => startsWith "HTML report written to file: " message
  | _ => false
  end.

Definition failedReads (es : list Event) : list string :=
  flat_map (fun e => match e with
                     | EvReadFile path (inl _) => [path]
                     | _ => []
                     end) es.

(** The world in which a clock reading was taken: one of the worlds the
    run went through, told by its trace and its files. *)
Ltac clock_world tac :=
  match goal with
  | wu := _ : World |- _ =>
      exists wu; split; [etransitivity; [trace_shape | reflexivity]|];
      split; [reflexivity|]; tac
  end.

Section StorageInProcess.

Context (env : Env) (url : string) (opts : InProcess.Opts)
        (bucketName : option string) (w : World).

Let run := InProcess.runAndSave env url opts bucketName w.
Let es := newEvents w (snd run).
Let fileName := reportFileName (clock env w) (deriveKey url) (InProcess.formFactor opts).
Let filePath := Path.join ["outputs"; fileName].

(** After a successful append [uploadToS3] is entered: it reads the clock,
    reads the report back, and puts it under the key joined from the day
    of that clock reading and the display name. *)
Lemma InProcess_storage :
  (appendedValues es <> [] -> failedAppends es = [] -> readCalls es = [filePath])
  /\ (readCalls es <> [] ->
      exists wu : World,
        trace wu = trace w ++ eventsBefore isReadFile es
        /\ files wu = files w ∪ {[Path.normalize filePath]}
        /\ (failedReads es = [] ->
            putRequests es
            = [(bucketName,
                Path.join [JsDate.format_yyyy_MM_dd (utcOffsetMinutes env (clock env wu))
                             (clock env wu); fileName])])
        /\ (putRequests es = []
            \/ putRequests es
               = [(bucketName,
                   Path.join [JsDate.format_yyyy_MM_dd (utcOffsetMinutes env (clock env wu))
                                (clock env wu); fileName])])).
Proof.
  subst es run filePath fileName.
  apply (wp_newEvents (InProcess.runAndSave env url opts bucketName) w
           (fun _ _ es =>
              (appendedValues es <> [] -> failedAppends es = [] ->
               readCalls es
               = [Path.join ["outputs";
                             reportFileName (clock env w) (deriveKey url)
                               (InProcess.formFactor opts)]])
              /\ (readCalls es <> [] ->
                  exists wu : World,
                    trace wu = trace w ++ eventsBefore isReadFile es
                    /\ files wu
                       = files w
                           ∪ {[Path.normalize
                                 (Path.join ["outputs";
                                             reportFileName (clock env w) (deriveKey url)
                                               (InProcess.formFactor opts)])]}
                    /\ (failedReads es = [] ->
                        putRequests es
                        = [(bucketName,
                            Path.join [JsDate.format_yyyy_MM_dd
                                         (utcOffsetMinutes env (clock env wu))
                                         (clock env wu);
                                       reportFileName (clock env w) (deriveKey url)
                                         (InProcess.formFactor opts)])])
                    /\ (putRequests es = []
                        \/ putRequests es
                           = [(bucketName,
                               Path.join [JsDate.format_yyyy_MM_dd
                                            (utcOffsetMinutes env (clock env wu))
                                            (clock env wu);
                                          reportFileName (clock env w) (deriveKey url)
                                            (InProcess.formFactor opts)])])))).
  wp_run_cases; (eexists; split; [trace_shape|]).
  all: split;
    [intros Happ Hfail; first [refute Happ | refute Hfail | reflexivity]|].
  all: intros Hread; first [refute Hread | idtac].
  all: clock_world
         ltac:(split;
               [intros Hr; first [refute Hr | reflexivity]
               |first [left; reflexivity | right; reflexivity]]).
Qed.

End StorageInProcess.

Section StorageSubprocess.

Context (env : Env) (url : string) (opts : Subprocess.Opts)
        (bucketName : option string) (w : World).

Let run := Subprocess.runAndSave env url opts bucketName w.
Let es := newEvents w (snd run).
Let fileName := reportFileName (clock env w) (deriveKey url) (Subprocess.device opts).

(** Every appended row ends with the link, built from the day of the
    clock reading taken once the audit has returned. *)
Lemma Subprocess_storage (values : list (list JsValue)) :
  In values (appendedValues es) ->
  exists (wu : World) (row : list JsValue),
    trace wu = trace w ++ eventsBefore isWrittenNote es
    /\ files wu = files (snd run)
    /\ values = [row]
    /\ length row = 11%nat
    /\ nth 10 row JNull
       = JStr (Js.template (HOST env) +:+ "/"
                 +:+ JsDate.format_yyyy_MM_dd (utcOffsetMinutes env (clock env wu))
                       (clock env wu)
                 +:+ "/" +:+ fileName).
Proof.
  subst es run fileName.
  apply (wp_newEvents (Subprocess.runAndSave env url opts bucketName) w
           (fun _ w' es =>
              In values (appendedValues es) ->
              exists (wu : World) (row : list JsValue),
                trace wu = trace w ++ eventsBefore isWrittenNote es
                /\ files wu = files w'
                /\ values = [row]
                /\ length row = 11%nat
                /\ nth 10 row JNull
                   = JStr (Js.template (HOST env) +:+ "/"
                             +:+ JsDate.format_yyyy_MM_dd
                                   (utcOffsetMinutes env (clock env wu)) (clock env wu)
                             +:+ "/"
                             +:+ reportFileName (clock env w) (deriveKey url)
                                   (Subprocess.device opts)))).
  wp_run_cases; (eexists; split; [trace_shape|]).
  all: intros Hin; the_result Hin.
  all: match goal with
       | Hc : checkStructure ?r = inr tt,
         Hd : Subprocess.sheetData ?r ?o ?t ?k ?l = inr ?d,
         H : obind (commonColumns ?d) _ = inr ?row |- _ =>
           destruct (Subprocess_row r o t k l Hc) as (d' & Hd' & Hr' & Hl');
           rewrite Hd in Hd'; injection Hd' as Hd'; rewrite <- Hd' in Hr', Hl';
           rewrite Hr' in H; cbn [obind] in H; rewrite Hl' in H; cbn [obind] in H;
           injection H as Hrow
       end.
  all: match goal with
       | wu := _ : World |- _ =>
           exists wu; eexists;
           split; [etransitivity; [trace_shape | reflexivity]|];
           split; [reflexivity|]; split; [reflexivity|];
           rewrite <- Hrow; split; reflexivity
       end.
Qed.

End StorageSubprocess.

(** The sample environment started one millisecond before midnight. *)
Definition nightEnv : Env :=
  let base := sampleEnv sampleUrl fullReport (inr tt) in
  {| clock := fun w => sampleInstant + 14 * 3600000 - 1 + Z.of_nat (length (trace w));
     utcOffsetMinutes := utcOffsetMinutes base;
     HOST := HOST base;
     TARGET_URL := TARGET_URL base;
     S3_BUCKET_NAME := S3_BUCKET_NAME base;
     SPREADSHEET_ID := SPREADSHEET_ID base;
     mkdirOracle := mkdirOracle base;
     launchOracle := launchOracle base;
     lighthouseOracle := lighthouseOracle base;
     killOracle := killOracle base;
     execOracle := fun w _ =>
       let id := Str.ofZ (sampleInstant + 14 * 3600000 - 1
                            + Z.of_nat (length (trace w)) - 4) in
       mkExecResult None ""
         [ "./outputs/" +:+ id +:+ ".report.json";
           "./outputs/" +:+ id +:+ ".report.html" ];
     readJsonOracle := readJsonOracle base;
     writeFileOracle := writeFileOracle base;
     readFileOracle := readFileOracle base;
     unlinkOracle := unlinkOracle base;
     getClientOracle := getClientOracle base;
     appendOracle := appendOracle base;
     s3SendOracle := s3SendOracle base |}.

(** C8.  The storage path is
    [<yyyy-MM-dd>/<ISO timestamp>-<urlKey>-lighthouse-report-<device>.html]:
    the timestamp is the start instant of the task, the date prefix is the
    local day of a later reading of the clock, not of the start instant.
    In process, after every successful append [uploadToS3] is entered: the
    clock is read in the world the run has reached just before the report
    is read back, and unless that read fails the object is put under this
    path, the only key the task ever sends.  In the subprocess revision the
    clock is read once the audit has returned, just before the line "HTML
    report written to file", and every appended row ends with the link
    built from this path.  The example of the specification is evaluated,
    and so are two tasks started one millisecond before midnight, whose
    paths carry the next day in front of the timestamp of the day before. *)
Theorem storage_path_shape :
  (forall (offset now startedAt : Z) (urlKey device : string),
      noSlash urlKey = true ->
      noSlash device = true ->
      let path := JsDate.format_yyyy_MM_dd offset now +:+ "/"
                    +:+ JsDate.toISOString startedAt +:+ "-" +:+ urlKey
                    +:+ "-lighthouse-report-" +:+ device +:+ ".html" in
      Path.join [JsDate.format_yyyy_MM_dd offset now;
                 reportFileName startedAt urlKey device] = path
      /\ JsDate.format_yyyy_MM_dd offset now +:+ "/"
           +:+ reportFileName startedAt urlKey device = path)
  /\ (forall (env : Env) (url : string) (opts : InProcess.Opts)
             (bucketName : option string) (w : World),
         noSlash (InProcess.formFactor opts) = true ->
         let es := newEvents w (snd (InProcess.runAndSave env url opts bucketName w)) in
         let filePath :=
           Path.join ["outputs";
                      reportFileName (clock env w) (deriveKey url)
                        (InProcess.formFactor opts)] in
         (appendedValues es <> [] -> failedAppends es = [] -> readCalls es = [filePath])
         /\ (readCalls es <> [] ->
             exists wu : World,
               trace wu = trace w ++ eventsBefore isReadFile es
               /\ files wu = files w ∪ {[Path.normalize filePath]}
               /\ let now := clock env wu in
                  let path :=
                    JsDate.format_yyyy_MM_dd (utcOffsetMinutes env now) now +:+ "/"
                      +:+ JsDate.toISOString (clock env w) +:+ "-" +:+ deriveKey url
                      +:+ "-lighthouse-report-" +:+ InProcess.formFactor opts +:+ ".html" in
                  (failedReads es = [] -> putRequests es = [(bucketName, path)])
                  /\ (forall request, In request (putRequests es) ->
                                      request = (bucketName, path))))
  /\ (forall (env : Env) (url : string) (opts : Subprocess.Opts)
             (bucketName : option string) (w : World),
         let run := Subprocess.runAndSave env url opts bucketName w in
         let es := newEvents w (snd run) in
         (forall result,
             engineResults es = [result] -> checkStructure result = inr tt ->
             clientFailures es = [] -> appendedValues es <> [])
         /\ (forall values,
                In values (appendedValues es) ->
                exists (wu : World) (row : list JsValue),
                  trace wu = trace w ++ eventsBefore isWrittenNote es
                  /\ files wu = files (snd run)
                  /\ values = [row]
                  /\ length row = 11%nat
                  /\ let now := clock env wu in
                     nth 10 row JNull
                     = JStr (Js.template (HOST env) +:+ "/"
                               +:+ JsDate.format_yyyy_MM_dd (utcOffsetMinutes env now) now
                               +:+ "/" +:+ JsDate.toISOString (clock env w) +:+ "-"
                               +:+ deriveKey url +:+ "-lighthouse-report-"
                               +:+ Subprocess.device opts +:+ ".html")))
  /\ Path.join [JsDate.format_yyyy_MM_dd 0 (sampleInstant + 5000);
                reportFileName sampleInstant "ab12cd34ef56" "mobile"]
     = "2024-05-01/2024-05-01T10:00:00.000Z-ab12cd34ef56-lighthouse-report-mobile.html"
  /\ putRequests
       (newEvents emptyWorld
          (snd (InProcess.runAndSave nightEnv sampleUrl InProcess.desktopOpts
                  (Some "reports") emptyWorld)))
     = [(Some "reports",
         "2024-05-02/2024-05-01T23:59:59.999Z-66oiczinwvov-lighthouse-report-desktop.html")]
  /\ map (fun values => map (fun row => nth 10 row JNull) values)
       (appendedValues
          (newEvents emptyWorld
             (snd (Subprocess.runAndSave nightEnv sampleUrl Subprocess.mobileOpts
                     (Some "reports") emptyWorld))))
     = [[JStr ("https://cdn.example.com/2024-05-02/"
                 +:+ "2024-05-01T23:59:59.999Z-66oiczinwvov-lighthouse-report-mobile.html")]].
Proof.
  split; [|split; [|split; [|split; [|split]]]].
  - intros offset now startedAt urlKey device Hk Hd path. split.
    + now apply join_storage_path.
    + reflexivity.
  - intros env url opts bucketName w Hd es filePath.
    destruct (InProcess_storage env url opts bucketName w) as [Hentered Hkey].
    split; [exact Hentered|].
    intros Hread. destruct (Hkey Hread) as (wu & Htrace & Hfiles & Hput & Honly).
    exists wu. split; [exact Htrace|]. split; [exact Hfiles|].
    rewrite (join_storage_path _ _ _ _ _ (noSlash_deriveKey url) Hd) in Hput, Honly.
    cbv zeta. split; [exact Hput|].
    intros request Hin. fold es in Honly.
    destruct Honly as [Hnone|Hone]; rewrite ?Hnone, ?Hone in Hin.
    + destruct Hin.
    + destruct Hin as [<-|[]]. reflexivity.
  - intros env url opts bucketName w run es. split.
    + intros result Hres Hok Hclient.
      apply (Subprocess_row_is_appended env url bucketName w opts result);
        [fold run; fold es; rewrite Hres; now left | exact Hok | exact Hclient].
    + intros values Hin.
      destruct (Subprocess_storage env url opts bucketName w values Hin)
        as (wu & row & Htrace & Hfiles & Hval & Hlen & Hlink).
      exists wu, row. repeat split; assumption.
  - vm_compute. reflexivity.
  - vm_compute. reflexivity.
  - vm_compute. reflexivity.
Qed.

(** The example of the specification. *)
Lemma storage_path_shape_witness :
  noSlash "ab12cd34ef56" = true
  /\ noSlash "mobile" = true
  /\ Path.join [JsDate.format_yyyy_MM_dd 0 (sampleInstant + 5000);
                reportFileName sampleInstant "ab12cd34ef56" "mobile"]
     = JsDate.format_yyyy_MM_dd 0 (sampleInstant + 5000) +:+ "/"
         +:+ JsDate.toISOString sampleInstant +:+ "-" +:+ "ab12cd34ef56"
         +:+ "-lighthouse-report-" +:+ "mobile" +:+ ".html".
Proof.
  split; [reflexivity|]. split; [reflexivity|].
  exact (proj1 (proj1 storage_path_shape 0 (sampleInstant + 5000) sampleInstant
                  "ab12cd34ef56" "mobile" eq_refl eq_refl)).
Defined.

(* ================================================================== *)
(** * When the row can be built *)
(* ================================================================== *)

(** [saveToGoogleSheets] with an auth client appends a row exactly when
    [data], [data.lhr] and [data.lhr.categories] are neither [undefined]
    nor [null]: a missing [date], [finalUrl], [userAgent], [link] or
    category is not an error.  The row has ten values in process, and
    eleven, the last one [data.link], in the subprocess revision. *)
Theorem sheet_row_defined :
  forall (env : Env) (data : JsValue) (w : World),
    let present :=
      Js.isNullish data = false
      /\ Js.isNullish (Js.field data "lhr") = false
      /\ Js.isNullish (Js.field (Js.field data "lhr") "categories") = false in
    (let es := newEvents w (snd (InProcess.saveToGoogleSheets env data w)) in
     clientFailures es = [] ->
     (present <-> exists row, appendedValues es = [[row]] /\ length row = 10%nat)
     /\ (~ present -> appendedValues es = []))
    /\ (let es := newEvents w (snd (Subprocess.saveToGoogleSheets env data w)) in
        clientFailures es = [] ->
        (present <->
         exists row,
           appendedValues es = [[row]] /\ length row = 11%nat
           /\ nth 10 row JNull = Js.field data "link")
        /\ (~ present -> appendedValues es = [])).
Proof.
  intros env data w present. split.
  - intros es Hclient.
    pose proof (InProcess_sheet_appends env data w Hclient) as H. fold es in H.
    destruct (commonColumns data) as [e|row] eqn:Hrow.
    + assert (Habsent : ~ present).
      { intros Hp. apply commonColumns_defined in Hp as (row & Hr & _).
        rewrite Hrow in Hr. discriminate Hr. }
      split; [|intros _; exact H].
      split; [intros Hp; now contradiction Habsent|].
      intros (row & Hval & _). rewrite H in Hval. discriminate Hval.
    + destruct (commonColumns_inr data row Hrow) as (Hd & Hl & Hc & Hlen).
      split; [|intros Habsent; contradiction Habsent; now repeat split].
      split; [intros _; now exists row | intros _; now repeat split].
  - intros es Hclient.
    pose proof (Subprocess_sheet_appends env data w Hclient) as H. fold es in H.
    destruct (commonColumns data) as [e|row] eqn:Hrow.
    + assert (Habsent : ~ present).
      { intros Hp. apply commonColumns_defined in Hp as (row & Hr & _).
        rewrite Hrow in Hr. discriminate Hr. }
      split; [|intros _; exact H].
      split; [intros Hp; now contradiction Habsent|].
      intros (row & Hval & _). rewrite H in Hval. discriminate Hval.
    + destruct (commonColumns_inr data row Hrow) as (Hd & Hl & Hc & Hlen).
      split; [|intros Habsent; contradiction Habsent; now repeat split].
      split; [|intros _; now repeat split].
      intros _. exists (row ++ [Js.field data "link"]).
      split; [exact H|]. split; [rewrite List.length_app, Hlen; reflexivity|].
      rewrite app_nth2 by lia. rewrite Hlen. reflexivity.
Qed.

(* ================================================================== *)
(** * The size of a batch *)
(* ================================================================== *)

(** The paths handed to [fs.mkdir]: one per task that was started. *)
Definition directoryCalls (es : list Event) : list string :=
  flat_map (fun e => match e with
                     | EvMkdir path _ => [path]
                     | _ => []
                     end) es.

Lemma InProcess_directory (env : Env) (url : string) (opts : InProcess.Opts)
  (bucketName : option string) (w : World) :
  let run := InProcess.runAndSave env url opts bucketName w in
  exists es, trace (snd run) = trace w ++ es /\ directoryCalls es = ["outputs"].
Proof.
  intros run. subst run.
  change (wp (InProcess.runAndSave env url opts bucketName) w
            (fun _ w' => exists es, trace w' = trace w ++ es
                                    /\ directoryCalls es = ["outputs"])).
  wp_run_cases; (eexists; split; [trace_shape | reflexivity]).
Qed.

Lemma Subprocess_directory (env : Env) (url : string) (opts : Subprocess.Opts)
  (bucketName : option string) (w : World) :
  let run := Subprocess.runAndSave env url opts bucketName w in
  exists es, trace (snd run) = trace w ++ es /\ directoryCalls es = ["outputs"].
Proof.
  intros run. subst run.
  change (wp (Subprocess.runAndSave env url opts bucketName) w
            (fun _ w' => exists es, trace w' = trace w ++ es
                                    /\ directoryCalls es = ["outputs"])).
  wp_run_cases; (eexists; split; [trace_shape | reflexivity]).
Qed.

(** A batch of tasks that each make one [mkdir]: as many calls as tasks
    when the batch completes, never more. *)
Lemma sequentially_directories {O : Type} (task : string -> O -> option string -> M unit)
  (bucketName : option string) :
  (forall url opts w,
      exists es, trace (snd (task url opts bucketName w)) = trace w ++ es
                 /\ directoryCalls es = ["outputs"]) ->
  forall tasks w,
    let run := sequentially task bucketName tasks w in
    exists es,
      trace (snd run) = trace w ++ es
      /\ (length (directoryCalls es) <= length tasks)%nat
      /\ (fst run = Ok tt -> length (directoryCalls es) = length tasks).
Proof.
  intros Htask tasks. induction tasks as [|[url opts] tasks IH]; intros w.
  - exists []. split; [apply shape_start|]. split; [reflexivity | reflexivity].
  - cbn [sequentially]. unfold bind. cbv zeta.
    destruct (Htask url opts w) as (es1 & Hes1 & Hdir1).
    destruct (task url opts bucketName w) as [[[]|e|] w1]; cbn [fst snd] in *.
    + destruct (IH w1) as (es2 & Hes2 & Hle & Heq). cbv zeta in Hle, Heq.
      exists (es1 ++ es2). split; [rewrite Hes2, Hes1; now rewrite app_assoc|].
      unfold directoryCalls in *. rewrite flat_map_length_app, Hdir1. cbn [length].
      split; [lia|]. intros Hok. rewrite (Heq Hok). reflexivity.
    + exists es1. split; [exact Hes1|]. rewrite Hdir1. cbn [length].
      split; [lia | discriminate].
    + exists es1. split; [exact Hes1|]. rewrite Hdir1. cbn [length].
      split; [lia | discriminate].
Qed.

(** [processLighthouse] cuts [TARGET_URL] at every comma and nowhere else,
    and runs two tasks for each piece: the in-process batch starts exactly
    two more tasks than twice the number of commas, at least two, also for
    an empty variable; the subprocess batch starts as many when it
    completes and never more; each started task is one [mkdir] of
    [outputs], and in the subprocess revision one command.  The pieces
    joined with commas give the variable back: nothing is trimmed or
    dropped. *)
Theorem batch_has_two_tasks_per_piece :
  forall (env : Env) (targets : string) (w : World),
    TARGET_URL env = Some targets ->
    let n := (2 * commas targets + 2)%nat in
    (let run := InProcess.processLighthouse env w in
     fst run = Ok tt /\ length (directoryCalls (newEvents w (snd run))) = n)
    /\ (let run := Subprocess.processLighthouse env w in
        let es := newEvents w (snd run) in
        (length (directoryCalls es) <= n)%nat
        /\ (fst run = Ok tt ->
            length (directoryCalls es) = n /\ length (commandsRun es) = n))
    /\ Str.joinWith "," (Str.splitOn "," targets) = targets
    /\ Forall (fun url => Str.allChars notComma url = true) (Str.splitOn "," targets).
Proof.
  intros env targets w Htargets n.
  assert (Hn : forall O (d m : O),
             length (taskOrder d m (Str.splitOn "," targets)) = n).
  { intros O d m. rewrite length_taskOrder, length_splitOn. unfold n, commas. lia. }
  split; [|split; [|split; [apply joinWith_splitOn | apply splitOn_pieces]]].
  - intros run. subst run. unfold InProcess.processLighthouse.
    rewrite (processWith_contained env _ _ _ targets w Htargets)
      by (intros url opts w' e; rewrite InProcess_runAndSave_returns; discriminate).
    assert (Hok : fst (sequentially (InProcess.runAndSave env) (S3_BUCKET_NAME env)
                         (taskOrder InProcess.desktopOpts InProcess.mobileOpts
                            (Str.splitOn "," targets)) w) = Ok tt)
      by (apply sequentially_returns; intros url opts w';
          apply InProcess_runAndSave_returns).
    split; [exact Hok|].
    destruct (sequentially_directories (InProcess.runAndSave env) (S3_BUCKET_NAME env)
                (fun url opts w' =>
                   InProcess_directory env url opts (S3_BUCKET_NAME env) w')
                (taskOrder InProcess.desktopOpts InProcess.mobileOpts
                   (Str.splitOn "," targets)) w) as (es & Hes & _ & Heq).
    cbv zeta in Heq. rewrite (newEvents_app _ _ _ Hes), (Heq Hok). apply Hn.
  - intros run es. subst es run. unfold Subprocess.processLighthouse.
    rewrite (processWith_contained env _ _ _ targets w Htargets)
      by (intros url opts w' e; apply Subprocess_runAndSave_contained).
    destruct (sequentially_directories (Subprocess.runAndSave env) (S3_BUCKET_NAME env)
                (fun url opts w' =>
                   Subprocess_directory env url opts (S3_BUCKET_NAME env) w')
                (taskOrder Subprocess.desktopOpts Subprocess.mobileOpts
                   (Str.splitOn "," targets)) w) as (es & Hes & Hle & Heq).
    cbv zeta in Hle, Heq. rewrite (newEvents_app _ _ _ Hes).
    rewrite Hn in Hle, Heq. split; [exact Hle|].
    intros Hok. split; [exact (Heq Hok)|].
    destruct (Subprocess_batch env
                (taskOrder Subprocess.desktopOpts Subprocess.mobileOpts
                   (Str.splitOn "," targets)) w) as (es' & Hes' & H).
    cbv zeta in H. rewrite Hok in H. destruct H as (_ & Hcmd).
    rewrite Hes in Hes'. apply app_inv_head in Hes'. subst es'.
    rewrite Hcmd. apply Hn.
Qed.

Lemma batch_has_two_tasks_per_piece_witness :
  let targets := "https://example1.com,https://example2.com" in
  let env := sampleEnv targets fullReport (inr tt) in
  TARGET_URL env = Some targets
  /\ commas targets = 1%nat
  /\ length (directoryCalls
               (newEvents emptyWorld (snd (InProcess.processLighthouse env emptyWorld))))
     = 4%nat.
Proof.
  intros targets env.
  assert (Htargets : TARGET_URL env = Some targets) by reflexivity.
  split; [exact Htargets|]. split; [reflexivity|].
  exact (proj2 (proj1 (batch_has_two_tasks_per_piece env targets emptyWorld Htargets))).
Defined.
